(** * The exam session lifecycle of [exam_server.py]

    A shallow embedding of the request handlers of [exam_server.py] over the
    four tables the handlers read and write ([students], [questions],
    [results], [in_progress_exams]), followed by the properties of the
    session lifecycle: eligibility, shuffling, saved progress, grading.

    Conventions of the embedding.
    - A handler is a function from the committed store to a response and
      the store it leaves committed.  A handler that closes its connection
      without [conn.commit()] leaves the store as it found it.
    - [data.get(k)] is an [option]: [None] stands for an absent key and for
      a JSON null alike, as in Python.  Values that are present carry the
      types of the columns they are bound to (TEXT as [string], INTEGER as
      [Z], REAL as [float]); answers, question states and options are maps
      from strings to strings.  A request with a value of another type, a
      text where a number is expected for one, is not described.
    - A table with point lookups on its primary key is a [gmap] from the
      key.  [questions] is the list of its rows in the order of the index
      of its primary key, by [exam_id], then by [question_text]: the
      statements with [WHERE exam_id = ?] scan that index, so their rows
      come in the order of the question texts.  [results] is a list in the
      order of insertion.
    - INTEGER is a signed integer of 64 bits: a Python int outside it is
      not bound, the statement raises [OverflowError].
    - A handler runs its SELECT statements in transactions of their own;
      [check_exam_eligibility], which runs seven of them and decides on an
      earlier one what a later one is asked, is given the store that each
      of them reads.
    - [json.dumps], [json.loads], [uuid.uuid4] and the draws of
      [random.shuffle] belong to the Python library: the JSON functions are
      an interface with their round trip as its law, the identifier and the
      draws are arguments of the handler that uses them.
    - The [teachers] table is written by registration only, read by login
      only, and no foreign key is enforced (the pragma is never set): it is
      a store of its own, with the accounts in the last part.  The
      [submission_time] the store stamps on a result is left out. *)

From Stdlib Require Import ZArith Floats Lia Ascii.
From stdpp Require Import base option list strings gmap lexico sorting.

(** ** The Python library *)

(** [json.dumps] and [json.loads] on the JSON objects the handlers store. *)
Class JsonCodec := {
  json_dumps : gmap string string -> string;
  json_loads : string -> option (gmap string string);
  json_loads_dumps : forall m, json_loads (json_dumps m) = Some m
}.

(** Python's truth value testing, as [not x] and [all([...])] use it. *)
Class Truthy (A : Type) := truthy : A -> bool.

#[global] Instance truthy_bool : Truthy bool := fun b => b.
#[global] Instance truthy_string : Truthy string :=
  fun s => bool_decide (s <> ""%string).
#[global] Instance truthy_int : Truthy Z := fun z => bool_decide (z <> 0%Z).
#[global] Instance truthy_float : Truthy float :=
  fun x => negb (PrimFloat.eqb x 0%float).
#[global] Instance truthy_list {A} : Truthy (list A) :=
  fun l => match l with [] => false | _ :: _ => true end.
#[global] Instance truthy_dict : Truthy (gmap string string) :=
  fun m => bool_decide (m <> ∅).
#[global] Instance truthy_option {A} `{Truthy A} : Truthy (option A) :=
  fun o => match o with Some a => truthy a | None => false end.

(** [x is not None] *)
Definition is_not_None {A} (o : option A) : bool :=
  match o with Some _ => true | None => false end.

(** [random.shuffle(x)]: for [i] from [len(x) - 1] down to [1], draw
    [j = randbelow(i + 1)] and exchange [x[i]] and [x[j]].  The draw made at
    index [i] is [rnd i], reduced below [i + 1]. *)
Definition swap {A} (i j : nat) (x : list A) : list A :=
  match x !! i, x !! j with
  | Some a, Some b => <[i := b]> (<[j := a]> x)
  | _, _ => x
  end.

Fixpoint shuffle_from {A} (rnd : nat -> nat) (i : nat) (x : list A) : list A :=
  match i with
  | O => x
  | S i' => shuffle_from rnd i' (swap i (rnd i mod (i + 1)) x)
  end.

Definition shuffle {A} (rnd : nat -> nat) (x : list A) : list A :=
  shuffle_from rnd (length x - 1) x.

(** ** The order of TEXT values

    SQLite compares TEXT under the BINARY collation: byte by byte as
    [memcmp] does, a string before the strings it is a proper prefix of. *)
Definition bytes (s : string) : list N :=
  N_of_ascii <$> String.list_ascii_of_string s.

#[global] Instance string_lexico : Lexico string :=
  fun s1 s2 => lexico (bytes s1) (bytes s2).

Lemma bytes_inj s1 s2 : bytes s1 = bytes s2 -> s1 = s2.
Proof.
  unfold bytes. intros Hb.
  rewrite <-(String.string_of_list_ascii_of_string s1),
          <-(String.string_of_list_ascii_of_string s2).
  f_equal. revert Hb.
  generalize (String.list_ascii_of_string s1) (String.list_ascii_of_string s2).
  intros l1. induction l1 as [|a l1 IH]; intros [|b l2]; simpl; try done.
  intros [= Hab Hl]. f_equal; [|by apply IH].
  rewrite <-(ascii_N_embedding a), <-(ascii_N_embedding b). by rewrite Hab.
Qed.

#[global] Instance string_lexico_po : StrictOrder (@lexico string _).
Proof.
  split.
  - intros s. apply (irreflexivity (@lexico (list N) _)).
  - intros s1 s2 s3. apply (transitivity (R:=@lexico (list N) _)).
Qed.

#[global] Instance string_lexico_trichotomy : TrichotomyT (@lexico string _).
Proof.
  intros s1 s2.
  destruct (trichotomyT lexico (bytes s1) (bytes s2)) as [[Hlt|Heq]|Hgt].
  - exact (inleft (left Hlt)).
  - exact (inleft (right (bytes_inj _ _ Heq))).
  - exact (inright Hgt).
Defined.

(** The order of the index of a primary key of two TEXT columns. *)
#[global] Instance key_lexico_dec (k1 k2 : string * string) :
  Decision (lexico k1 k2).
Proof.
  destruct (trichotomyT lexico k1 k2) as [[Hlt|Heq]|Hgt].
  - left. exact Hlt.
  - right. rewrite Heq. apply irreflexivity, _.
  - right. intros Hlt. apply (irreflexivity lexico k1). by trans k2.
Defined.

(** SQLite's INTEGER is a signed integer of 64 bits. *)
Definition fits_int64 (z : Z) : bool :=
  bool_decide (- 2 ^ 63 <= z < 2 ^ 63)%Z.

(** ** The tables *)

Module Students.
(** keyed by [student_id] *)
Record row := { teacher_id : string; student_name : string }.
End Students.

Module Questions.
Record row := {
  exam_id : string;
  teacher_id : string;
  question_text : string;
  correct_option : string;
  options : string;
  exam_title : string;
  school_name : string;
  duration : Z;
  allowed_attempts : Z;
  passing_percentage : float;
  image_url : option string;
  enable_analysis_report : Z
}.
(** PRIMARY KEY (exam_id, question_text) *)
Definition key (q : row) : string * string := (exam_id q, question_text q).
End Questions.

Module Results.
Record row := {
  result_id : string;
  exam_id : string;
  student_id : string;
  teacher_id : string;
  student_name : string;
  score : Z;
  answers : string
}.
End Results.

Module InProgress.
(** keyed by [(student_id, exam_id)] *)
Record row := {
  teacher_id : string;
  answers : string;
  question_status : string;
  time_left : Z
}.
End InProgress.

Record DB := {
  students : gmap string Students.row;
  questions : list Questions.row;
  results : list Results.row;
  in_progress_exams : gmap (string * string) InProgress.row
}.

(** [init_db] on a new file: every table exists and is empty. *)
Definition init_db : DB :=
  {| students := ∅; questions := []; results := []; in_progress_exams := ∅ |}.

Definition set_students (f : gmap string Students.row -> gmap string Students.row)
    (db : DB) : DB :=
  {| students := f (students db); questions := questions db;
     results := results db; in_progress_exams := in_progress_exams db |}.

Definition set_questions (f : list Questions.row -> list Questions.row)
    (db : DB) : DB :=
  {| students := students db; questions := f (questions db);
     results := results db; in_progress_exams := in_progress_exams db |}.

Definition set_results (f : list Results.row -> list Results.row) (db : DB) : DB :=
  {| students := students db; questions := questions db;
     results := f (results db); in_progress_exams := in_progress_exams db |}.

Definition set_in_progress
    (f : gmap (string * string) InProgress.row -> gmap (string * string) InProgress.row)
    (db : DB) : DB :=
  {| students := students db; questions := questions db;
     results := results db; in_progress_exams := f (in_progress_exams db) |}.

(** ** Statements on the tables

    A bound parameter that is NULL makes [column = ?] false on every row. *)

(** [SELECT ... FROM questions WHERE exam_id = ?] *)
Definition questions_of_exam (exam_id : option string) (db : DB) : list Questions.row :=
  filter (fun q => Some (Questions.exam_id q) = exam_id) (questions db).

(** [... WHERE exam_id = ? AND question_text != "placeholder"] *)
Definition real_questions (exam_id : option string) (db : DB) : list Questions.row :=
  filter (fun q => Some (Questions.exam_id q) = exam_id
                   /\ Questions.question_text q <> "placeholder"%string)
         (questions db).

(** [... WHERE exam_id = ? AND teacher_id = ? AND question_text = "placeholder"] *)
Definition placeholder_of (exam_id teacher_id : option string) (db : DB)
    : list Questions.row :=
  filter (fun q => Some (Questions.exam_id q) = exam_id
                   /\ Some (Questions.teacher_id q) = teacher_id
                   /\ Questions.question_text q = "placeholder"%string)
         (questions db).

(** [cursor.fetchone()] *)
Definition fetchone {A} (rows : list A) : option A := head rows.

(** [SELECT COUNT( * ) FROM results WHERE student_id = ? AND exam_id = ?] *)
Definition num_attempts (student_id exam_id : option string) (db : DB) : Z :=
  Z.of_nat (length (filter (fun r => Some (Results.student_id r) = student_id
                                     /\ Some (Results.exam_id r) = exam_id)
                           (results db))).

(** [SELECT ... FROM students WHERE student_id = ?] *)
Definition student_by_id (student_id : option string) (db : DB)
    : option Students.row :=
  sid ← student_id; students db !! sid.

(** [SELECT 1 FROM students WHERE student_id = ? AND teacher_id = ?] *)
Definition student_of_teacher (student_id : option string) (teacher_id : string)
    (db : DB) : option Students.row :=
  st ← student_by_id student_id db;
  if decide (Students.teacher_id st = teacher_id) then Some st else None.

(** [SELECT ... FROM in_progress_exams WHERE student_id = ? AND exam_id = ?] *)
Definition in_progress_of (student_id exam_id : option string) (db : DB)
    : option InProgress.row :=
  sid ← student_id; eid ← exam_id; in_progress_exams db !! (sid, eid).

(** A new row takes its place in the index of the primary key: before the
    first row of a greater key. *)
Fixpoint index_insert (r : Questions.row) (t : list Questions.row)
    : list Questions.row :=
  match t with
  | [] => [r]
  | q :: t' =>
      if decide (lexico (Questions.key r) (Questions.key q)) then r :: q :: t'
      else q :: index_insert r t'
  end.

(** [INSERT OR REPLACE INTO questions]: the row holding the key goes, the new
    row is added. *)
Definition insert_or_replace_question (r : Questions.row)
    (t : list Questions.row) : list Questions.row :=
  index_insert r (filter (fun q => Questions.key q <> Questions.key r) t).

(** [DELETE FROM questions WHERE teacher_id = ? AND exam_id = ? AND question_text = ?] *)
Definition delete_question_row (teacher_id exam_id question_text : string)
    (t : list Questions.row) : list Questions.row :=
  filter (fun q => ~ (Questions.teacher_id q = teacher_id
                      /\ Questions.exam_id q = exam_id
                      /\ Questions.question_text q = question_text)) t.

(** ** The collaborators: roster and authoring handlers

    Each returns the HTTP status with the store it leaves. *)

Module Upload.
(** One entry of the [questions] list of a bulk upload.  The handler reads
    [q['question_text']], [q['correct_option']] and [q['options']], which
    raise [KeyError] on an entry without the key, and [q.get('image_url')]:
    a field is [None] when the entry has no such key.  A text or a correct
    option that is null ends as an absent one does: the column is NOT NULL,
    the INSERT raises [IntegrityError]. *)
Record question := {
  question_text : option string;
  correct_option : option string;
  options : option (gmap string string);
  image_url : option string
}.
End Upload.

Section Handlers.
Context `{JsonCodec}.

(** [INSERT OR IGNORE INTO students] *)
Definition insert_or_ignore_student (student_id : string) (r : Students.row)
    (t : gmap string Students.row) : gmap string Students.row :=
  match t !! student_id with Some _ => t | None => <[student_id := r]> t end.

(** [student['student_id']] and [student['student_name']] of one entry of
    the list, [None] when the entry lacks one of the keys ([KeyError]). *)
Definition student_entry (student : option string * option string)
    : option (string * string) :=
  student_id ← student.1; student_name ← student.2;
  Some (student_id, student_name).

(** An entry is a pair of what it holds under ['student_id'] and under
    ['student_name'].  The [KeyError] of an entry is caught by
    [except Exception]: the reply is 500, and the rows inserted for the
    entries before it are not committed. *)
Definition bulk_upload_students (teacher_id : option string)
    (students_list : option (list (option string * option string))) (db : DB)
    : Z * DB :=
  if negb (truthy teacher_id) || negb (truthy students_list) then (400, db)%Z
  else match teacher_id, students_list with
       | Some teacher_id, Some students_list =>
           match mapM student_entry students_list with
           | None => (500, db)%Z
           | Some students_list =>
               (200%Z,
                set_students
                  (fun t => foldl (fun t student =>
                               insert_or_ignore_student student.1
                                 {| Students.teacher_id := teacher_id;
                                    Students.student_name := student.2 |} t)
                             t students_list) db)
           end
       | _, _ => (400, db)%Z
       end.

Definition create_single_student (teacher_id student_id student_name : option string)
    (db : DB) : Z * DB :=
  if negb (truthy teacher_id) || negb (truthy student_id)
     || negb (truthy student_name) then (400, db)%Z
  else match teacher_id, student_id, student_name with
       | Some teacher_id, Some student_id, Some student_name =>
           match students db !! student_id with
           | Some _ => (409, db)%Z
           | None =>
               (201%Z,
                set_students
                  (insert student_id
                     {| Students.teacher_id := teacher_id;
                        Students.student_name := student_name |}) db)
           end
       | _, _, _ => (400, db)%Z
       end.

Definition delete_student (teacher_id student_id : option string) (db : DB)
    : Z * DB :=
  match teacher_id, student_id with
  | Some teacher_id, Some student_id =>
      match student_of_teacher (Some student_id) teacher_id db with
      | Some _ => (200%Z, set_students (delete student_id) db)
      | None => (404, db)%Z
      end
  | _, _ => (404, db)%Z
  end.

(** The UPDATE moves the row to its new key; a new key that another row
    holds raises [IntegrityError], reported as 500 with nothing written. *)
Definition update_student
    (teacher_id old_student_id new_student_id student_name : option string)
    (db : DB) : Z * DB :=
  if negb (truthy teacher_id && truthy old_student_id
           && truthy new_student_id && truthy student_name) then (400, db)%Z
  else match teacher_id, old_student_id, new_student_id, student_name with
       | Some teacher_id, Some old_student_id, Some new_student_id,
         Some student_name =>
           match student_of_teacher (Some old_student_id) teacher_id db with
           | None => (404, db)%Z
           | Some _ =>
               if decide (new_student_id <> old_student_id
                          /\ is_Some (students db !! new_student_id))
               then (500, db)%Z
               else (200%Z,
                     set_students
                       (fun t => <[new_student_id :=
                                    {| Students.teacher_id := teacher_id;
                                       Students.student_name := student_name |}]>
                                   (delete old_student_id t)) db)
           end
       | _, _, _, _ => (400, db)%Z
       end.

(** The row a question upload writes: the question with the settings of the
    exam's placeholder row copied into it. *)
Definition question_row (exam_id teacher_id question_text correct_option : string)
    (options : gmap string string) (image_url : option string)
    (exam_settings : Questions.row) : Questions.row :=
  {| Questions.exam_id := exam_id;
     Questions.teacher_id := teacher_id;
     Questions.question_text := question_text;
     Questions.correct_option := correct_option;
     Questions.options := json_dumps options;
     Questions.exam_title := Questions.exam_title exam_settings;
     Questions.school_name := Questions.school_name exam_settings;
     Questions.duration := Questions.duration exam_settings;
     Questions.allowed_attempts := Questions.allowed_attempts exam_settings;
     Questions.passing_percentage := Questions.passing_percentage exam_settings;
     Questions.image_url := image_url;
     Questions.enable_analysis_report :=
       Questions.enable_analysis_report exam_settings |}.

(** The row of one entry of a bulk upload, [None] when the entry lacks
    ['options'], ['question_text'] or ['correct_option'] ([KeyError]). *)
Definition uploaded_row (exam_id teacher_id : string)
    (exam_settings : Questions.row) (q : Upload.question)
    : option Questions.row :=
  options ← Upload.options q;
  question_text ← Upload.question_text q;
  correct_option ← Upload.correct_option q;
  Some (question_row exam_id teacher_id question_text correct_option options
          (Upload.image_url q) exam_settings).

(** The [KeyError] of an entry is caught by [except Exception]: the reply is
    500, and the rows written for the entries before it are not
    committed. *)
Definition bulk_upload_questions (teacher_id exam_id : option string)
    (questions_list : option (list Upload.question)) (db : DB) : Z * DB :=
  if negb (truthy teacher_id) || negb (truthy exam_id)
     || negb (truthy questions_list) then (400, db)%Z
  else match teacher_id, exam_id, questions_list with
       | Some tid, Some eid, Some qs =>
           match fetchone (placeholder_of exam_id teacher_id db) with
           | None => (404, db)%Z
           | Some exam_settings =>
               match mapM (uploaded_row eid tid exam_settings) qs with
               | None => (500, db)%Z
               | Some rows =>
                   (200%Z,
                    set_questions
                      (fun t => foldl (fun t row =>
                                   insert_or_replace_question row t) t rows)
                      db)
               end
           end
       | _, _, _ => (400, db)%Z
       end.

Definition single_upload_question
    (teacher_id exam_id question_text original_question_text correct_option
       : option string)
    (options : option (gmap string string)) (image_url : option string)
    (db : DB) : Z * DB :=
  if negb (truthy teacher_id && truthy exam_id && truthy question_text
           && truthy correct_option && truthy options) then (400, db)%Z
  else match teacher_id, exam_id, question_text, correct_option, options with
       | Some tid, Some eid, Some text, Some correct, Some opts =>
           match fetchone (placeholder_of exam_id teacher_id db) with
           | None => (404, db)%Z
           | Some exam_settings =>
               let deleted :=
                 match original_question_text with
                 | Some original =>
                     if truthy original && bool_decide (original <> text)
                     then delete_question_row tid eid original
                     else fun t => t
                 | None => fun t => t
                 end in
               (200%Z,
                set_questions
                  (fun t => insert_or_replace_question
                              (question_row eid tid text correct opts image_url
                                 exam_settings) (deleted t)) db)
           end
       | _, _, _, _, _ => (400, db)%Z
       end.

(** The UPDATE of [save_exam_settings]: the placeholder row of the exam and
    teacher takes the new settings, every other row stays. *)
Definition update_placeholder (exam_id teacher_id exam_title school_name : string)
    (duration attempts : Z) (passing_percentage : float) (enable : Z)
    (q : Questions.row) : Questions.row :=
  if decide (Questions.exam_id q = exam_id /\ Questions.teacher_id q = teacher_id
             /\ Questions.question_text q = "placeholder"%string)
  then {| Questions.exam_id := Questions.exam_id q;
          Questions.teacher_id := Questions.teacher_id q;
          Questions.question_text := Questions.question_text q;
          Questions.correct_option := Questions.correct_option q;
          Questions.options := Questions.options q;
          Questions.exam_title := exam_title;
          Questions.school_name := school_name;
          Questions.duration := duration;
          Questions.allowed_attempts := attempts;
          Questions.passing_percentage := passing_percentage;
          Questions.image_url := Questions.image_url q;
          Questions.enable_analysis_report := enable |}
  else q.

(** The UPDATE and the INSERT bind [duration] and [attempts]: outside 64
    bits they raise [OverflowError]; the INSERT of a key that a row of
    another teacher holds raises [IntegrityError].  Both are caught by
    [except Exception]: the reply is 500 and nothing is committed. *)
Definition save_exam_settings
    (teacher_id exam_id exam_title school_name : option string)
    (duration attempts : option Z) (passing_percentage : option float)
    (enable_analysis_report : option bool) (db : DB) : Z * DB :=
  if negb (truthy teacher_id && truthy exam_id && truthy exam_title
           && truthy school_name && truthy duration && truthy attempts
           && is_not_None passing_percentage) then (400, db)%Z
  else match teacher_id, exam_id, exam_title, school_name, duration, attempts,
             passing_percentage with
       | Some tid, Some eid, Some title, Some school, Some dur, Some att, Some pp =>
           let enable := if truthy enable_analysis_report then 1%Z else 0%Z in
           if negb (fits_int64 dur && fits_int64 att) then (500, db)%Z
           else
           match fetchone (placeholder_of exam_id teacher_id db) with
           | Some _ =>
               (200%Z,
                set_questions
                  (fmap (update_placeholder eid tid title school dur att pp enable))
                  db)
           | None =>
               let r := {| Questions.exam_id := eid;
                           Questions.teacher_id := tid;
                           Questions.question_text := "placeholder";
                           Questions.correct_option := "A";
                           Questions.options := "{}";
                           Questions.exam_title := title;
                           Questions.school_name := school;
                           Questions.duration := dur;
                           Questions.allowed_attempts := att;
                           Questions.passing_percentage := pp;
                           Questions.image_url := None;
                           Questions.enable_analysis_report := enable |} in
               if decide (Questions.key r ∈ Questions.key <$> questions db)
               then (500, db)%Z
               else (200%Z, set_questions (index_insert r) db)
           end
       | _, _, _, _, _, _, _ => (400, db)%Z
       end.

Definition delete_question (teacher_id exam_id question_text : option string)
    (db : DB) : Z * DB :=
  if negb (truthy teacher_id && truthy exam_id && truthy question_text)
  then (400, db)%Z
  else match teacher_id, exam_id, question_text with
       | Some tid, Some eid, Some text =>
           let db' := set_questions (delete_question_row tid eid text) db in
           if decide (length (questions db') < length (questions db))%nat
           then (200, db')%Z else (404, db')%Z
       | _, _, _ => (400, db)%Z
       end.

End Handlers.

(** ** The session handlers *)

Module Payload.
(** one element of ['questions'] in the reply of [/api/exam/start] *)
Record question := {
  question_text : string;
  options : gmap string string;
  image_url : option string
}.
(** ['exam_data'] *)
Record exam_data := {
  exam_title : string;
  school_name : string;
  duration : Z;
  allowed_attempts : Z;
  passing_percentage : float;
  enable_analysis_report : bool;
  questions : list question;
  answers : gmap string string;
  question_status : gmap string string;
  time_left : Z;
  attempt_number : Z
}.
Record start := {
  student_name : string;
  teacher_id : string;
  exam : exam_data
}.
End Payload.

Module Listing.
(** one element of the reply of [/api/questions/by-exam/<exam_id>] *)
Record question := {
  question_text : string;
  correct_option : string;
  options : gmap string string;
  image_url : option string
}.
End Listing.

Module Report.
(** one element of ['analysis_report'] *)
Record entry := {
  question_text : string;
  options : gmap string string;
  student_answer : option string;
  correct_answer : option string;
  is_correct : bool
}.
End Report.

(** The replies of [check_exam_eligibility], one per [return], and the
    exception that leaves its [try ... finally] uncaught. *)
Inductive start_response :=
  | ExamNotFound
  | StudentNotFound
  | SettingsNotFound
  | AttemptsExhausted (attempts_taken : Z)
  | NoQuestions
  | EligibilityPassed (p : Payload.start)
  | StartUnhandled.


(** The replies of [save_progress]; [SaveFailed] is the one of
    [except Exception]. *)
Inductive save_response := InvalidData | ProgressSaved | SaveFailed.

Definition save_status (r : save_response) : Z :=
  match r with InvalidData => 400 | ProgressSaved => 200 | SaveFailed => 500 end.

(** What [except Exception as e] of [submit_exam] can catch. *)
Inductive exn := AttributeError | JSONDecodeError | IntegrityError | OperationalError.

Inductive submit_response :=
  | NoQuestionsToGrade
  | Submitted (score : Z) (analysis_report : list Report.entry)
  | SubmissionFailed (e : exn).

Definition submit_status (r : submit_response) : Z :=
  match r with
  | Submitted _ _ => 200
  | NoQuestionsToGrade | SubmissionFailed _ => 500
  end.

(** *** A connection and its transaction

    [working] is what the statements of the connection see, [committed] is
    what [conn.close()] leaves in the store. *)
Record connection := { committed : DB; working : DB }.

Definition connect (db : DB) : connection := {| committed := db; working := db |}.
Definition close (c : connection) : DB := committed c.

Definition tx (A : Type) : Type := connection -> (exn + A) * connection.

Definition tx_ret {A} (a : A) : tx A := fun c => (inr a, c).
Definition tx_bind {A B} (m : tx A) (k : A -> tx B) : tx B :=
  fun c => match m c with
           | (inl e, c') => (inl e, c')
           | (inr a, c') => k a c'
           end.
Definition raise {A} (e : exn) : tx A := fun c => (inl e, c).

#[global] Instance tx_mret : MRet tx := @tx_ret.
#[global] Instance tx_mbind : MBind tx := fun A B k m => tx_bind m k.

(** a SELECT *)
Definition query {A} (f : DB -> A) : tx A := fun c => (inr (f (working c)), c).
(** an INSERT or DELETE *)
Definition execute (stmt : DB -> exn + DB) : tx unit :=
  fun c => match stmt (working c) with
           | inl e => (inl e, c)
           | inr db => (inr tt, {| committed := committed c; working := db |})
           end.
(** [conn.commit()] *)
Definition commit : tx unit :=
  fun c => (inr tt, {| committed := working c; working := working c |}).

(** The places of [submit_exam] at which the store itself may fail. *)
Inductive tx_point := AtInsert | AtDelete | AtCommit.

#[global] Instance tx_point_eq_dec : EqDecision tx_point.
Proof. solve_decision. Defined.

Definition storage (fault : option tx_point) (here : tx_point) : tx unit :=
  if decide (fault = Some here) then raise OperationalError else tx_ret tt.

(** [INSERT INTO results]: [result_id] is the primary key. *)
Definition insert_result (r : Results.row) (db : DB) : exn + DB :=
  if decide (Results.result_id r ∈ Results.result_id <$> results db)
  then inl IntegrityError
  else inr (set_results (fun t => t ++ [r]) db).

(** [DELETE FROM in_progress_exams WHERE student_id = ? AND exam_id = ?] *)
Definition delete_in_progress (student_id exam_id : string) (db : DB) : exn + DB :=
  inr (set_in_progress (delete (student_id, exam_id)) db).

Section Session.
Context `{JsonCodec}.

Definition question_view (q : Questions.row) : option Payload.question :=
  options ← json_loads (Questions.options q);
  Some {| Payload.question_text := Questions.question_text q;
          Payload.options := options;
          Payload.image_url := Questions.image_url q |}.

(** The stores that the seven SELECT statements of [check_exam_eligibility]
    read, in the order of the statements.  The connection is in autocommit
    for them: what another request commits between two statements, the
    later one sees. *)
Record snapshots := {
  at_exam_teacher : DB;
  at_ownership : DB;
  at_exam_settings : DB;
  at_attempts : DB;
  at_student : DB;
  at_questions : DB;
  at_in_progress : DB
}.

(** the request is served with no other request committing meanwhile *)
Definition undisturbed (db : DB) : snapshots :=
  {| at_exam_teacher := db; at_ownership := db; at_exam_settings := db;
     at_attempts := db; at_student := db; at_questions := db;
     at_in_progress := db |}.

Definition check_exam_eligibility_over (rnd : nat -> nat)
    (student_id exam_id : option string) (s : snapshots) : start_response :=
  match fetchone (questions_of_exam exam_id (at_exam_teacher s)) with
  | None => ExamNotFound
  | Some exam_teacher =>
  match student_of_teacher student_id (Questions.teacher_id exam_teacher)
          (at_ownership s) with
  | None => StudentNotFound
  | Some _ =>
  match fetchone (questions_of_exam exam_id (at_exam_settings s)) with
  | None => SettingsNotFound
  | Some exam_settings =>
      let allowed_attempts := Questions.allowed_attempts exam_settings in
      let attempts_taken := num_attempts student_id exam_id (at_attempts s) in
      if bool_decide (attempts_taken >= allowed_attempts)%Z
      then AttemptsExhausted attempts_taken
      else
        let student_data := student_by_id student_id (at_student s) in
        let exam_data_rows := real_questions exam_id (at_questions s) in
        if negb (truthy exam_data_rows) then NoQuestions
        else
          default StartUnhandled (
            questions_list ← mapM question_view exam_data_rows;
            let questions_list := shuffle rnd questions_list in
            let in_progress_data :=
              in_progress_of student_id exam_id (at_in_progress s) in
            answers ← match in_progress_data with
                      | Some p => json_loads (InProgress.answers p)
                      | None => Some ∅
                      end;
            question_status ← match in_progress_data with
                              | Some p => json_loads (InProgress.question_status p)
                              | None => Some ∅
                              end;
            let time_left := match in_progress_data with
                             | Some p => InProgress.time_left p
                             | None => (Questions.duration exam_settings * 60)%Z
                             end in
            student_data ← student_data;
            Some (EligibilityPassed
              {| Payload.student_name := Students.student_name student_data;
                 Payload.teacher_id := Students.teacher_id student_data;
                 Payload.exam :=
                   {| Payload.exam_title := Questions.exam_title exam_settings;
                      Payload.school_name := Questions.school_name exam_settings;
                      Payload.duration := Questions.duration exam_settings;
                      Payload.allowed_attempts :=
                        Questions.allowed_attempts exam_settings;
                      Payload.passing_percentage :=
                        Questions.passing_percentage exam_settings;
                      Payload.enable_analysis_report :=
                        truthy (Questions.enable_analysis_report exam_settings);
                      Payload.questions := questions_list;
                      Payload.answers := answers;
                      Payload.question_status := question_status;
                      Payload.time_left := time_left;
                      Payload.attempt_number := (attempts_taken + 1)%Z |} |}))
  end end end.

(** [check_exam_eligibility] served on one store. *)
Definition check_exam_eligibility (rnd : nat -> nat)
    (student_id exam_id : option string) (db : DB) : start_response :=
  check_exam_eligibility_over rnd student_id exam_id (undisturbed db).

(** [all([student_id, exam_id, teacher_id, answers, time_left is not None,
    question_status])] *)
Definition all_progress_fields (student_id exam_id teacher_id : option string)
    (answers : option (gmap string string)) (time_left : option Z)
    (question_status : option (gmap string string)) : bool :=
  truthy student_id && truthy exam_id && truthy teacher_id
  && truthy answers && is_not_None time_left && truthy question_status.

(** The INSERT OR REPLACE binds [time_left]: outside 64 bits it raises
    [OverflowError], caught by [except Exception]: the reply is 500 and
    nothing is committed. *)
Definition save_progress (student_id exam_id teacher_id : option string)
    (answers : option (gmap string string)) (time_left : option Z)
    (question_status : option (gmap string string)) (db : DB)
    : save_response * DB :=
  if negb (all_progress_fields student_id exam_id teacher_id answers time_left
             question_status)
  then (InvalidData, db)
  else match student_id, exam_id, teacher_id, answers, time_left,
             question_status with
       | Some sid, Some eid, Some tid, Some answers, Some time_left,
         Some question_status =>
           if negb (fits_int64 time_left) then (SaveFailed, db)
           else
           (ProgressSaved,
            set_in_progress
              (insert (sid, eid)
                 {| InProgress.teacher_id := tid;
                    InProgress.answers := json_dumps answers;
                    InProgress.question_status := json_dumps question_status;
                    InProgress.time_left := time_left |}) db)
       | _, _, _, _, _, _ => (InvalidData, db)
       end.

Definition listed_question (q : Questions.row) : option Listing.question :=
  options ← json_loads (Questions.options q);
  Some {| Listing.question_text := Questions.question_text q;
          Listing.correct_option := Questions.correct_option q;
          Listing.options := options;
          Listing.image_url := Questions.image_url q |}.

(** The reply is the list with status 200; [None] is the exception of
    [json.loads], which the handler does not catch. *)
Definition get_questions_by_exam (exam_id : string) (db : DB)
    : option (list Listing.question) :=
  mapM listed_question (real_questions (Some exam_id) db).

(** [{row['question_text']: row['correct_option'] for row in all_questions}]:
    a later row of the same text replaces an earlier one. *)
Definition correct_answers_map (all_questions : list Questions.row)
    : gmap string string :=
  foldl (fun m row =>
           <[Questions.question_text row := Questions.correct_option row]> m)
        ∅ all_questions.

(** The loop [for question in all_questions] from the state [(score,
    analysis_report)] it has reached. *)
Fixpoint grade (answers : option (gmap string string))
    (correct_answers : gmap string string) (score : Z)
    (analysis_report : list Report.entry) (all_questions : list Questions.row)
    : exn + Z * list Report.entry :=
  match all_questions with
  | [] => inr (score, analysis_report)
  | question :: rest =>
      let q_text := Questions.question_text question in
      match answers with
      | None => inl AttributeError
      | Some a =>
          let student_answer_key := a !! q_text in
          let correct_answer_key := correct_answers !! q_text in
          let is_correct :=
            bool_decide (student_answer_key = correct_answer_key) in
          let score := if is_correct then (score + 1)%Z else score in
          match json_loads (Questions.options question) with
          | None => inl JSONDecodeError
          | Some options =>
              grade answers correct_answers score
                (analysis_report ++
                   [{| Report.question_text := q_text;
                       Report.options := options;
                       Report.student_answer := student_answer_key;
                       Report.correct_answer := correct_answer_key;
                       Report.is_correct := is_correct |}])
                rest
          end
      end
  end.

(** The body of [try] in [submit_exam]. *)
Definition submit_body (result_id : string) (fault : option tx_point)
    (exam_id student_id student_name : option string)
    (answers : option (gmap string string)) (teacher_id : option string)
    : tx submit_response :=
  all_questions ← query (real_questions exam_id);
  if negb (truthy all_questions) then mret NoQuestionsToGrade
  else
    match grade answers (correct_answers_map all_questions) 0 [] all_questions with
    | inl e => raise e
    | inr (score, analysis_report) =>
        storage fault AtInsert;;
        match exam_id, student_id, student_name, teacher_id, answers with
        | Some eid, Some sid, Some name, Some tid, Some a =>
            execute (insert_result
                       {| Results.result_id := result_id;
                          Results.exam_id := eid;
                          Results.student_id := sid;
                          Results.teacher_id := tid;
                          Results.student_name := name;
                          Results.score := score;
                          Results.answers := json_dumps a |});;
            storage fault AtDelete;;
            execute (delete_in_progress sid eid);;
            storage fault AtCommit;;
            commit;;
            mret (Submitted score analysis_report)
        | _, _, _, _, _ => raise IntegrityError
        end
    end.

(** [submit_exam]: [except] turns an exception into the 500 reply, and
    [finally: conn.close()] drops what was not committed. *)
Definition submit_exam (result_id : string) (fault : option tx_point)
    (exam_id student_id student_name : option string)
    (answers : option (gmap string string)) (teacher_id : option string)
    (db : DB) : submit_response * DB :=
  let (r, c) := submit_body result_id fault exam_id student_id student_name
                  answers teacher_id (connect db) in
  (match r with inl e => SubmissionFailed e | inr reply => reply end, close c).

End Session.

(** ** Requests and reachable stores *)

Inductive request :=
  | BulkUploadStudents (teacher_id : option string)
      (students_list : option (list (option string * option string)))
  | CreateSingleStudent (teacher_id student_id student_name : option string)
  | DeleteStudent (teacher_id student_id : option string)
  | UpdateStudent
      (teacher_id old_student_id new_student_id student_name : option string)
  | BulkUploadQuestions (teacher_id exam_id : option string)
      (questions_list : option (list Upload.question))
  | SingleUploadQuestion
      (teacher_id exam_id question_text original_question_text correct_option
         : option string)
      (options : option (gmap string string)) (image_url : option string)
  | SaveExamSettings (teacher_id exam_id exam_title school_name : option string)
      (duration attempts : option Z) (passing_percentage : option float)
      (enable_analysis_report : option bool)
  | DeleteQuestion (teacher_id exam_id question_text : option string)
  | StartExam (rnd : nat -> nat) (student_id exam_id : option string)
  | SaveProgress (student_id exam_id teacher_id : option string)
      (answers : option (gmap string string)) (time_left : option Z)
      (question_status : option (gmap string string))
  | GetQuestionsByExam (exam_id : string)
  | SubmitExam (result_id : string) (fault : option tx_point)
      (exam_id student_id student_name : option string)
      (answers : option (gmap string string)) (teacher_id : option string).

Section Server.
Context `{JsonCodec}.

(** The store a request leaves.  [check_exam_eligibility] and
    [get_questions_by_exam] execute SELECT statements only. *)
Definition handle (db : DB) (r : request) : DB :=
  match r with
  | BulkUploadStudents t l => (bulk_upload_students t l db).2
  | CreateSingleStudent t s n => (create_single_student t s n db).2
  | DeleteStudent t s => (delete_student t s db).2
  | UpdateStudent t o n name => (update_student t o n name db).2
  | BulkUploadQuestions t e l => (bulk_upload_questions t e l db).2
  | SingleUploadQuestion t e q o c opts i =>
      (single_upload_question t e q o c opts i db).2
  | SaveExamSettings t e title school d a p en =>
      (save_exam_settings t e title school d a p en db).2
  | DeleteQuestion t e q => (delete_question t e q db).2
  | StartExam _ _ _ => db
  | SaveProgress s e t a tl qs => (save_progress s e t a tl qs db).2
  | GetQuestionsByExam _ => db
  | SubmitExam rid f e s n a t => (submit_exam rid f e s n a t db).2
  end.

Definition run (reqs : list request) (db : DB) : DB := foldl handle db reqs.

Definition reachable (db : DB) : Prop := exists reqs, db = run reqs init_db.



(** What the last accepted [save_progress] of a student and exam wrote, over
    a sequence of requests. *)
Definition saved_by (saved : gmap (string * string)
                               (gmap string string * gmap string string * Z))
    (r : request)
    : gmap (string * string) (gmap string string * gmap string string * Z) :=
  match r with
  | SaveProgress (Some sid) (Some eid) t (Some a) (Some tl) (Some qs) =>
      if all_progress_fields (Some sid) (Some eid) t (Some a) (Some tl) (Some qs)
         && fits_int64 tl
      then <[(sid, eid) := (a, qs, tl)]> saved
      else saved
  | _ => saved
  end.

Definition last_saved (reqs : list request)
    : gmap (string * string) (gmap string string * gmap string string * Z) :=
  foldl saved_by ∅ reqs.

End Server.

(** ** A codec to run the handlers on

    An instance of the JSON interface: a map is written as the binary digits
    of its code.  It serves to evaluate the handlers on concrete stores; the
    theorems hold for every instance. *)

Fixpoint bits_of_pos (p : positive) : string :=
  match p with
  | xH => ""
  | xO p => String "0"%char (bits_of_pos p)
  | xI p => String "1"%char (bits_of_pos p)
  end.

Fixpoint pos_of_bits (s : string) : option positive :=
  match s with
  | EmptyString => Some xH
  | String c s =>
      if Ascii.eqb c "0"%char then xO <$> pos_of_bits s
      else if Ascii.eqb c "1"%char then xI <$> pos_of_bits s
      else None
  end.

Lemma pos_of_bits_of_pos p : pos_of_bits (bits_of_pos p) = Some p.
Proof. induction p as [p IH|p IH|]; simpl; rewrite ?IH; reflexivity. Qed.

#[global] Program Instance bit_codec : JsonCodec := {|
  json_dumps m := bits_of_pos (encode m);
  json_loads s := pos_of_bits s ≫= decode
|}.
Next Obligation.
  intros m. simpl. rewrite pos_of_bits_of_pos. simpl. apply decode_encode.
Qed.


(** ** A sample exam

    One teacher, one exam of two questions with a single attempt, one
    student, and the answers of the scenario of a right and a wrong
    answer. *)

Module Sample.
Definition choices : gmap string string := <["A" := "4"]> (<["B" := "5"]> ∅).

Definition settings : request :=
  SaveExamSettings (Some "T1") (Some "E1") (Some "Arithmetic")
    (Some "Hill School") (Some 30%Z) (Some 1%Z) (Some 40%float) (Some true).

Definition question1 : request :=
  SingleUploadQuestion (Some "T1") (Some "E1") (Some "2+2") None (Some "A")
    (Some choices) None.

Definition question2 : request :=
  SingleUploadQuestion (Some "T1") (Some "E1") (Some "2+3") None (Some "B")
    (Some choices) None.

Definition student : request :=
  CreateSingleStudent (Some "T1") (Some "S1") (Some "Ann").

Definition answers : gmap string string :=
  <["2+2" := "A"]> (<["2+3" := "C"]> ∅).

Definition submit (result_id : string) : request :=
  SubmitExam result_id None (Some "E1") (Some "S1") (Some "Ann") (Some answers)
    (Some "T1").

(** the exam is set up and the student enrolled *)
Definition ready : list request := [settings; question1; question2; student].

(** the same, the second question uploaded before the first *)
Definition reversed : list request := [settings; question2; question1; student].

(** the settings saved again after the uploads, with 45 minutes and two
    attempts *)
Definition settings_again : request :=
  SaveExamSettings (Some "T1") (Some "E1") (Some "Arithmetic II")
    (Some "Hill School") (Some 45%Z) (Some 2%Z) (Some 40%float) (Some true).

Definition status : gmap string string := <["2+2" := "answered"]> ∅.

(** progress saved with five minutes left *)
Definition save : request :=
  SaveProgress (Some "S1") (Some "E1") (Some "T1") (Some answers)
    (Some 300%Z) (Some status).

End Sample.

(** ** Handlers that only read, and the teachers' accounts *)

(** The replies of [get_student_by_id]: 400 without an id, 404 for an id
    that no student has, else the name and the teacher. *)
Inductive student_reply :=
  | StudentIdRequired
  | StudentUnknown
  | StudentFound (student_name teacher_id : string).

Definition get_student_by_id (student_id : option string) (db : DB)
    : student_reply :=
  if negb (truthy student_id) then StudentIdRequired
  else match student_by_id student_id db with
       | Some student =>
           StudentFound (Students.student_name student)
             (Students.teacher_id student)
       | None => StudentUnknown
       end.

(** [get_students_by_teacher]: the ids and names of the students of the
    teacher of the URL.  The statement has no ORDER BY; the rows come in
    the order in which the table is traversed. *)
Definition get_students_by_teacher (teacher_id : string) (db : DB)
    : list (string * string) :=
  (fun student => (student.1, Students.student_name student.2))
    <$> filter (fun student => Students.teacher_id student.2 = teacher_id)
          (map_to_list (students db)).

(** [get_exams_by_teacher]: [SELECT DISTINCT exam_id, exam_title] over the
    rows of the teacher of the URL, the placeholder and the questions
    alike.  The statement has no ORDER BY and no index serves its WHERE:
    the pairs are those of the reply, their order is not meant to be. *)
Definition get_exams_by_teacher (teacher_id : string) (db : DB)
    : list (string * string) :=
  remove_dups
    ((fun q => (Questions.exam_id q, Questions.exam_title q))
       <$> filter (fun q => Questions.teacher_id q = teacher_id) (questions db)).

(** ** The teachers' accounts

    No other handler reads or writes the [teachers] table, and the foreign
    keys that name it are not enforced (the connection never switches
    [PRAGMA foreign_keys] on), so the table is a store of its own.  werkzeug
    hashes a password under a salt that it draws; the salt is an argument
    here, and of the two functions the handlers rely on one fact: a hash
    checks against the password it was made from.  The table,
    [teacher_id TEXT PRIMARY KEY, password_hash TEXT NOT NULL], is a map
    from the ids to the hashes. *)
Class PasswordHash := {
  generate_password_hash : string -> string -> string;
  check_password_hash : string -> string -> bool;
  check_generated_hash salt password :
    check_password_hash (generate_password_hash salt password) password = true
}.

Section Accounts.
Context `{PasswordHash}.

Definition register_teacher (salt : string) (teacher_id password : option string)
    (teachers : gmap string string) : Z * gmap string string :=
  if negb (truthy teacher_id) || negb (truthy password) then (400, teachers)%Z
  else match teacher_id, password with
       | Some tid, Some pw =>
           match teachers !! tid with
           | Some _ => (409, teachers)%Z
           | None =>
               (201%Z, <[tid := generate_password_hash salt pw]> teachers)
           end
       | _, _ => (400, teachers)%Z
       end.

Definition login_teacher (teacher_id password : option string)
    (teachers : gmap string string) : Z :=
  if negb (truthy teacher_id) || negb (truthy password) then 400%Z
  else match teacher_id, password with
       | Some tid, Some pw =>
           match teachers !! tid with
           | Some password_hash =>
               if check_password_hash password_hash pw then 200%Z else 401%Z
           | None => 401%Z
           end
       | _, _ => 400%Z
       end.

(** one registration request: the salt drawn, the id and the password *)
Definition registration : Type := string * option string * option string.

Definition register_all (requests : list registration)
    (teachers : gmap string string) : gmap string string :=
  foldl (fun t r => (register_teacher r.1.1 r.1.2 r.2 t).2) teachers requests.

End Accounts.

(** The scheme that keeps the password as its hash: the least instance of
    the interface, on which the account handlers evaluate. *)
#[global] Program Instance plain_hash : PasswordHash := {|
  generate_password_hash _ password := password;
  check_password_hash password_hash password :=
    bool_decide (password_hash = password)
|}.
Next Obligation. intros. by apply bool_decide_eq_true. Qed.

(** Two entries of a bulk upload to the sample exam. *)
Module SampleUpload.
(** the same text twice, with two keys *)
Definition first : Upload.question :=
  {| Upload.question_text := Some "2+4"; Upload.correct_option := Some "A";
     Upload.options := Some Sample.choices; Upload.image_url := None |}.

Definition second : Upload.question :=
  {| Upload.question_text := Some "2+4"; Upload.correct_option := Some "B";
     Upload.options := Some Sample.choices; Upload.image_url := None |}.
End SampleUpload.

(** * Properties *)

Section Properties.
Context `{JsonCodec}.

#[local] Arguments grade : simpl never.
#[local] Arguments correct_answers_map : simpl never.

(** ** The shuffle permutes *)

Lemma swap_Permutation {A} (i j : nat) (x : list A) : swap i j x ≡ₚ x.
Proof.
  unfold swap.
  destruct (x !! i) as [a|] eqn:Hi; [|done].
  destruct (x !! j) as [b|] eqn:Hj; [|done].
  by apply Permutation_insert_swap.
Qed.

Lemma shuffle_from_Permutation {A} rnd (i : nat) (x : list A) :
  shuffle_from rnd i x ≡ₚ x.
Proof.
  revert x. induction i as [|i IH]; intros x; simpl; [done|].
  rewrite IH. apply swap_Permutation.
Qed.

Lemma shuffle_Permutation {A} rnd (x : list A) : shuffle rnd x ≡ₚ x.
Proof. apply shuffle_from_Permutation. Qed.

(** ** The index of the primary key *)

Lemma index_insert_Permutation r t : index_insert r t ≡ₚ r :: t.
Proof.
  induction t as [|q t IH]; simpl; [done|].
  case_decide; [done|]. rewrite IH. apply Permutation_swap.
Qed.

Lemma insert_or_replace_Permutation r t :
  insert_or_replace_question r t
  ≡ₚ filter (fun q => Questions.key q <> Questions.key r) t ++ [r].
Proof.
  unfold insert_or_replace_question.
  rewrite index_insert_Permutation. apply Permutation_cons_append.
Qed.

Lemma elem_of_index_insert q r t : q ∈ index_insert r t <-> q = r \/ q ∈ t.
Proof. by rewrite index_insert_Permutation, elem_of_cons. Qed.

Lemma elem_of_insert_or_replace q r t :
  q ∈ insert_or_replace_question r t
  <-> q = r \/ (Questions.key q <> Questions.key r /\ q ∈ t).
Proof.
  unfold insert_or_replace_question.
  by rewrite elem_of_index_insert, list_elem_of_filter.
Qed.

Lemma filter_index_insert_out (P : Questions.row -> Prop)
    `{!forall q, Decision (P q)} r t :
  ~ P r -> filter P (index_insert r t) = filter P t.
Proof.
  intros Hr. induction t as [|q t IH]; simpl.
  - by rewrite filter_cons, decide_False.
  - case_decide.
    + by rewrite filter_cons, decide_False.
    + rewrite !filter_cons. by rewrite IH.
Qed.

Lemma fmap_index_insert (f : Questions.row -> Questions.row) r t :
  (forall q, Questions.key (f q) = Questions.key q) ->
  f <$> index_insert r t = index_insert (f r) (f <$> t).
Proof.
  intros Hf. induction t as [|q t IH]; [done|].
  rewrite fmap_cons. simpl index_insert. rewrite !Hf.
  case_decide; [done|]. by rewrite fmap_cons, IH.
Qed.

(** the rows are in the strict order of their keys *)
Definition index_sorted (t : list Questions.row) : Prop :=
  StronglySorted (fun q1 q2 => lexico (Questions.key q1) (Questions.key q2)) t.

Lemma index_sorted_keys_unique t : index_sorted t -> NoDup (Questions.key <$> t).
Proof.
  induction 1 as [|q t _ IH Hq]; simpl; [apply NoDup_nil_2|].
  apply NoDup_cons. split; [|done].
  intros (q' & Hk & Hq')%list_elem_of_fmap.
  rewrite Forall_forall in Hq. specialize (Hq q' Hq'). rewrite Hk in Hq.
  by apply (irreflexivity lexico) in Hq.
Qed.

Lemma index_sorted_filter (P : Questions.row -> Prop)
    `{!forall q, Decision (P q)} t :
  index_sorted t -> index_sorted (filter P t).
Proof.
  induction 1 as [|q t _ IH Hq]; [constructor|].
  rewrite filter_cons. case_decide; [|done].
  constructor; [done|]. rewrite Forall_forall in *.
  intros q' [_ Hq']%list_elem_of_filter. by apply Hq.
Qed.

Lemma index_sorted_fmap (f : Questions.row -> Questions.row) t :
  (forall q, Questions.key (f q) = Questions.key q) ->
  index_sorted t -> index_sorted (f <$> t).
Proof.
  intros Hf. induction 1 as [|q t _ IH Hq]; simpl; [constructor|].
  constructor; [done|]. rewrite Forall_fmap.
  eapply Forall_impl; [exact Hq|]. intros q' Hq'. simpl. by rewrite !Hf.
Qed.

Lemma index_insert_sorted r t :
  index_sorted t -> Questions.key r ∉ Questions.key <$> t ->
  index_sorted (index_insert r t).
Proof.
  induction 1 as [|q t Ht IH Hq]; intros Hr; simpl.
  - constructor; [constructor|done].
  - rewrite fmap_cons, not_elem_of_cons in Hr. destruct Hr as [Hne Hr].
    case_decide as Hlt.
    + constructor; [by constructor|]. constructor; [done|].
      eapply Forall_impl; [exact Hq|]. intros q' Hq'. simpl in *. by trans (Questions.key q).
    + constructor; [by apply IH|].
      rewrite index_insert_Permutation. constructor; [|done].
      destruct (trichotomyT lexico (Questions.key r) (Questions.key q))
        as [[?|?]|?]; done.
Qed.

Lemma insert_or_replace_sorted r t :
  index_sorted t -> index_sorted (insert_or_replace_question r t).
Proof.
  intros Ht. apply index_insert_sorted; [by apply index_sorted_filter|].
  intros (q & Hk & [Hne _]%list_elem_of_filter)%list_elem_of_fmap. done.
Qed.

(** ** What every reachable store satisfies *)

Definition keys_unique (t : list Questions.row) : Prop :=
  NoDup (Questions.key <$> t).

Definition options_dumped (t : list Questions.row) : Prop :=
  Forall (fun q => Questions.question_text q <> "placeholder"%string ->
                   exists m, Questions.options q = json_dumps m) t.

Definition store_ok (db : DB) : Prop :=
  keys_unique (questions db) /\ options_dumped (questions db).

Lemma keys_unique_filter (P : Questions.row -> Prop) `{!forall q, Decision (P q)} t :
  keys_unique t -> keys_unique (filter P t).
Proof.
  unfold keys_unique. intros Hnd.
  eapply sublist_NoDup; [exact Hnd|].
  apply fmap_sublist, sublist_filter.
Qed.

Lemma options_dumped_filter (P : Questions.row -> Prop) `{!forall q, Decision (P q)} t :
  options_dumped t -> options_dumped (filter P t).
Proof.
  unfold options_dumped. rewrite !Forall_forall.
  intros Ht q [_ Hq]%list_elem_of_filter. by apply Ht.
Qed.

Lemma insert_or_replace_keys r t :
  keys_unique t -> keys_unique (insert_or_replace_question r t).
Proof.
  intros Ht. unfold keys_unique.
  rewrite insert_or_replace_Permutation.
  rewrite fmap_app. apply NoDup_app. split; [|split].
  - by apply keys_unique_filter.
  - intros k Hk Hr. apply list_elem_of_fmap in Hk as (q & -> & Hq).
    apply list_elem_of_filter in Hq as [Hne _].
    apply list_elem_of_singleton in Hr. done.
  - apply NoDup_singleton.
Qed.

Lemma insert_or_replace_dumped r t :
  (exists m, Questions.options r = json_dumps m) ->
  options_dumped t -> options_dumped (insert_or_replace_question r t).
Proof.
  intros Hr Ht. unfold options_dumped.
  rewrite insert_or_replace_Permutation.
  apply Forall_app. split.
  - by apply options_dumped_filter.
  - by apply Forall_singleton.
Qed.

Lemma question_row_dumped e t q c o i s :
  exists m, Questions.options (question_row e t q c o i s) = json_dumps m.
Proof. by exists o. Qed.

Lemma update_placeholder_key e t ti sc d a p en q :
  Questions.key (update_placeholder e t ti sc d a p en q) = Questions.key q.
Proof. unfold update_placeholder. by case_decide. Qed.

Lemma update_placeholder_text e t ti sc d a p en q :
  Questions.question_text (update_placeholder e t ti sc d a p en q)
  = Questions.question_text q.
Proof. unfold update_placeholder. by case_decide. Qed.

Lemma update_placeholder_options e t ti sc d a p en q :
  Questions.options (update_placeholder e t ti sc d a p en q)
  = Questions.options q.
Proof. unfold update_placeholder. by case_decide. Qed.

Lemma store_ok_questions db f :
  store_ok db ->
  (keys_unique (questions db) -> keys_unique (f (questions db))) ->
  (options_dumped (questions db) -> options_dumped (f (questions db))) ->
  store_ok (set_questions f db).
Proof. intros [H1 H2] Hk Hd. split; simpl; auto. Qed.

Lemma uploaded_row_inv e t s q r :
  uploaded_row e t s q = Some r ->
  exists text c o,
    Upload.question_text q = Some text /\ Upload.correct_option q = Some c
    /\ Upload.options q = Some o
    /\ r = question_row e t text c o (Upload.image_url q) s.
Proof.
  unfold uploaded_row.
  destruct (Upload.options q) as [o|]; [|done].
  destruct (Upload.question_text q) as [text|]; [|done].
  destruct (Upload.correct_option q) as [c|]; [|done].
  intros [= <-]. by exists text, c, o.
Qed.

Lemma uploaded_rows_dumped e t s qs rows :
  mapM (uploaded_row e t s) qs = Some rows ->
  Forall (fun r => exists m, Questions.options r = json_dumps m) rows.
Proof.
  intros Hrows%mapM_Some_1. induction Hrows as [|q r qs rows Hr _ IH]; [done|].
  constructor; [|done].
  apply uploaded_row_inv in Hr as (text & c & o & _ & _ & _ & ->).
  apply question_row_dumped.
Qed.

Lemma bulk_insert_ok rows t :
  Forall (fun r => exists m, Questions.options r = json_dumps m) rows ->
  keys_unique t /\ options_dumped t ->
  keys_unique (foldl (fun t row => insert_or_replace_question row t) t rows)
  /\ options_dumped
       (foldl (fun t row => insert_or_replace_question row t) t rows).
Proof.
  intros Hrows. revert t.
  induction Hrows as [|r rows Hr _ IH]; intros t [Hk Hd]; simpl.
  - done.
  - apply IH. split.
    + by apply insert_or_replace_keys.
    + by apply insert_or_replace_dumped.
Qed.

(** ** The transaction of [submit_exam] *)

Definition result_row (rid eid sid tid name : string) (score : Z)
    (a : gmap string string) : Results.row :=
  {| Results.result_id := rid; Results.exam_id := eid;
     Results.student_id := sid; Results.teacher_id := tid;
     Results.student_name := name; Results.score := score;
     Results.answers := json_dumps a |}.

Ltac tx_unfold :=
  unfold submit_exam, submit_body, mbind, tx_mbind, tx_bind, query, storage,
    execute, commit, mret, tx_mret, tx_ret, raise, insert_result,
    delete_in_progress, connect, close in *; simpl in *.

Ltac unchanged :=
  right; split; [done | first [by left | right; eexists; reflexivity]].

Ltac start_unfold :=
  unfold check_exam_eligibility, check_exam_eligibility_over, undisturbed;
  cbn [at_exam_teacher at_ownership at_exam_settings at_attempts at_student
       at_questions at_in_progress].

Lemma submit_exam_cases rid f e s n a t db :
  (exists score rep eid sid name tid ans,
      e = Some eid /\ s = Some sid /\ n = Some name /\ t = Some tid
      /\ a = Some ans /\ f = None
      /\ real_questions e db <> []
      /\ grade a (correct_answers_map (real_questions e db)) 0 []
           (real_questions e db) = inr (score, rep)
      /\ (rid ∉ (Results.result_id <$> results db))
      /\ submit_exam rid f e s n a t db
         = (Submitted score rep,
            set_in_progress (delete (sid, eid))
              (set_results (fun t => t ++ [result_row rid eid sid tid name score ans])
                 db)))
  \/ ((submit_exam rid f e s n a t db).2 = db
      /\ ((submit_exam rid f e s n a t db).1 = NoQuestionsToGrade
          \/ exists x, (submit_exam rid f e s n a t db).1 = SubmissionFailed x)).
Proof.
  tx_unfold.
  destruct (real_questions e db) as [|q qs] eqn:Hq; simpl.
  { unchanged. }
  destruct (grade a (correct_answers_map (q :: qs)) 0 [] (q :: qs))
    as [x|[score rep]] eqn:Hg; simpl.
  { unchanged. }
  destruct (decide (f = Some AtInsert)); simpl; [unchanged|].
  destruct e as [eid|], s as [sid|], n as [name|], t as [tid|], a as [ans|];
    simpl; try (unchanged; fail).
  case_decide; simpl; [unchanged|].
  destruct (decide (f = Some AtDelete)); simpl; [unchanged|].
  destruct (decide (f = Some AtCommit)); simpl; [unchanged|].
  left. exists score, rep, eid, sid, name, tid, ans.
  repeat split; try done.
  destruct f as [[]|]; done.
Qed.

(** ** Every request keeps the invariant *)

Lemma store_ok_same_questions db db' :
  questions db' = questions db -> store_ok db -> store_ok db'.
Proof. unfold store_ok. by intros ->. Qed.

Lemma submit_exam_questions rid f e s n a t db :
  questions (submit_exam rid f e s n a t db).2 = questions db.
Proof.
  destruct (submit_exam_cases rid f e s n a t db)
    as [(score & rep & eid & sid & name & tid & ans & _ & _ & _ & _ & _ & _
         & _ & _ & _ & ->)|[-> _]]; done.
Qed.

Lemma update_placeholder_ok e t ti sc d a p en qs :
  keys_unique qs /\ options_dumped qs ->
  keys_unique (update_placeholder e t ti sc d a p en <$> qs)
  /\ options_dumped (update_placeholder e t ti sc d a p en <$> qs).
Proof.
  unfold keys_unique, options_dumped. intros [Hk Hd]. split.
  - rewrite <-list_fmap_compose.
    erewrite list_fmap_ext; [exact Hk|].
    intros i q _. apply update_placeholder_key.
  - apply Forall_fmap. eapply Forall_impl; [exact Hd|].
    intros q Hq. simpl.
    by rewrite update_placeholder_text, update_placeholder_options.
Qed.

Lemma handle_store_ok db r : store_ok db -> store_ok (handle db r).
Proof.
  intros Hok. destruct r; simpl.
  - unfold bulk_upload_students. repeat case_match; done.
  - unfold create_single_student. repeat case_match; done.
  - unfold delete_student. repeat case_match; done.
  - unfold update_student. repeat case_match; done.
  - unfold bulk_upload_questions. repeat case_match; try done.
    destruct Hok as [Hk Hd]. simpl.
    apply bulk_insert_ok; [by eapply uploaded_rows_dumped|done].
  - unfold single_upload_question. repeat case_match; try done;
      destruct Hok as [Hk Hd]; split; simpl;
      first [ apply insert_or_replace_keys
            | apply insert_or_replace_dumped; [apply question_row_dumped|] ];
      try done;
      first [ by apply keys_unique_filter | by apply options_dumped_filter ].
  - unfold save_exam_settings. repeat case_match; try done;
      try (by apply update_placeholder_ok);
      destruct Hok as [Hk Hd]; split; simpl;
      first [ unfold keys_unique; rewrite index_insert_Permutation, fmap_cons;
              apply NoDup_cons; split; done
            | unfold options_dumped; rewrite index_insert_Permutation;
              apply Forall_cons; split; done ].
  - unfold delete_question. repeat case_match; try done;
      destruct Hok as [Hk Hd]; split; simpl;
      first [ by apply keys_unique_filter | by apply options_dumped_filter ].
  - done.
  - unfold save_progress. repeat case_match; done.
  - done.
  - eapply store_ok_same_questions; [apply submit_exam_questions|done].
Qed.

Lemma run_snoc reqs r db : run (reqs ++ [r]) db = handle (run reqs db) r.
Proof. unfold run. apply foldl_snoc. Qed.

Lemma reachable_store_ok db : reachable db -> store_ok db.
Proof.
  intros [reqs ->]. induction reqs as [|r reqs IH] using rev_ind.
  - split; simpl; [apply NoDup_nil_2|apply Forall_nil_2].
  - rewrite run_snoc. by apply handle_store_ok.
Qed.

(** The rows of [questions] are in the order of the index of the primary
    key, whatever the order of the requests that wrote them. *)
Lemma handle_index_sorted db r :
  index_sorted (questions db) -> index_sorted (questions (handle db r)).
Proof.
  intros Hs. destruct r; simpl.
  - unfold bulk_upload_students. by repeat case_match.
  - unfold create_single_student. by repeat case_match.
  - unfold delete_student. by repeat case_match.
  - unfold update_student. by repeat case_match.
  - unfold bulk_upload_questions. repeat case_match; try done. simpl.
    generalize dependent (questions db). clear.
    match goal with |- context [foldl _ _ ?rows] => induction rows as [|r rows IH] end;
      intros t Ht; simpl; [done|].
    by apply IH, insert_or_replace_sorted.
  - unfold single_upload_question. repeat case_match; try done; simpl;
      apply insert_or_replace_sorted; try done.
    unfold delete_question_row. by apply index_sorted_filter.
  - unfold save_exam_settings. repeat case_match; try done; simpl;
      first [ by apply index_insert_sorted
            | apply index_sorted_fmap; [|done];
              intros q; apply update_placeholder_key ].
  - unfold delete_question. repeat case_match; try done; simpl;
      unfold delete_question_row; by apply index_sorted_filter.
  - done.
  - unfold save_progress. by repeat case_match.
  - done.
  - by rewrite submit_exam_questions.
Qed.

Lemma reachable_index_sorted db : reachable db -> index_sorted (questions db).
Proof.
  intros [reqs ->]. induction reqs as [|r reqs IH] using rev_ind.
  - constructor.
  - rewrite run_snoc. by apply handle_index_sorted.
Qed.

(** [rows] are the rows of the exam that the table holds, the placeholder
    apart, each once and in the order of their question texts. *)
Definition exam_rows (exam_id : option string) (db : DB)
    (rows : list Questions.row) : Prop :=
  StronglySorted lexico (Questions.question_text <$> rows)
  /\ forall q,
       q ∈ rows
       <-> q ∈ questions db /\ Some (Questions.exam_id q) = exam_id
           /\ Questions.question_text q <> "placeholder"%string.

Lemma exam_rows_sorted (P : Questions.row -> Prop) `{!forall q, Decision (P q)}
    e t :
  index_sorted t ->
  StronglySorted lexico
    (Questions.question_text
       <$> filter (fun q => Some (Questions.exam_id q) = e /\ P q) t).
Proof.
  induction 1 as [|q t _ IH Hq]; [constructor|].
  rewrite filter_cons. case_decide as Hin; [|done].
  rewrite fmap_cons. constructor; [done|].
  rewrite Forall_fmap, Forall_forall.
  intros q' [[He' _] Hq']%list_elem_of_filter. simpl.
  rewrite Forall_forall in Hq. destruct (Hq q' Hq') as [Hlt|[_ Hlt]]; [|done].
  destruct Hin as [He _]. simpl in Hlt.
  assert (Questions.exam_id q = Questions.exam_id q') as Heq by congruence.
  rewrite Heq in Hlt. by apply (irreflexivity lexico) in Hlt.
Qed.

Lemma real_questions_rows e db :
  index_sorted (questions db) -> exam_rows e db (real_questions e db).
Proof.
  intros Hs. split.
  - by apply (exam_rows_sorted
                (fun q => Questions.question_text q <> "placeholder"%string)).
  - intros q. unfold real_questions. rewrite list_elem_of_filter. tauto.
Qed.



(** ** Grading *)

(** The number of questions whose correct option is the answer submitted
    under the question's text. *)
Definition matches (a : gmap string string) (qs : list Questions.row) : Z :=
  Z.of_nat (length (filter (fun q => a !! Questions.question_text q
                                     = Some (Questions.correct_option q)) qs)).

(** The record of the analysis report that belongs to a question. *)
Definition graded (a : gmap string string) (q : Questions.row)
    (e : Report.entry) : Prop :=
  Report.question_text e = Questions.question_text q
  /\ json_loads (Questions.options q) = Some (Report.options e)
  /\ Report.student_answer e = a !! Questions.question_text q
  /\ Report.correct_answer e = Some (Questions.correct_option q)
  /\ Report.is_correct e
     = bool_decide (a !! Questions.question_text q
                    = Some (Questions.correct_option q)).

Lemma elem_of_real_questions q e db :
  q ∈ real_questions e db <->
  e = Some (Questions.exam_id q)
  /\ Questions.question_text q <> "placeholder"%string
  /\ q ∈ questions db.
Proof.
  unfold real_questions. rewrite list_elem_of_filter.
  split; intros [[He Ht] Hin] || intros (He & Ht & Hin); repeat split; congruence.
Qed.

Lemma real_questions_texts_unique e db :
  keys_unique (questions db) ->
  NoDup (Questions.question_text <$> real_questions e db).
Proof.
  intros Hk.
  assert (Hkeys : NoDup (Questions.key <$> real_questions e db)).
  { by apply keys_unique_filter. }
  replace (Questions.question_text <$> real_questions e db)
    with (snd <$> (Questions.key <$> real_questions e db))
    by (by rewrite <-list_fmap_compose).
  apply NoDup_fmap_2_strong; [|done].
  intros [e1 t1] [e2 t2] (q1 & Hq1 & Hin1)%list_elem_of_fmap
    (q2 & Hq2 & Hin2)%list_elem_of_fmap Ht. simpl in Ht.
  apply elem_of_real_questions in Hin1 as [He1 _].
  apply elem_of_real_questions in Hin2 as [He2 _].
  unfold Questions.key in *. simplify_eq. congruence.
Qed.

Lemma real_questions_dumped e db :
  options_dumped (questions db) ->
  Forall (fun q => exists m, Questions.options q = json_dumps m)
         (real_questions e db).
Proof.
  unfold options_dumped. rewrite !Forall_forall.
  intros Hd q (_ & Hreal & Hin)%elem_of_real_questions. by apply Hd.
Qed.

Lemma correct_answers_fold_other (m : gmap string string) qs k :
  k ∉ (Questions.question_text <$> qs) ->
  foldl (fun m row => <[Questions.question_text row
                        := Questions.correct_option row]> m) m qs !! k
  = m !! k.
Proof.
  revert m. induction qs as [|q qs IH]; intros m Hk; simpl; [done|].
  rewrite fmap_cons, not_elem_of_cons in Hk. destruct Hk as [Hne Hk].
  rewrite IH by done. by rewrite lookup_insert_ne.
Qed.

Lemma correct_answers_fold_lookup (m : gmap string string) qs q :
  NoDup (Questions.question_text <$> qs) -> q ∈ qs ->
  foldl (fun m row => <[Questions.question_text row
                        := Questions.correct_option row]> m) m qs
    !! Questions.question_text q
  = Some (Questions.correct_option q).
Proof.
  revert m. induction qs as [|q' qs IH]; intros m Hnd Hin; simpl.
  { by apply elem_of_nil in Hin. }
  rewrite fmap_cons in Hnd. apply NoDup_cons in Hnd as [Hfresh Hnd].
  apply elem_of_cons in Hin as [->|Hin].
  - rewrite correct_answers_fold_other by done. apply lookup_insert_eq.
  - by apply IH.
Qed.

Lemma correct_answers_map_lookup qs q :
  NoDup (Questions.question_text <$> qs) -> q ∈ qs ->
  correct_answers_map qs !! Questions.question_text q
  = Some (Questions.correct_option q).
Proof. apply correct_answers_fold_lookup. Qed.

Lemma matches_cons a q qs :
  matches a (q :: qs)
  = ((if bool_decide (a !! Questions.question_text q
                      = Some (Questions.correct_option q))
      then 1 else 0) + matches a qs)%Z.
Proof.
  unfold matches. rewrite filter_cons.
  case_bool_decide; case_decide; try done; simpl; lia.
Qed.

Lemma grade_cons a cm score report q qs :
  grade (Some a) cm score report (q :: qs)
  = match json_loads (Questions.options q) with
    | None => inl JSONDecodeError
    | Some options =>
        let is_correct :=
          bool_decide (a !! Questions.question_text q
                       = cm !! Questions.question_text q) in
        grade (Some a) cm (if is_correct then (score + 1)%Z else score)
          (report ++
             [{| Report.question_text := Questions.question_text q;
                 Report.options := options;
                 Report.student_answer := a !! Questions.question_text q;
                 Report.correct_answer := cm !! Questions.question_text q;
                 Report.is_correct := is_correct |}])
          qs
    end.
Proof. reflexivity. Qed.

Lemma grade_spec a cm qs : forall score report,
  (forall q, q ∈ qs -> cm !! Questions.question_text q
                       = Some (Questions.correct_option q)) ->
  Forall (fun q => exists m, Questions.options q = json_dumps m) qs ->
  exists entries,
    grade (Some a) cm score report qs
    = inr ((score + matches a qs)%Z, report ++ entries)
    /\ Forall2 (graded a) qs entries.
Proof.
  induction qs as [|q qs IH]; intros score report Hcm Hd.
  - exists []. unfold grade, matches. simpl.
    rewrite Z.add_0_r, app_nil_r. split; [done|constructor].
  - apply Forall_cons in Hd as [[m Hm] Hd].
    assert (Hq : cm !! Questions.question_text q
                 = Some (Questions.correct_option q)).
    { apply Hcm. by left. }
    rewrite grade_cons, Hm, json_loads_dumps, Hq. cbv zeta.
    edestruct IH as (entries & -> & Hent); [|exact Hd|].
    { intros q' Hq'. apply Hcm. by right. }
    eexists (_ :: entries). split.
    + rewrite matches_cons, <-app_assoc. simpl.
      f_equal. f_equal. case_bool_decide; lia.
    + constructor; [|done].
      unfold graded. simpl. by rewrite Hm, json_loads_dumps.
Qed.

(** On a store that keeps its invariant, the loop of [submit_exam] ends
    with the count of matches and one record per question. *)
Lemma grade_real_questions a e db :
  store_ok db ->
  exists report,
    grade (Some a) (correct_answers_map (real_questions e db)) 0 []
      (real_questions e db)
    = inr (matches a (real_questions e db), report)
    /\ Forall2 (graded a) (real_questions e db) report.
Proof.
  intros [Hk Hd].
  destruct (grade_spec a (correct_answers_map (real_questions e db))
              (real_questions e db) 0 []) as (entries & Hg & Hent).
  - intros q Hq. apply correct_answers_map_lookup; [|done].
    by apply real_questions_texts_unique.
  - by apply real_questions_dumped.
  - exists entries. by rewrite Hg.
Qed.

Lemma submit_exam_success rid eid sid name tid ans db score report :
  real_questions (Some eid) db <> [] ->
  grade (Some ans) (correct_answers_map (real_questions (Some eid) db)) 0 []
    (real_questions (Some eid) db) = inr (score, report) ->
  rid ∉ (Results.result_id <$> results db) ->
  submit_exam rid None (Some eid) (Some sid) (Some name) (Some ans) (Some tid) db
  = (Submitted score report,
     set_in_progress (delete (sid, eid))
       (set_results (fun t => t ++ [result_row rid eid sid tid name score ans])
          db)).
Proof.
  intros Hne Hg Hfresh. tx_unfold.
  destruct (real_questions (Some eid) db) as [|q qs] eqn:Hq; [done|]. simpl.
  rewrite Hg. simpl. by rewrite decide_False.
Qed.

Lemma matches_insert_unknown ans k v qs :
  (forall q, q ∈ qs -> Questions.question_text q <> k) ->
  matches (<[k := v]> ans) qs = matches ans qs.
Proof.
  induction qs as [|q qs IH]; intros Hk; [done|].
  rewrite !matches_cons, IH by (intros q' Hq'; apply Hk; by right).
  rewrite lookup_insert_ne; [done|].
  intros ->. by eapply Hk; [left|].
Qed.

Lemma matches_unanswered ans k qs :
  ans !! k = None ->
  matches ans qs
  = matches ans (filter (fun q => Questions.question_text q <> k) qs).
Proof.
  intros Hk. induction qs as [|q qs IH]; [done|].
  rewrite filter_cons. case_decide as Hq.
  - by rewrite !matches_cons, IH.
  - rewrite matches_cons, IH, Hq, Hk.
    by rewrite bool_decide_eq_false_2.
Qed.

(** C2.  On a reachable store, the score [submit_exam] returns is the number
    of questions of the exam, as stored when the request is handled, whose
    correct option is the answer submitted under the question's text.  A
    submission with its fields present, a fresh identifier and no failure of
    the store is graded whatever its answers hold; a question without an
    answer is not counted, and an answer under a text that is no question's
    changes nothing. *)
Theorem submit_score_counts_matches db :
  reachable db ->
  forall rid fault e s n a t,
    (forall score report,
        (submit_exam rid fault e s n a t db).1 = Submitted score report ->
        exists ans, a = Some ans /\ score = matches ans (real_questions e db))
    /\ (forall eid sid name tid ans,
          real_questions (Some eid) db <> [] ->
          rid ∉ (Results.result_id <$> results db) ->
          exists report,
            (submit_exam rid None (Some eid) (Some sid) (Some name) (Some ans)
               (Some tid) db).1
            = Submitted (matches ans (real_questions (Some eid) db)) report)
    /\ (forall ans k,
          ans !! k = None ->
          matches ans (real_questions e db)
          = matches ans (filter (fun q => Questions.question_text q <> k)
                           (real_questions e db)))
    /\ (forall ans k v,
          (forall q, q ∈ real_questions e db -> Questions.question_text q <> k) ->
          matches (<[k := v]> ans) (real_questions e db)
          = matches ans (real_questions e db)).
Proof.
  intros Hok%reachable_store_ok rid fault e s n a t.
  split; [|split; [|split]].
  - intros score report Hr.
    destruct (submit_exam_cases rid fault e s n a t db)
      as [(score' & rep' & eid & sid & name & tid & ans & -> & -> & -> & ->
           & -> & -> & _ & Hg & _ & Heq)|[_ [Hf|[x Hf]]]];
      [|congruence..].
    rewrite Heq in Hr. simpl in Hr. simplify_eq.
    destruct (grade_real_questions ans (Some eid) db Hok) as (rep & Hg' & _).
    exists ans. split; [done|]. congruence.
  - intros eid sid name tid ans Hne Hfresh.
    destruct (grade_real_questions ans (Some eid) db Hok) as (rep & Hg & _).
    exists rep. by erewrite submit_exam_success.
  - intros ans k. apply matches_unanswered.
  - intros ans k v. apply matches_insert_unknown.
Qed.

(** ** Stores that differ in one column of [questions] *)

Definition set_enable_analysis_report (v : Z) (q : Questions.row) : Questions.row :=
  {| Questions.exam_id := Questions.exam_id q;
     Questions.teacher_id := Questions.teacher_id q;
     Questions.question_text := Questions.question_text q;
     Questions.correct_option := Questions.correct_option q;
     Questions.options := Questions.options q;
     Questions.exam_title := Questions.exam_title q;
     Questions.school_name := Questions.school_name q;
     Questions.duration := Questions.duration q;
     Questions.allowed_attempts := Questions.allowed_attempts q;
     Questions.passing_percentage := Questions.passing_percentage q;
     Questions.image_url := Questions.image_url q;
     Questions.enable_analysis_report := v |}.

Definition set_correct_option (c : string) (q : Questions.row) : Questions.row :=
  {| Questions.exam_id := Questions.exam_id q;
     Questions.teacher_id := Questions.teacher_id q;
     Questions.question_text := Questions.question_text q;
     Questions.correct_option := c;
     Questions.options := Questions.options q;
     Questions.exam_title := Questions.exam_title q;
     Questions.school_name := Questions.school_name q;
     Questions.duration := Questions.duration q;
     Questions.allowed_attempts := Questions.allowed_attempts q;
     Questions.passing_percentage := Questions.passing_percentage q;
     Questions.image_url := Questions.image_url q;
     Questions.enable_analysis_report := Questions.enable_analysis_report q |}.

(** The store in which every row of [questions] carries the flag, or the
    correct option, that [f] gives it. *)
Definition with_flags (f : Questions.row -> Z) (db : DB) : DB :=
  set_questions (fmap (fun q => set_enable_analysis_report (f q) q)) db.

Definition with_correct_options (f : Questions.row -> string) (db : DB) : DB :=
  set_questions (fmap (fun q => set_correct_option (f q) q)) db.

Lemma filter_fmap_agree {A} (g : A -> A) (P : A -> Prop)
    `{!forall x, Decision (P x)} (l : list A) :
  (forall x, P (g x) <-> P x) -> filter P (g <$> l) = g <$> filter P l.
Proof.
  intros Hg. induction l as [|x l IH]; [done|].
  rewrite fmap_cons, !filter_cons.
  destruct (decide (P (g x))) as [Hx|Hx], (decide (P x)) as [Hx'|Hx'];
    rewrite ?fmap_cons, IH; try done; exfalso;
    [apply Hx'; by apply Hg | apply Hx; by apply Hg].
Qed.

Lemma real_questions_fmap g e db :
  (forall q, Questions.exam_id (g q) = Questions.exam_id q
             /\ Questions.question_text (g q) = Questions.question_text q) ->
  real_questions e (set_questions (fmap g) db) = g <$> real_questions e db.
Proof.
  intros Hg. unfold real_questions. simpl. apply filter_fmap_agree.
  intros q. destruct (Hg q) as [-> ->]. done.
Qed.

Lemma questions_of_exam_fmap g e db :
  (forall q, Questions.exam_id (g q) = Questions.exam_id q) ->
  questions_of_exam e (set_questions (fmap g) db) = g <$> questions_of_exam e db.
Proof.
  intros Hg. unfold questions_of_exam. simpl. apply filter_fmap_agree.
  intros q. by rewrite Hg.
Qed.

Lemma correct_answers_map_fmap g qs :
  (forall q, Questions.question_text (g q) = Questions.question_text q
             /\ Questions.correct_option (g q) = Questions.correct_option q) ->
  correct_answers_map (g <$> qs) = correct_answers_map qs.
Proof.
  intros Hg. unfold correct_answers_map. generalize (∅ : gmap string string).
  induction qs as [|q qs IH]; intros m; simpl; [done|].
  destruct (Hg q) as [-> ->]. apply IH.
Qed.

Lemma grade_fmap g a cm qs : forall score report,
  (forall q, Questions.question_text (g q) = Questions.question_text q
             /\ Questions.options (g q) = Questions.options q) ->
  grade a cm score report (g <$> qs) = grade a cm score report qs.
Proof.
  induction qs as [|q qs IH]; intros score report Hg; [done|].
  destruct a as [a|]; [|done].
  rewrite fmap_cons, !grade_cons. destruct (Hg q) as [-> ->].
  destruct (json_loads (Questions.options q)); [|done]. by apply IH.
Qed.

(** The reply of [submit_exam] is the same on two stores that give the same
    texts, correct options and options of the exam's questions and hold the
    same results. *)
Lemma submit_exam_reply_fmap g rid fault e s n a t db :
  (forall q, Questions.exam_id (g q) = Questions.exam_id q
             /\ Questions.question_text (g q) = Questions.question_text q
             /\ Questions.correct_option (g q) = Questions.correct_option q
             /\ Questions.options (g q) = Questions.options q) ->
  (submit_exam rid fault e s n a t (set_questions (fmap g) db)).1
  = (submit_exam rid fault e s n a t db).1.
Proof.
  intros Hg. tx_unfold.
  rewrite real_questions_fmap by (intros q; destruct (Hg q); tauto).
  destruct (real_questions e db) as [|q qs] eqn:Hq; [done|].
  rewrite correct_answers_map_fmap by (intros q'; destruct (Hg q'); tauto).
  rewrite grade_fmap by (intros q'; destruct (Hg q'); tauto).
  simpl.
  destruct (grade a (correct_answers_map (q :: qs)) 0 [] (q :: qs))
    as [x|[score report]]; simpl; [done|].
  destruct (decide (fault = Some AtInsert)); simpl; [done|].
  destruct e, s, n, t, a; simpl; try done.
  case_decide; simpl; [done|].
  destruct (decide (fault = Some AtDelete)); simpl; [done|].
  destruct (decide (fault = Some AtCommit)); simpl; done.
Qed.

(** C5.  On a reachable store, the analysis report of a graded submission
    holds one record for each row that the table holds for the exam, the
    placeholder row apart, in the order of the question texts, which is the
    order in which the index of the primary key lists the rows, whatever
    the order of their upload: the question's text, its options, the answer
    submitted under that text, the correct option and whether the two are
    equal.  Whatever value the rows hold in [enable_analysis_report], the
    reply is the same. *)
Theorem analysis_report_covers_questions db :
  reachable db ->
  forall rid fault e s n a t,
    (forall score report,
        (submit_exam rid fault e s n a t db).1 = Submitted score report ->
        exists ans rows,
          a = Some ans /\ exam_rows e db rows
          /\ Forall2 (graded ans) rows report)
    /\ (forall flags,
          (submit_exam rid fault e s n a t (with_flags flags db)).1
          = (submit_exam rid fault e s n a t db).1).
Proof.
  intros Hreach rid fault e s n a t.
  pose proof (reachable_store_ok _ Hreach) as Hok. split.
  - intros score report Hr.
    destruct (submit_exam_cases rid fault e s n a t db)
      as [(score' & rep' & eid & sid & name & tid & ans & -> & -> & -> & ->
           & -> & -> & _ & Hg & _ & Heq)|[_ [Hf|[x Hf]]]];
      [|congruence..].
    rewrite Heq in Hr. simpl in Hr. simplify_eq.
    destruct (grade_real_questions ans (Some eid) db Hok) as (rep & Hg' & Hrep).
    exists ans, (real_questions (Some eid) db). split; [done|].
    split; [by apply real_questions_rows, reachable_index_sorted|]. congruence.
  - intros flags. by apply submit_exam_reply_fmap.
Qed.

Lemma submit_exam_fault rid point eid sid name tid ans db :
  real_questions (Some eid) db <> [] ->
  store_ok db ->
  rid ∉ (Results.result_id <$> results db) ->
  submit_exam rid (Some point) (Some eid) (Some sid) (Some name) (Some ans)
    (Some tid) db
  = (SubmissionFailed OperationalError, db).
Proof.
  intros Hne Hok Hfresh.
  destruct (grade_real_questions ans (Some eid) db Hok) as (rep & Hg & _).
  tx_unfold.
  destruct (real_questions (Some eid) db) as [|q qs] eqn:Hq; [done|]. simpl.
  rewrite Hg. simpl.
  destruct point; simpl; repeat (case_decide; simpl; try done); done.
Qed.

(** C3.  On a reachable store, a submission for an exam with a question,
    with its fields present and an identifier that no result holds, is
    graded when the store does not fail: it adds one row to [results],
    under the identifier drawn for it, with the score of the reply and the
    serialized answers, and removes the row of [in_progress_exams] of the
    student and exam; it changes nothing else.  When the store fails during
    the insert, the delete or the commit, the reply is the failure, with
    status 500, and the store is as it was: neither the result nor the
    removal is there.  In general, a graded submission has made both
    changes and any other reply has status 500 and has made none. *)
Theorem submit_exam_atomic db :
  reachable db ->
  forall rid fault e s n a t,
    (forall eid sid name tid ans,
        e = Some eid -> s = Some sid -> n = Some name -> t = Some tid ->
        a = Some ans ->
        real_questions e db <> [] ->
        rid ∉ (Results.result_id <$> results db) ->
        match fault with
        | None =>
            exists score report,
              submit_exam rid fault e s n a t db
              = (Submitted score report,
                 set_in_progress (delete (sid, eid))
                   (set_results
                      (fun t => t ++ [result_row rid eid sid tid name score ans])
                      db))
        | Some _ =>
            submit_exam rid fault e s n a t db
            = (SubmissionFailed OperationalError, db)
        end)
    /\ match (submit_exam rid fault e s n a t db).1 with
       | Submitted score report =>
           exists eid sid name tid ans,
             e = Some eid /\ s = Some sid /\ n = Some name /\ t = Some tid
             /\ a = Some ans /\ fault = None
             /\ (rid ∉ (Results.result_id <$> results db))
             /\ results (submit_exam rid fault e s n a t db).2
                = results db ++ [result_row rid eid sid tid name score ans]
             /\ in_progress_exams (submit_exam rid fault e s n a t db).2
                = delete (sid, eid) (in_progress_exams db)
             /\ students (submit_exam rid fault e s n a t db).2 = students db
             /\ questions (submit_exam rid fault e s n a t db).2 = questions db
       | NoQuestionsToGrade | SubmissionFailed _ =>
           (submit_exam rid fault e s n a t db).2 = db
           /\ submit_status (submit_exam rid fault e s n a t db).1 = 500%Z
       end.
Proof.
  intros Hok%reachable_store_ok rid fault e s n a t. split.
  - intros eid sid name tid ans -> -> -> -> -> Hne Hfresh.
    destruct fault as [point|].
    + apply submit_exam_fault; auto.
    + destruct (grade_real_questions ans (Some eid) db Hok) as (rep & Hg & _).
      eexists _, rep. by apply submit_exam_success.
  - destruct (submit_exam_cases rid fault e s n a t db)
      as [(score & rep & eid & sid & name & tid & ans & -> & -> & -> & ->
           & -> & -> & _ & _ & Hfresh & ->)|[-> [->|[x ->]]]]; simpl; [|done..].
    exists eid, sid, name, tid, ans. repeat split; done.
Qed.

(** ** What a passed eligibility check returns *)

Lemma eligibility_passed_over_inv rnd sid eid s p :
  check_exam_eligibility_over rnd sid eid s = EligibilityPassed p ->
  exists settings student views answers status time_left,
    is_Some (fetchone (questions_of_exam eid (at_exam_teacher s)))
    /\ fetchone (questions_of_exam eid (at_exam_settings s)) = Some settings
    /\ student_by_id sid (at_student s) = Some student
    /\ (num_attempts sid eid (at_attempts s)
        < Questions.allowed_attempts settings)%Z
    /\ real_questions eid (at_questions s) <> []
    /\ mapM question_view (real_questions eid (at_questions s)) = Some views
    /\ match in_progress_of sid eid (at_in_progress s) with
       | Some row =>
           json_loads (InProgress.answers row) = Some answers
           /\ json_loads (InProgress.question_status row) = Some status
           /\ time_left = InProgress.time_left row
       | None =>
           answers = ∅ /\ status = ∅
           /\ time_left = (Questions.duration settings * 60)%Z
       end
    /\ p = {| Payload.student_name := Students.student_name student;
              Payload.teacher_id := Students.teacher_id student;
              Payload.exam :=
                {| Payload.exam_title := Questions.exam_title settings;
                   Payload.school_name := Questions.school_name settings;
                   Payload.duration := Questions.duration settings;
                   Payload.allowed_attempts := Questions.allowed_attempts settings;
                   Payload.passing_percentage :=
                     Questions.passing_percentage settings;
                   Payload.enable_analysis_report :=
                     truthy (Questions.enable_analysis_report settings);
                   Payload.questions := shuffle rnd views;
                   Payload.answers := answers;
                   Payload.question_status := status;
                   Payload.time_left := time_left;
                   Payload.attempt_number :=
                     (num_attempts sid eid (at_attempts s) + 1)%Z |} |}.
Proof.
  unfold check_exam_eligibility_over.
  destruct (fetchone (questions_of_exam eid (at_exam_teacher s)))
    as [teacher|] eqn:Ht; [|done].
  destruct (student_of_teacher sid (Questions.teacher_id teacher)
              (at_ownership s)) as [st|] eqn:Hst; [|done].
  destruct (fetchone (questions_of_exam eid (at_exam_settings s)))
    as [settings|] eqn:Hs; [|done].
  case_bool_decide as Hatt; [done|].
  destruct (real_questions eid (at_questions s)) as [|q qs] eqn:Hq; [done|].
  cbn [truthy truthy_list negb].
  destruct (mapM question_view (q :: qs)) as [views|] eqn:Hv; [|done].
  cbn [mbind option_bind default].
  destruct (in_progress_of sid eid (at_in_progress s)) as [row|] eqn:Hrow.
  - destruct (json_loads (InProgress.answers row)) as [answers|] eqn:Ha; [|done].
    cbn [mbind option_bind default].
    destruct (json_loads (InProgress.question_status row)) as [status|] eqn:Hqs;
      [|done].
    cbn [mbind option_bind default].
    destruct (student_by_id sid (at_student s)) as [student|] eqn:Hsd; [|done].
    cbn [mbind option_bind default]. intros [= <-].
    exists settings, student, views, answers, status, (InProgress.time_left row).
    repeat split; try done. lia.
  - cbn [mbind option_bind default].
    destruct (student_by_id sid (at_student s)) as [student|] eqn:Hsd; [|done].
    cbn [mbind option_bind default]. intros [= <-].
    exists settings, student, views, ∅, ∅, (Questions.duration settings * 60)%Z.
    repeat split; try done. lia.
Qed.

Lemma eligibility_passed_inv rnd sid eid db p :
  check_exam_eligibility rnd sid eid db = EligibilityPassed p ->
  exists settings student views answers status time_left,
    fetchone (questions_of_exam eid db) = Some settings
    /\ is_Some (student_of_teacher sid (Questions.teacher_id settings) db)
    /\ student_by_id sid db = Some student
    /\ (num_attempts sid eid db < Questions.allowed_attempts settings)%Z
    /\ real_questions eid db <> []
    /\ mapM question_view (real_questions eid db) = Some views
    /\ match in_progress_of sid eid db with
       | Some row =>
           json_loads (InProgress.answers row) = Some answers
           /\ json_loads (InProgress.question_status row) = Some status
           /\ time_left = InProgress.time_left row
       | None =>
           answers = ∅ /\ status = ∅
           /\ time_left = (Questions.duration settings * 60)%Z
       end
    /\ p = {| Payload.student_name := Students.student_name student;
              Payload.teacher_id := Students.teacher_id student;
              Payload.exam :=
                {| Payload.exam_title := Questions.exam_title settings;
                   Payload.school_name := Questions.school_name settings;
                   Payload.duration := Questions.duration settings;
                   Payload.allowed_attempts := Questions.allowed_attempts settings;
                   Payload.passing_percentage :=
                     Questions.passing_percentage settings;
                   Payload.enable_analysis_report :=
                     truthy (Questions.enable_analysis_report settings);
                   Payload.questions := shuffle rnd views;
                   Payload.answers := answers;
                   Payload.question_status := status;
                   Payload.time_left := time_left;
                   Payload.attempt_number := (num_attempts sid eid db + 1)%Z |} |}.
Proof.
  start_unfold.
  destruct (fetchone (questions_of_exam eid db)) as [settings|] eqn:Hs; [|done].
  destruct (student_of_teacher sid (Questions.teacher_id settings) db)
    as [st|] eqn:Hst; [|done].
  case_bool_decide as Hatt; [done|].
  destruct (real_questions eid db) as [|q qs] eqn:Hq; [done|].
  cbn [truthy truthy_list negb].
  destruct (mapM question_view (q :: qs)) as [views|] eqn:Hv; [|done].
  cbn [mbind option_bind default].
  destruct (in_progress_of sid eid db) as [row|] eqn:Hrow.
  - destruct (json_loads (InProgress.answers row)) as [answers|] eqn:Ha; [|done].
    cbn [mbind option_bind default].
    destruct (json_loads (InProgress.question_status row)) as [status|] eqn:Hqs;
      [|done].
    cbn [mbind option_bind default].
    destruct (student_by_id sid db) as [student|] eqn:Hsd; [|done].
    cbn [mbind option_bind default]. intros [= <-].
    exists settings, student, views, answers, status, (InProgress.time_left row).
    repeat split; try done. lia.
  - cbn [mbind option_bind default].
    destruct (student_by_id sid db) as [student|] eqn:Hsd; [|done].
    cbn [mbind option_bind default]. intros [= <-].
    exists settings, student, views, ∅, ∅, (Questions.duration settings * 60)%Z.
    repeat split; try done. lia.
Qed.

(** ** Saved progress *)

(** The guard of [save_progress] holds exactly when every field is present
    and none of the identifiers and maps is empty. *)
Definition progress_fields_ok (sid eid tid : string) (a qs : gmap string string)
    : Prop :=
  sid <> ""%string /\ eid <> ""%string /\ tid <> ""%string /\ a <> ∅ /\ qs <> ∅.

Lemma all_progress_fields_truthy sid eid tid a tl qs :
  progress_fields_ok sid eid tid a qs ->
  all_progress_fields (Some sid) (Some eid) (Some tid) (Some a) (Some tl)
    (Some qs) = true.
Proof.
  intros (Hs & He & Ht & Ha & Hq).
  cbv [all_progress_fields truthy truthy_option truthy_string truthy_dict
       is_not_None].
  by rewrite !bool_decide_eq_true_2.
Qed.

Lemma all_progress_fields_true s e t a tl qs :
  all_progress_fields s e t a tl qs = true ->
  exists sid eid tid ans time status,
    s = Some sid /\ e = Some eid /\ t = Some tid /\ a = Some ans
    /\ tl = Some time /\ qs = Some status
    /\ progress_fields_ok sid eid tid ans status.
Proof.
  cbv [all_progress_fields truthy truthy_option truthy_string truthy_dict
       is_not_None].
  rewrite !andb_true_iff. intros [[[[[Hs He] Ht] Ha] Htl] Hq].
  destruct s as [sid|], e as [eid|], t as [tid|], a as [ans|], tl as [time|],
    qs as [status|]; try done.
  exists sid, eid, tid, ans, time, status. repeat split; try done;
    by eapply bool_decide_eq_true_1.
Qed.

Lemma last_saved_snoc reqs r :
  last_saved (reqs ++ [r]) = saved_by (last_saved reqs) r.
Proof. unfold last_saved. apply foldl_snoc. Qed.

Lemma submit_exam_in_progress rid f e s n a t db k row :
  in_progress_exams (submit_exam rid f e s n a t db).2 !! k = Some row ->
  in_progress_exams db !! k = Some row.
Proof.
  destruct (submit_exam_cases rid f e s n a t db)
    as [(score & rep & eid & sid & name & tid & ans & _ & _ & _ & _ & _ & _
         & _ & _ & _ & ->)|[-> _]]; [|done].
  simpl. by intros [_ ?]%lookup_delete_Some.
Qed.

(** A row of [in_progress_exams] holds what the last accepted
    [save_progress] of its student and exam wrote. *)
Lemma in_progress_last_saved reqs k row :
  in_progress_exams (run reqs init_db) !! k = Some row ->
  exists a qs tl,
    last_saved reqs !! k = Some (a, qs, tl)
    /\ InProgress.answers row = json_dumps a
    /\ InProgress.question_status row = json_dumps qs
    /\ InProgress.time_left row = tl.
Proof.
  revert k row. induction reqs as [|r reqs IH] using rev_ind; intros k row.
  { unfold run. simpl. by rewrite lookup_empty. }
  rewrite run_snoc, last_saved_snoc.
  destruct r; simpl.
  - unfold bulk_upload_students. repeat case_match; apply IH.
  - unfold create_single_student. repeat case_match; apply IH.
  - unfold delete_student. repeat case_match; apply IH.
  - unfold update_student. repeat case_match; apply IH.
  - unfold bulk_upload_questions. repeat case_match; apply IH.
  - unfold single_upload_question. repeat case_match; apply IH.
  - unfold save_exam_settings. repeat case_match; apply IH.
  - unfold delete_question. repeat case_match; apply IH.
  - apply IH.
  - unfold save_progress.
    destruct (all_progress_fields student_id exam_id teacher_id answers
                time_left question_status) eqn:Hall.
    + apply all_progress_fields_true in Hall
        as (sid & eid & tid & a & tl & qs & -> & -> & -> & -> & -> & -> & Hall).
      apply (all_progress_fields_truthy _ _ _ _ tl) in Hall.
      rewrite Hall. simpl.
      destruct (fits_int64 tl); simpl; [|apply IH].
      destruct (decide (k = (sid, eid))) as [->|Hne].
      * rewrite !lookup_insert_eq. intros [= <-]. by exists a, qs, tl.
      * rewrite !lookup_insert_ne by done. apply IH.
    + destruct student_id as [sid|], exam_id as [eid|], teacher_id as [tid|],
        answers as [a|], time_left as [tl|], question_status as [qs|];
        rewrite ?Hall; apply IH.
  - apply IH.
  - intros Hrow%submit_exam_in_progress. by apply IH.
Qed.


(** A field that [all] rejects: absent, null or empty. *)
Definition no_string (o : option string) : Prop := o = None \/ o = Some ""%string.
Definition no_dict (o : option (gmap string string)) : Prop :=
  o = None \/ o = Some ∅.

Lemma save_progress_invalid_guard s e t a tl qs db :
  (save_progress s e t a tl qs db).1 = InvalidData
  <-> all_progress_fields s e t a tl qs = false.
Proof.
  unfold save_progress.
  destruct (all_progress_fields s e t a tl qs) eqn:Hall; simpl; [|done].
  apply all_progress_fields_true in Hall
    as (sid & eid & tid & ans & time & status & -> & -> & -> & -> & -> & ->
        & _).
  by destruct (fits_int64 time).
Qed.

Lemma fits_int64_spec z : fits_int64 z = true <-> (- 2 ^ 63 <= z < 2 ^ 63)%Z.
Proof. unfold fits_int64. apply bool_decide_eq_true. Qed.

Lemma all_progress_fields_false s e t a tl qs :
  all_progress_fields s e t a tl qs = false
  <-> no_string s \/ no_string e \/ no_string t \/ no_dict a \/ tl = None
      \/ no_dict qs.
Proof.
  unfold no_string, no_dict. split.
  - intros Hall.
    destruct s as [sid|]; [|by auto].
    destruct e as [eid|]; [|by auto].
    destruct t as [tid|]; [|by auto].
    destruct a as [ans|]; [|by auto 6].
    destruct tl as [time|]; [|by auto 6].
    destruct qs as [status|]; [|by auto 8].
    destruct (decide (sid = ""%string)) as [->|Hs]; [by auto|].
    destruct (decide (eid = ""%string)) as [->|He]; [by auto|].
    destruct (decide (tid = ""%string)) as [->|Ht]; [by auto|].
    destruct (decide (ans = ∅)) as [->|Ha]; [by auto 6|].
    destruct (decide (status = ∅)) as [->|Hq]; [by auto 8|].
    rewrite all_progress_fields_truthy in Hall; done.
  - intros Hno.
    destruct (all_progress_fields s e t a tl qs) eqn:Hall; [|done].
    apply all_progress_fields_true in Hall
      as (sid & eid & tid & ans & time & status & -> & -> & -> & -> & -> & ->
          & Hs & He & Ht & Ha & Hq).
    destruct Hno as [[|]|[[|]|[[|]|[[|]|[|[|]]]]]]; congruence.
Qed.

(** C6, as the handler has it.  [save_progress] answers 400 exactly when
    one of [student_id], [exam_id], [teacher_id] is absent or the empty
    string, [answers] or [question_status] is absent or the empty map, or
    [time_left] is absent.  It answers 500 exactly when no field is such and
    [time_left] is outside the 64 bits of an INTEGER.  In both cases it
    writes nothing.  In every other case it answers 200 and the row of
    [in_progress_exams] under the student and exam is the one built from
    the request alone, whatever row was there before; no other row and no
    other table changes. *)
Theorem save_progress_rejects_falsy_and_replaces s e t a tl qs db :
  ((save_progress s e t a tl qs db).1 = InvalidData
   <-> no_string s \/ no_string e \/ no_string t \/ no_dict a \/ tl = None
       \/ no_dict qs)
  /\ ((save_progress s e t a tl qs db).1 = SaveFailed
      <-> ~ (no_string s \/ no_string e \/ no_string t \/ no_dict a
             \/ tl = None \/ no_dict qs)
          /\ exists time, tl = Some time /\ ~ (- 2 ^ 63 <= time < 2 ^ 63)%Z)
  /\ ((save_progress s e t a tl qs db).1 = ProgressSaved
      <-> ~ (no_string s \/ no_string e \/ no_string t \/ no_dict a
             \/ tl = None \/ no_dict qs)
          /\ exists time, tl = Some time /\ (- 2 ^ 63 <= time < 2 ^ 63)%Z)
  /\ save_status InvalidData = 400%Z /\ save_status SaveFailed = 500%Z
  /\ save_status ProgressSaved = 200%Z
  /\ ((save_progress s e t a tl qs db).1 <> ProgressSaved ->
      (save_progress s e t a tl qs db).2 = db)
  /\ ((save_progress s e t a tl qs db).1 = ProgressSaved ->
      exists sid eid tid ans time status,
        s = Some sid /\ e = Some eid /\ t = Some tid /\ a = Some ans
        /\ tl = Some time /\ qs = Some status
        /\ in_progress_exams (save_progress s e t a tl qs db).2 !! (sid, eid)
           = Some {| InProgress.teacher_id := tid;
                     InProgress.answers := json_dumps ans;
                     InProgress.question_status := json_dumps status;
                     InProgress.time_left := time |}
        /\ (forall k, k <> (sid, eid) ->
              in_progress_exams (save_progress s e t a tl qs db).2 !! k
              = in_progress_exams db !! k)
        /\ students (save_progress s e t a tl qs db).2 = students db
        /\ questions (save_progress s e t a tl qs db).2 = questions db
        /\ results (save_progress s e t a tl qs db).2 = results db).
Proof.
  rewrite <-!all_progress_fields_false.
  split; [apply save_progress_invalid_guard|].
  unfold save_progress.
  destruct (all_progress_fields s e t a tl qs) eqn:Hall; simpl.
  2:{ repeat split; try done; by intros [? _]. }
  pose proof Hall as Htrue.
  apply all_progress_fields_true in Hall
    as (sid & eid & tid & ans & time & status & -> & -> & -> & -> & ->
        & -> & Hok).
  destruct (fits_int64 time) eqn:Hfit; simpl.
  - apply fits_int64_spec in Hfit.
    repeat split; try done.
    + intros [_ (time' & [= <-] & Hout)]. done.
    + by exists time.
    + intros _. exists sid, eid, tid, ans, time, status.
      repeat split; try done.
      * apply lookup_insert_eq.
      * intros k Hk. by rewrite lookup_insert_ne.
  - assert (Hout : ~ (- 2 ^ 63 <= time < 2 ^ 63)%Z).
    { intros Hin%fits_int64_spec. congruence. }
    repeat split; try done.
    + by exists time.
    + intros [_ (time' & [= <-] & Hin)]. done.
Qed.

(** ** The eligibility checks *)


(** ** The sample exam on any codec *)

Lemma run_reachable reqs : reachable (run reqs init_db).
Proof. by exists reqs. Qed.




(** ** Counting attempts *)



Lemma handle_results_other db r :
  (forall rid f e s n a t, r <> SubmitExam rid f e s n a t) ->
  results (handle db r) = results db.
Proof.
  intros Hr. destruct r; simpl.
  - unfold bulk_upload_students. repeat case_match; done.
  - unfold create_single_student. repeat case_match; done.
  - unfold delete_student. repeat case_match; done.
  - unfold update_student. repeat case_match; done.
  - unfold bulk_upload_questions. repeat case_match; done.
  - unfold single_upload_question. repeat case_match; done.
  - unfold save_exam_settings. repeat case_match; done.
  - unfold delete_question. repeat case_match; done.
  - done.
  - unfold save_progress. repeat case_match; done.
  - done.
  - by edestruct Hr.
Qed.




(** ** The shuffled questions *)

(** The record of the start reply that shows a question. *)
Definition shows (q : Questions.row) (v : Payload.question) : Prop :=
  Payload.question_text v = Questions.question_text q
  /\ json_loads (Questions.options q) = Some (Payload.options v)
  /\ Payload.image_url v = Questions.image_url q.

Lemma question_view_shows q v : question_view q = Some v -> shows q v.
Proof.
  unfold question_view, shows.
  destruct (json_loads (Questions.options q)) as [o|]; [|done].
  simpl. by intros [= <-].
Qed.

Lemma mapM_question_view_shows qs views :
  mapM question_view qs = Some views -> Forall2 shows qs views.
Proof.
  intros Hv%mapM_Some. eapply Forall2_impl; [exact Hv|].
  apply question_view_shows.
Qed.

Lemma shows_texts qs views :
  Forall2 shows qs views ->
  Payload.question_text <$> views = Questions.question_text <$> qs.
Proof.
  induction 1 as [|q v qs views (Ht & _ & _) _ IH]; [done|].
  by rewrite !fmap_cons, Ht, IH.
Qed.

Lemma matches_Permutation a qs qs' : qs ≡ₚ qs' -> matches a qs = matches a qs'.
Proof. intros Hp. unfold matches. by rewrite Hp. Qed.

Lemma mapM_question_view_dumped qs :
  Forall (fun q => exists m, Questions.options q = json_dumps m) qs ->
  is_Some (mapM question_view qs).
Proof.
  intros Hd. apply mapM_is_Some_2. eapply Forall_impl; [exact Hd|].
  intros q [m Hm]. unfold question_view. simpl.
  rewrite Hm, json_loads_dumps. by eexists.
Qed.

Lemma student_of_teacher_by_id sid t db :
  is_Some (student_of_teacher sid t db) -> is_Some (student_by_id sid db).
Proof.
  unfold student_of_teacher. destruct (student_by_id sid db); [by eexists|].
  by intros [? ?].
Qed.

Lemma in_progress_of_loads reqs sid eid row :
  in_progress_of sid eid (run reqs init_db) = Some row ->
  is_Some (json_loads (InProgress.answers row))
  /\ is_Some (json_loads (InProgress.question_status row)).
Proof.
  unfold in_progress_of. destruct sid as [s|], eid as [e|]; try done. simpl.
  intros (a & qs & tl & _ & -> & -> & _)%in_progress_last_saved.
  rewrite !json_loads_dumps. split; by eexists.
Qed.

(** Served alone on a reachable store, a request that passes the four
    checks is answered with the payload. *)
Lemma eligibility_passes rnd sid eid reqs q :
  fetchone (questions_of_exam eid (run reqs init_db)) = Some q ->
  is_Some (student_of_teacher sid (Questions.teacher_id q) (run reqs init_db)) ->
  (num_attempts sid eid (run reqs init_db) < Questions.allowed_attempts q)%Z ->
  real_questions eid (run reqs init_db) <> [] ->
  exists p views,
    check_exam_eligibility rnd sid eid (run reqs init_db) = EligibilityPassed p
    /\ mapM question_view (real_questions eid (run reqs init_db)) = Some views
    /\ Payload.questions (Payload.exam p) = shuffle rnd views.
Proof.
  intros Hq Hst Hlt Hne.
  pose proof (reachable_store_ok _ (run_reachable reqs)) as [_ Hd].
  destruct (mapM_question_view_dumped (real_questions eid (run reqs init_db)))
    as [views Hviews]; [by apply real_questions_dumped|].
  destruct (student_of_teacher_by_id _ _ _ Hst) as [student Hstudent].
  destruct Hst as [st Hst].
  start_unfold. rewrite Hq, Hst, bool_decide_eq_false_2 by lia.
  destruct (real_questions eid (run reqs init_db)) as [|q0 qs] eqn:Hreal;
    [done|].
  cbn [truthy truthy_list negb]. rewrite Hviews, Hstudent.
  destruct (in_progress_of sid eid (run reqs init_db)) as [row|] eqn:Hrow.
  - destruct (in_progress_of_loads _ _ _ _ Hrow) as [[a ->] [qs' ->]].
    simpl. by eexists _, views.
  - simpl. by eexists _, views.
Qed.

(** C8.  On a reachable store, a request served alone that passes the
    four checks is answered with the payload, and the questions of a start
    reply are the shuffle of the records that show the rows that the table
    holds for the exam, the placeholder apart: a permutation of them, one
    record for each row, and no text occurs twice among them.  Grading goes
    by the text of the question: the loop of [submit_exam] run over any
    permutation of the exam's questions, the order of a shuffle among them,
    ends with the same score, the number of questions whose correct option
    is the answer under their text. *)
Theorem shuffle_reorders_and_grading_ignores_order db :
  reachable db ->
  (forall rnd sid eid q,
      fetchone (questions_of_exam eid db) = Some q ->
      is_Some (student_of_teacher sid (Questions.teacher_id q) db) ->
      (num_attempts sid eid db < Questions.allowed_attempts q)%Z ->
      (exists row, row ∈ questions db /\ Some (Questions.exam_id row) = eid
                   /\ Questions.question_text row <> "placeholder"%string) ->
      exists p, check_exam_eligibility rnd sid eid db = EligibilityPassed p)
  /\ (forall rnd sid eid p,
      check_exam_eligibility rnd sid eid db = EligibilityPassed p ->
      exists rows views,
        exam_rows eid db rows
        /\ Forall2 shows rows views
        /\ Payload.questions (Payload.exam p) = shuffle rnd views
        /\ Payload.questions (Payload.exam p) ≡ₚ views
        /\ Payload.question_text <$> Payload.questions (Payload.exam p)
           ≡ₚ Questions.question_text <$> rows
        /\ NoDup (Payload.question_text <$> Payload.questions (Payload.exam p)))
  /\ (forall a eid qs',
        qs' ≡ₚ real_questions eid db ->
        exists report,
          grade (Some a) (correct_answers_map qs') 0 [] qs'
          = inr (matches a (real_questions eid db), report))
  /\ (forall a eid rnd,
        exists report,
          grade (Some a)
            (correct_answers_map (shuffle rnd (real_questions eid db))) 0 []
            (shuffle rnd (real_questions eid db))
          = inr (matches a (real_questions eid db), report)).
Proof.
  intros Hreach. pose proof (reachable_store_ok _ Hreach) as [Hk Hd].
  assert (Hperm : forall a eid qs',
             qs' ≡ₚ real_questions eid db ->
             exists report,
               grade (Some a) (correct_answers_map qs') 0 [] qs'
               = inr (matches a (real_questions eid db), report)).
  { intros a eid qs' Hp.
    destruct (grade_spec a (correct_answers_map qs') qs' 0 [])
      as (entries & Hg & _).
    - intros q Hq. apply correct_answers_map_lookup; [|done].
      rewrite Hp. by apply real_questions_texts_unique.
    - rewrite Hp. by apply real_questions_dumped.
    - exists entries. rewrite Hg. simpl.
      by rewrite (matches_Permutation a _ _ Hp). }
  split; [|split; [|split]].
  - intros rnd sid eid q Hq Hst Hlt (row & Hin & He & Hreal).
    destruct Hreach as [reqs ->].
    destruct (eligibility_passes rnd sid eid reqs q) as (p & _ & Hp & _);
      try done; [|by exists p].
    intros Hnil.
    assert (Hrow : row ∈ real_questions eid (run reqs init_db))
      by (by apply elem_of_real_questions).
    rewrite Hnil in Hrow. by apply elem_of_nil in Hrow.
  - intros rnd sid eid p
      (settings & student & views & answers & status & time_left & _
       & _ & _ & _ & _ & Hviews & _ & ->)%eligibility_passed_inv.
    simpl. apply mapM_question_view_shows in Hviews.
    exists (real_questions eid db), views.
    split; [by apply real_questions_rows, reachable_index_sorted|].
    split; [done|]. split; [done|].
    assert (Hsh : shuffle rnd views ≡ₚ views) by apply shuffle_Permutation.
    split; [done|]. rewrite Hsh, (shows_texts _ _ Hviews).
    split; [done|]. by apply real_questions_texts_unique.
  - exact Hperm.
  - intros a eid rnd. apply Hperm, shuffle_Permutation.
Qed.

(** ** What the start reply depends on *)

Lemma question_view_fmap g q :
  Questions.question_text (g q) = Questions.question_text q ->
  Questions.options (g q) = Questions.options q ->
  Questions.image_url (g q) = Questions.image_url q ->
  question_view (g q) = question_view q.
Proof. unfold question_view. by intros -> -> ->. Qed.

Lemma mapM_question_view_fmap g qs :
  (forall q, Questions.question_text (g q) = Questions.question_text q
             /\ Questions.options (g q) = Questions.options q
             /\ Questions.image_url (g q) = Questions.image_url q) ->
  mapM question_view (g <$> qs) = mapM question_view qs.
Proof.
  intros Hg. induction qs as [|q qs IH]; [done|].
  rewrite fmap_cons. cbn [mapM]. rewrite IH.
  destruct (Hg q) as (Ht & Ho & Hi). by rewrite question_view_fmap.
Qed.

Lemma shows_some_question qs views :
  Forall2 shows qs views ->
  Forall (fun v => exists q, q ∈ qs /\ shows q v) views.
Proof.
  induction 1 as [|q v qs views Hqv _ IH]; constructor.
  - exists q. split; [by left|done].
  - eapply Forall_impl; [exact IH|].
    intros v' (q' & Hin & Hs). exists q'. split; [by right|done].
Qed.

Lemma eligibility_correct_option_blind f rnd sid eid db :
  check_exam_eligibility rnd sid eid (with_correct_options f db)
  = check_exam_eligibility rnd sid eid db.
Proof.
  unfold with_correct_options. start_unfold.
  rewrite questions_of_exam_fmap, real_questions_fmap by done.
  destruct (questions_of_exam eid db) as [|q0 l]; [done|].
  cbn [fetchone head fmap list_fmap].
  unfold student_of_teacher, student_by_id, num_attempts, in_progress_of.
  cbn [students results in_progress_exams set_questions
       set_correct_option Questions.teacher_id Questions.allowed_attempts
       Questions.exam_title Questions.school_name Questions.duration
       Questions.passing_percentage Questions.enable_analysis_report].
  rewrite mapM_question_view_fmap by done.
  destruct (real_questions eid db); done.
Qed.

(** C9.  A question of the start reply is a record of three fields, the
    text, the options and the image of a question of the exam: the record
    has no field for the correct option.  The whole reply of
    [check_exam_eligibility], under the same draws of the shuffle, is the
    same on the store and on the store with every correct option of
    [questions] replaced by any other value. *)
Theorem start_reply_hides_correct_option db :
  (forall rnd sid eid p,
      check_exam_eligibility rnd sid eid db = EligibilityPassed p ->
      Forall (fun v => exists q, q ∈ real_questions eid db /\ shows q v)
             (Payload.questions (Payload.exam p)))
  /\ (forall f rnd sid eid,
        check_exam_eligibility rnd sid eid (with_correct_options f db)
        = check_exam_eligibility rnd sid eid db).
Proof.
  split.
  - intros rnd sid eid p
      (settings & student & views & answers & status & time_left & _
       & _ & _ & _ & _ & Hviews & _ & ->)%eligibility_passed_inv.
    simpl. apply mapM_question_view_shows, shows_some_question in Hviews.
    by rewrite shuffle_Permutation.
  - intros f rnd sid eid. apply eligibility_correct_option_blind.
Qed.

(** ** The listing of an exam's questions *)

(** The record of the listing that belongs to a question. *)
Definition lists (q : Questions.row) (v : Listing.question) : Prop :=
  Listing.question_text v = Questions.question_text q
  /\ Listing.correct_option v = Questions.correct_option q
  /\ json_loads (Questions.options q) = Some (Listing.options v)
  /\ Listing.image_url v = Questions.image_url q.

Lemma listed_question_lists q v : listed_question q = Some v -> lists q v.
Proof.
  unfold listed_question, lists.
  destruct (json_loads (Questions.options q)) as [o|]; [|done].
  simpl. by intros [= <-].
Qed.

Lemma listed_question_dumped q :
  (exists m, Questions.options q = json_dumps m) -> is_Some (listed_question q).
Proof.
  intros [m Hm]. unfold listed_question. rewrite Hm, json_loads_dumps. by eexists.
Qed.

(** C10.  On a reachable store, [get_questions_by_exam] answers, for any
    exam id, with one record for each row that the table holds for the
    exam, the placeholder apart, in the order of the question texts, and
    the record holds the question's text, its correct option, its options
    and its image: every question of the exam in the table is listed with
    its correct option.  The handler takes the exam id alone, and its reply
    is the same on any store with the same [questions] table: neither the
    students nor the results nor the saved progress bear on it. *)
Theorem questions_listing_gives_correct_options db :
  reachable db ->
  forall exam_id,
    (exists listing rows,
        get_questions_by_exam exam_id db = Some listing
        /\ exam_rows (Some exam_id) db rows
        /\ Forall2 lists rows listing
        /\ forall q,
             q ∈ questions db -> Questions.exam_id q = exam_id ->
             Questions.question_text q <> "placeholder"%string ->
             exists v, v ∈ listing
                       /\ Listing.question_text v = Questions.question_text q
                       /\ Listing.correct_option v = Questions.correct_option q)
    /\ (forall db', questions db' = questions db ->
          get_questions_by_exam exam_id db' = get_questions_by_exam exam_id db).
Proof.
  intros Hreach exam_id.
  pose proof (reachable_store_ok _ Hreach) as [_ Hd]. split.
  - unfold get_questions_by_exam.
    destruct (mapM_is_Some_2 listed_question (real_questions (Some exam_id) db))
      as [listing Hl].
    { eapply Forall_impl; [by apply real_questions_dumped|].
      intros q Hq. by apply listed_question_dumped. }
    exists listing, (real_questions (Some exam_id) db). split; [done|].
    split; [by apply real_questions_rows, reachable_index_sorted|].
    apply mapM_Some_1 in Hl.
    assert (Hlists : Forall2 lists (real_questions (Some exam_id) db) listing).
    { eapply Forall2_impl; [exact Hl|]. apply listed_question_lists. }
    split; [done|].
    intros q Hin He Hreal.
    assert (Hq : q ∈ real_questions (Some exam_id) db).
    { apply elem_of_real_questions. by rewrite He. }
    apply list_elem_of_lookup in Hq as [i Hi].
    destruct (Forall2_lookup_l _ _ _ _ _ Hlists Hi) as (v & Hv & Ht & Hc & _).
    exists v. split; [|done]. apply list_elem_of_lookup. by exists i.
  - intros db' Hq. unfold get_questions_by_exam, real_questions. by rewrite Hq.
Qed.

End Properties.

(** * The sample exam, evaluated

    The theorems above applied to the sample exam on [bit_codec], and the
    stores on which a statement of the specification fails. *)

Lemma sample_ready_reachable : reachable (run Sample.ready init_db).
Proof. by exists Sample.ready. Qed.

(** The sample submission is graded 1: the first answer is right, the
    second wrong. *)
Lemma submit_score_counts_matches_sample :
  exists report,
    (submit_exam "r1" None (Some "E1") (Some "S1") (Some "Ann")
       (Some Sample.answers) (Some "T1") (run Sample.ready init_db)).1
    = Submitted 1 report.
Proof.
  destruct (submit_score_counts_matches (run Sample.ready init_db)
              sample_ready_reachable "r1" None (Some "E1") (Some "S1")
              (Some "Ann") (Some Sample.answers) (Some "T1"))
    as (_ & Hgraded & _).
  destruct (Hgraded "E1" "S1" "Ann" "T1" Sample.answers) as [report Hr].
  - intros Hnil. vm_compute in Hnil. discriminate.
  - vm_compute. apply not_elem_of_nil.
  - exists report. exact Hr.
Defined.

Lemma sample_reversed_reachable : reachable (run Sample.reversed init_db).
Proof. by exists Sample.reversed. Qed.

Lemma sample_saved_reachable :
  reachable (run (Sample.ready ++ [Sample.save]) init_db).
Proof. by exists (Sample.ready ++ [Sample.save]). Qed.

(** The second question was uploaded before the first; the report has the
    first question first. *)
Lemma sample_reversed_report :
  exists score report,
    (submit_exam "r1" None (Some "E1") (Some "S1") (Some "Ann")
       (Some Sample.answers) (Some "T1") (run Sample.reversed init_db)).1
    = Submitted score report
    /\ Report.question_text <$> report = ["2+2"; "2+3"].
Proof. vm_compute. eexists _, _. split; reflexivity. Qed.

(** The report of a submission to the exam whose second question was
    uploaded first: a record for each of the two questions, the one of the
    lesser text first. *)
Lemma analysis_report_covers_questions_sample :
  exists score report rows,
    (submit_exam "r1" None (Some "E1") (Some "S1") (Some "Ann")
       (Some Sample.answers) (Some "T1") (run Sample.reversed init_db)).1
    = Submitted score report
    /\ Report.question_text <$> report = ["2+2"; "2+3"]
    /\ exam_rows (Some "E1") (run Sample.reversed init_db) rows
    /\ Forall2 (graded Sample.answers) rows report.
Proof.
  destruct sample_reversed_report as (score & report & Hreply & Htexts).
  destruct (analysis_report_covers_questions (run Sample.reversed init_db)
              sample_reversed_reachable "r1" None (Some "E1") (Some "S1")
              (Some "Ann") (Some Sample.answers) (Some "T1"))
    as (Hreport & _).
  destruct (Hreport score report Hreply) as (ans & rows & Hans & Hrows & Hgraded).
  assert (ans = Sample.answers) as -> by congruence.
  exists score, report, rows.
  split; [exact Hreply|]. split; [exact Htexts|].
  split; [exact Hrows|exact Hgraded].
Defined.

(** The student has saved progress and submits. *)
Lemma sample_saved_questions :
  real_questions (Some "E1") (run (Sample.ready ++ [Sample.save]) init_db) <> [].
Proof. intros Hnil. vm_compute in Hnil. discriminate. Qed.

Lemma sample_saved_no_results :
  "r1" ∉ Results.result_id
           <$> results (run (Sample.ready ++ [Sample.save]) init_db).
Proof. vm_compute. apply not_elem_of_nil. Qed.

Lemma sample_saved_row :
  is_Some (in_progress_exams (run (Sample.ready ++ [Sample.save]) init_db)
             !! ("S1", "E1")).
Proof. vm_compute. eauto. Qed.

(** The submission of the student who has saved progress adds the result
    and removes the saved progress; the same submission on a store that
    fails at the commit leaves the store as it was, with the saved
    progress and without the result. *)
Lemma submit_exam_atomic_sample :
  is_Some (in_progress_exams (run (Sample.ready ++ [Sample.save]) init_db)
             !! ("S1", "E1"))
  /\ (exists score report,
        submit_exam "r1" None (Some "E1") (Some "S1") (Some "Ann")
          (Some Sample.answers) (Some "T1")
          (run (Sample.ready ++ [Sample.save]) init_db)
        = (Submitted score report,
           set_in_progress (delete ("S1", "E1"))
             (set_results
                (fun t => t ++ [result_row "r1" "E1" "S1" "T1" "Ann" score
                                  Sample.answers])
                (run (Sample.ready ++ [Sample.save]) init_db))))
  /\ submit_exam "r1" (Some AtCommit) (Some "E1") (Some "S1") (Some "Ann")
       (Some Sample.answers) (Some "T1")
       (run (Sample.ready ++ [Sample.save]) init_db)
     = (SubmissionFailed OperationalError,
        run (Sample.ready ++ [Sample.save]) init_db).
Proof.
  split; [exact sample_saved_row|]. split.
  - destruct (submit_exam_atomic _ sample_saved_reachable "r1" None (Some "E1")
                (Some "S1") (Some "Ann") (Some Sample.answers) (Some "T1"))
      as [Hsubmit _].
    exact (Hsubmit "E1" "S1" "Ann" "T1" Sample.answers eq_refl eq_refl eq_refl
             eq_refl eq_refl sample_saved_questions sample_saved_no_results).
  - destruct (submit_exam_atomic _ sample_saved_reachable "r1" (Some AtCommit)
                (Some "E1") (Some "S1") (Some "Ann") (Some Sample.answers)
                (Some "T1")) as [Hsubmit _].
    exact (Hsubmit "E1" "S1" "Ann" "T1" Sample.answers eq_refl eq_refl eq_refl
             eq_refl eq_refl sample_saved_questions sample_saved_no_results).
Defined.







(** The student asks to start: the questions come in the order of the
    shuffle, the second before the first. *)
Lemma sample_start_shuffled :
  exists p,
    check_exam_eligibility (fun _ => 0) (Some "S1") (Some "E1")
      (run Sample.ready init_db) = EligibilityPassed p
    /\ Payload.question_text <$> Payload.questions (Payload.exam p)
       = ["2+3"; "2+2"].
Proof. vm_compute. eexists. split; reflexivity. Qed.

(** The start reply of the sample exam holds the two questions in the
    order of the shuffle, and graded in that order the sample answers
    score 1 as they do in the order of the table. *)
Lemma shuffle_reorders_and_grading_ignores_order_sample :
  exists p rows report,
    check_exam_eligibility (fun _ => 0) (Some "S1") (Some "E1")
      (run Sample.ready init_db) = EligibilityPassed p
    /\ Payload.question_text <$> Payload.questions (Payload.exam p)
       = ["2+3"; "2+2"]
    /\ exam_rows (Some "E1") (run Sample.ready init_db) rows
    /\ Payload.question_text <$> Payload.questions (Payload.exam p)
       ≡ₚ Questions.question_text <$> rows
    /\ grade (Some Sample.answers)
         (correct_answers_map
            (shuffle (fun _ => 0)
               (real_questions (Some "E1") (run Sample.ready init_db))))
         0 []
         (shuffle (fun _ => 0)
            (real_questions (Some "E1") (run Sample.ready init_db)))
       = inr (1%Z, report).
Proof.
  destruct sample_start_shuffled as (p & Hpass & Htexts).
  destruct (shuffle_reorders_and_grading_ignores_order
              (run Sample.ready init_db) sample_ready_reachable)
    as (_ & Hreply & _ & Hshuffled).
  destruct (Hreply (fun _ => 0) (Some "S1") (Some "E1") p Hpass)
    as (rows & views & Hrows & _ & _ & _ & Hperm & _).
  destruct (Hshuffled Sample.answers (Some "E1") (fun _ => 0)) as [report Hr].
  exists p, rows, report.
  split; [exact Hpass|]. split; [exact Htexts|]. split; [exact Hrows|].
  split; [exact Hperm|exact Hr].
Defined.

(** The listing of the exam whose second question was uploaded first. *)
Lemma sample_reversed_listing :
  get_questions_by_exam "E1" (run Sample.reversed init_db)
  = Some [ {| Listing.question_text := "2+2"; Listing.correct_option := "A";
              Listing.options := Sample.choices; Listing.image_url := None |};
           {| Listing.question_text := "2+3"; Listing.correct_option := "B";
              Listing.options := Sample.choices; Listing.image_url := None |} ].
Proof. vm_compute. reflexivity. Qed.

(** The listing of the exam gives a record for each of its two questions,
    with the correct option, the one of the lesser text first. *)
Lemma questions_listing_gives_correct_options_sample :
  exists rows,
    get_questions_by_exam "E1" (run Sample.reversed init_db)
    = Some [ {| Listing.question_text := "2+2"; Listing.correct_option := "A";
                Listing.options := Sample.choices; Listing.image_url := None |};
             {| Listing.question_text := "2+3"; Listing.correct_option := "B";
                Listing.options := Sample.choices; Listing.image_url := None |} ]
    /\ exam_rows (Some "E1") (run Sample.reversed init_db) rows
    /\ Forall2 lists rows
         [ {| Listing.question_text := "2+2"; Listing.correct_option := "A";
              Listing.options := Sample.choices; Listing.image_url := None |};
           {| Listing.question_text := "2+3"; Listing.correct_option := "B";
              Listing.options := Sample.choices; Listing.image_url := None |} ].
Proof.
  destruct (questions_listing_gives_correct_options
              (run Sample.reversed init_db) sample_reversed_reachable "E1")
    as ((listing & rows & Hl & Hrows & Hlists & _) & _).
  rewrite sample_reversed_listing in Hl. injection Hl as <-.
  exists rows. split; [reflexivity|]. split; [exact Hrows|exact Hlists].
Defined.

(** ** Where the specification and the handlers part *)


(** Every field of the request is present, the answers being the empty map
    of a student who has answered nothing yet, and [save_progress] answers
    400. *)
Lemma save_progress_rejects_present_empty_answers :
  (save_progress (Some "S1") (Some "E1") (Some "T1") (Some ∅) (Some 300%Z)
     (Some Sample.status) (run Sample.ready init_db)).1 = InvalidData
  /\ save_status
       (save_progress (Some "S1") (Some "E1") (Some "T1") (Some ∅) (Some 300%Z)
          (Some Sample.status) (run Sample.ready init_db)).1 = 400%Z.
Proof. split; by vm_compute. Qed.


(** After the same requests and one submission the student is refused with
    one result, against the two attempts of the exam's settings: the limit
    read is the one copied into the question of the least text. *)
Lemma start_refuses_on_a_stale_limit :
  exists spec,
    check_exam_eligibility (fun _ => 0) (Some "S1") (Some "E1")
      (run (Sample.ready ++ [Sample.settings_again; Sample.submit "r1"])
         init_db)
    = AttemptsExhausted 1
    /\ fetchone (placeholder_of (Some "E1") (Some "T1")
                   (run (Sample.ready
                         ++ [Sample.settings_again; Sample.submit "r1"])
                      init_db))
       = Some spec
    /\ Questions.allowed_attempts spec = 2%Z.
Proof. vm_compute. eexists. repeat split; reflexivity. Qed.

(** Every field of the request is there and none is empty; the time left
    does not fit 64 bits, [save_progress] answers 500 and the row saved
    before stays. *)
Lemma save_progress_overflow_is_not_saved :
  save_progress (Some "S1") (Some "E1") (Some "T1") (Some Sample.answers)
    (Some (2 ^ 63)%Z) (Some Sample.status)
    (run (Sample.ready ++ [Sample.save]) init_db)
  = (SaveFailed, run (Sample.ready ++ [Sample.save]) init_db).
Proof. vm_compute. reflexivity. Qed.

(** * More of the server

    Properties of the handlers beyond the session lifecycle: what a
    reachable store rules out, the replies of a submission, the roster, the
    authoring of exams, and the teachers' accounts. *)

Section Coverage.
Context `{JsonCodec}.

#[local] Arguments grade : simpl never.
#[local] Arguments correct_answers_map : simpl never.

(** ** The replies of a submission *)

Lemma grade_bounds a cm qs : forall score report score' report',
  grade a cm score report qs = inr (score', report') ->
  (score <= score' <= score + Z.of_nat (length qs))%Z
  /\ length report' = (length report + length qs)%nat.
Proof.
  induction qs as [|q qs IH]; intros score report score' report'.
  - intros [= <- <-]. simpl. split; lia.
  - destruct a as [a|]; [|done]. rewrite grade_cons.
    destruct (json_loads (Questions.options q)) as [o|]; [|done].
    cbv zeta. intros Hg. apply IH in Hg as [Hs Hl].
    rewrite length_app in Hl. simpl in *. split; [|lia].
    case_bool_decide; lia.
Qed.

(** X2.  A graded submission has a score between 0 and the number of the
    exam's questions, and its report has one record for each of them, on any
    store. *)
Theorem submitted_score_is_bounded rid fault e s n a t db :
  match (submit_exam rid fault e s n a t db).1 with
  | Submitted score report =>
      (0 <= score <= Z.of_nat (length (real_questions e db)))%Z
      /\ length report = length (real_questions e db)
  | NoQuestionsToGrade | SubmissionFailed _ => True
  end.
Proof.
  destruct (submit_exam_cases rid fault e s n a t db)
    as [(score & rep & eid & sid & name & tid & ans & -> & -> & -> & ->
         & -> & -> & _ & Hg & _ & ->)|[_ [->|[x ->]]]]; simpl; [|done..].
  apply grade_bounds in Hg as [Hs Hl]. simpl in *. split; lia.
Qed.

(** X3.  On a reachable store a submission is graded exactly when the exam
    has a question, the student id, the student name, the teacher id and
    the answers are present, the identifier drawn for the result is unused
    and the store does not fail.  It answers that there are no questions
    exactly when the exam has none, fails on the answers exactly when the
    exam has a question and the answers are absent, and never fails on
    parsing stored options. *)
Theorem submit_exam_replies db :
  reachable db ->
  forall rid fault e s n a t,
    ((exists score report,
         (submit_exam rid fault e s n a t db).1 = Submitted score report)
     <-> real_questions e db <> [] /\ is_Some s /\ is_Some n /\ is_Some t
         /\ is_Some a /\ (rid ∉ (Results.result_id <$> results db))
         /\ fault = None)
    /\ ((submit_exam rid fault e s n a t db).1 = NoQuestionsToGrade
        <-> real_questions e db = [])
    /\ ((submit_exam rid fault e s n a t db).1 = SubmissionFailed AttributeError
        <-> real_questions e db <> [] /\ a = None)
    /\ (submit_exam rid fault e s n a t db).1 <> SubmissionFailed JSONDecodeError.
Proof.
  intros Hok%reachable_store_ok rid fault e s n a t.
  assert (Hsteps :
    match real_questions e db, a with
    | [], _ => (submit_exam rid fault e s n a t db).1 = NoQuestionsToGrade
    | _ :: _, None =>
        (submit_exam rid fault e s n a t db).1 = SubmissionFailed AttributeError
    | _ :: _, Some _ =>
        (exists score report,
            (submit_exam rid fault e s n a t db).1 = Submitted score report)
        \/ (submit_exam rid fault e s n a t db).1 = SubmissionFailed IntegrityError
        \/ (submit_exam rid fault e s n a t db).1
           = SubmissionFailed OperationalError
    end).
  { destruct a as [ans|].
    - destruct (grade_real_questions ans e db Hok) as (rep & Hg & _).
      unfold submit_exam, submit_body, mbind, tx_mbind, tx_bind, query, storage,
        execute, commit, mret, tx_mret, tx_ret, raise, insert_result,
        delete_in_progress, connect, close in *. simpl in *.
      destruct (real_questions e db) as [|q qs]; [done|]. simpl.
      rewrite Hg. simpl.
      destruct (decide (fault = Some AtInsert)); simpl; [by auto|].
      destruct e, s, n, t; simpl; try (by auto).
      case_decide; simpl; [by auto|].
      destruct (decide (fault = Some AtDelete)); simpl; [by auto|].
      destruct (decide (fault = Some AtCommit)); simpl; [by auto|].
      left. eauto.
    - unfold submit_exam, submit_body, mbind, tx_mbind, tx_bind, query, storage,
        execute, commit, mret, tx_mret, tx_ret, raise, connect, close in *.
      simpl in *.
      destruct (real_questions e db) as [|q qs]; [done|]. simpl.
      done. }
  split; [|split; [|split]].
  - split.
    + intros (score & report & Hr).
      destruct (submit_exam_cases rid fault e s n a t db)
        as [(score' & rep' & eid & sid & name & tid & ans & -> & -> & -> & ->
             & -> & -> & Hne & _ & Hfresh & _)|[_ [Hf|[x Hf]]]];
        [|congruence..].
      repeat split; try done; by eexists.
    + intros (Hne & [sid ->] & [name ->] & [tid ->] & [ans ->] & Hfresh & ->).
      destruct (real_questions e db) as [|q qs] eqn:Hq; [done|].
      assert (He : exists eid, e = Some eid).
      { assert (Hin : q ∈ real_questions e db) by (rewrite Hq; by left).
        apply elem_of_real_questions in Hin as [-> _]. by eexists. }
      destruct He as [eid ->].
      destruct (grade_real_questions ans (Some eid) db Hok) as (rep & Hg & _).
      exists (matches ans (real_questions (Some eid) db)), rep.
      erewrite submit_exam_success; [done| |exact Hg|done].
      by rewrite Hq.
  - destruct (real_questions e db) as [|q qs]; [done|].
    destruct a; [destruct Hsteps as [(? & ? & ->)|[->| ->]]|rewrite Hsteps]; done.
  - destruct (real_questions e db) as [|q qs].
    + rewrite Hsteps. split; [done|]. by intros [? _].
    + destruct a; [destruct Hsteps as [(? & ? & ->)|[->| ->]]|rewrite Hsteps];
        split; try done; by intros [_ ?].
  - destruct (real_questions e db) as [|q qs]; [by rewrite Hsteps|].
    destruct a; [destruct Hsteps as [(? & ? & ->)|[->| ->]]|rewrite Hsteps]; done.
Qed.

(** ** What the store keeps *)

Lemma handle_results_suffix db r :
  exists added, results (handle db r) = results db ++ added.
Proof.
  destruct r;
    try (exists []; rewrite app_nil_r; by apply handle_results_other).
  simpl.
  destruct (submit_exam_cases result_id fault exam_id student_id student_name
              answers teacher_id db)
    as [(score & rep & eid & sid & name & tid & ans & _ & _ & _ & _ & _ & _
         & _ & _ & _ & ->)|[-> _]]; simpl.
  - by eexists.
  - exists []. by rewrite app_nil_r.
Qed.

(** X4.  The results are append-only: whatever requests are handled, the
    results held before are still there, unchanged and in their order, at
    the head of the table. *)
Theorem results_are_append_only reqs db :
  exists added, results (run reqs db) = results db ++ added.
Proof.
  induction reqs as [|r reqs (added & IH)] using rev_ind.
  - exists []. by rewrite app_nil_r.
  - rewrite run_snoc. destruct (handle_results_suffix (run reqs db) r)
      as [added' ->].
    exists (added ++ added'). by rewrite IH, app_assoc.
Qed.

(** X5.  In every reachable store no two results share their identifier and
    no score is negative. *)
Theorem results_are_well_formed db :
  reachable db ->
  NoDup (Results.result_id <$> results db)
  /\ Forall (fun r => (0 <= Results.score r)%Z) (results db).
Proof.
  intros [reqs ->]. induction reqs as [|r reqs [IHid IHscore]] using rev_ind.
  { split; [apply NoDup_nil_2|apply Forall_nil_2]. }
  rewrite run_snoc.
  destruct r;
    try (rewrite handle_results_other by done; by split).
  simpl.
  destruct (submit_exam_cases result_id fault exam_id student_id student_name
              answers teacher_id (run reqs init_db))
    as [(score & rep & eid & sid & name & tid & ans & _ & _ & _ & _ & _ & _
         & _ & Hg & Hfresh & ->)|[-> _]]; simpl; [|by split].
  split.
  - rewrite fmap_app. apply NoDup_app. split; [done|]. split.
    + intros x Hx ->%list_elem_of_singleton. done.
    + apply NoDup_singleton.
  - apply Forall_app. split; [done|]. apply Forall_singleton. simpl.
    apply grade_bounds in Hg. lia.
Qed.

(** X6.  In every reachable store a pair of an exam id and a question text
    names at most one row of [questions], and the options of every question
    other than a placeholder row are a JSON text that parses. *)
Theorem questions_are_well_formed db :
  reachable db ->
  NoDup (Questions.key <$> questions db)
  /\ Forall (fun q => Questions.question_text q <> "placeholder"%string ->
                      is_Some (json_loads (Questions.options q)))
            (questions db).
Proof.
  intros [Hk Hd]%reachable_store_ok. split; [exact Hk|].
  eapply Forall_impl; [exact Hd|].
  intros q Hq Hreal. destruct (Hq Hreal) as [m ->].
  rewrite json_loads_dumps. by eexists.
Qed.

(** ** The roster *)

Lemma insert_or_ignore_keeps sid r t sid' row :
  t !! sid' = Some row -> insert_or_ignore_student sid r t !! sid' = Some row.
Proof.
  intros Hrow. unfold insert_or_ignore_student.
  destruct (t !! sid) eqn:Hsid; [done|].
  rewrite lookup_insert_ne; [done|]. intros ->. congruence.
Qed.

Lemma bulk_enrol_keeps tid l t sid row :
  t !! sid = Some row ->
  foldl (fun t student =>
           insert_or_ignore_student student.1
             {| Students.teacher_id := tid; Students.student_name := student.2 |}
             t) t l !! sid = Some row.
Proof.
  revert t. induction l as [|st l IH]; intros t Hrow; simpl; [done|].
  apply IH. by apply insert_or_ignore_keeps.
Qed.

(** X7.  A roster request made in the name of one teacher leaves the
    student of another teacher as it is: it is neither removed, nor renamed,
    nor taken over, by a bulk upload, a creation, a deletion or an update. *)
Theorem roster_requests_keep_other_teachers_students t sid row db :
  students db !! sid = Some row ->
  Students.teacher_id row <> t ->
  (forall l, students (bulk_upload_students (Some t) l db).2 !! sid = Some row)
  /\ (forall s n,
        students (create_single_student (Some t) s n db).2 !! sid = Some row)
  /\ (forall s, students (delete_student (Some t) s db).2 !! sid = Some row)
  /\ (forall old new name,
        students (update_student (Some t) old new name db).2 !! sid = Some row).
Proof.
  intros Hrow Hother. split; [|split; [|split]].
  - intros l. unfold bulk_upload_students. repeat case_match; try done.
    simpl. by apply bulk_enrol_keeps.
  - intros s n. unfold create_single_student. repeat case_match; try done.
    simpl. rewrite lookup_insert_ne; [done|]. intros ->. congruence.
  - intros s. unfold delete_student, student_of_teacher, student_by_id.
    destruct s as [s|]; [|done]. simpl.
    destruct (students db !! s) as [st|] eqn:Hs; [|done]. simpl.
    case_decide as Ht; [|done]. simpl.
    rewrite lookup_delete_ne; [done|]. intros ->. congruence.
  - intros old new name.
    unfold update_student, student_of_teacher, student_by_id.
    destruct (negb _); [done|].
    destruct old as [old|], new as [new|], name as [name|]; try done. simpl.
    destruct (students db !! old) as [st|] eqn:Hold; [|done]. simpl.
    case_decide as Ht; [|done].
    assert (Hne : old <> sid) by (intros ->; congruence).
    case_decide as Htaken; [done|]. simpl.
    apply not_and_l in Htaken as [Hsame|Hfree].
    + apply dec_stable in Hsame as ->.
      rewrite lookup_insert_ne by done. by rewrite lookup_delete_ne.
    + rewrite lookup_insert_ne.
      * by rewrite lookup_delete_ne.
      * intros ->. apply Hfree. by eexists.
Qed.

Lemma truthy_no_string (o : option string) : truthy o = false <-> no_string o.
Proof.
  unfold no_string. destruct o as [s|]; cbv [truthy truthy_option truthy_string].
  - rewrite bool_decide_eq_false. split.
    + intros Hs%dec_stable. right. by rewrite Hs.
    + intros [|[= ->]]; [done|]. by intros Hs.
  - split; [by left|done].
Qed.

Lemma truthy_some_string (o : option string) :
  truthy o = true <-> exists s, o = Some s /\ s <> ""%string.
Proof.
  destruct o as [s|]; cbv [truthy truthy_option truthy_string].
  - rewrite bool_decide_eq_true. split; [by eexists|]. by intros (? & [= <-] & ?).
  - split; [done|]. by intros (? & ? & _).
Qed.

Lemma store_eta db :
  {| students := students db; questions := questions db;
     results := results db; in_progress_exams := in_progress_exams db |} = db.
Proof. by destruct db. Qed.

(** X8.  [create_single_student] answers 400 exactly when the teacher id,
    the student id or the name is absent or empty, and 409 exactly when the
    fields are given and the id is taken; in both cases nothing is written
    and the student who holds the id stays as enrolled.  On 201 the id was
    free, [get_student_by_id] then finds the name and the teacher, and a
    deletion by that teacher answers 200 and gives the store back as it
    was. *)
Theorem create_single_student_replies t s n db :
  ((create_single_student t s n db).1 = 400%Z
   <-> no_string t \/ no_string s \/ no_string n)
  /\ ((create_single_student t s n db).1 = 409%Z
      <-> ~ (no_string t \/ no_string s \/ no_string n)
          /\ is_Some (student_by_id s db))
  /\ ((create_single_student t s n db).1 <> 201%Z ->
      (create_single_student t s n db).2 = db)
  /\ ((create_single_student t s n db).1 = 201%Z ->
      exists tid sid name,
        t = Some tid /\ s = Some sid /\ n = Some name
        /\ students db !! sid = None
        /\ get_student_by_id s (create_single_student t s n db).2
           = StudentFound name tid
        /\ delete_student t s (create_single_student t s n db).2 = (200%Z, db)).
Proof.
  unfold create_single_student.
  destruct (truthy t) eqn:Ht; simpl.
  2:{ apply truthy_no_string in Ht. repeat split; try done; auto.
      intros [Hno _]. exfalso. apply Hno. auto. }
  destruct (truthy s) eqn:Hs; simpl.
  2:{ apply truthy_no_string in Hs. repeat split; try done; auto.
      intros [Hno _]. exfalso. apply Hno. auto. }
  destruct (truthy n) eqn:Hn; simpl.
  2:{ apply truthy_no_string in Hn. repeat split; try done; auto.
      intros [Hno _]. exfalso. apply Hno. auto. }
  assert (Hgiven : ~ (no_string t \/ no_string s \/ no_string n)).
  { rewrite <-!truthy_no_string. intros [|[|]]; congruence. }
  apply truthy_some_string in Ht as (tid & -> & Htid).
  apply truthy_some_string in Hs as (sid & -> & Hsid).
  apply truthy_some_string in Hn as (name & -> & Hname).
  unfold student_by_id. simpl.
  destruct (students db !! sid) as [st|] eqn:Hst; simpl.
  - repeat split; try done; by eexists.
  - split; [split; [done|intros Hno; by destruct Hgiven]|].
    split; [split; [done|by intros [_ [? ?]]]|].
    split; [done|]. intros _.
    exists tid, sid, name. repeat split; try done.
    + unfold get_student_by_id, student_by_id.
      cbv [truthy truthy_option truthy_string].
      rewrite bool_decide_eq_true_2 by done. simpl.
      by rewrite lookup_insert_eq.
    + unfold delete_student, student_of_teacher, student_by_id. simpl.
      rewrite lookup_insert_eq. simpl. rewrite decide_True by done.
      f_equal. unfold set_students. simpl.
      rewrite delete_insert_eq, delete_id by done. apply store_eta.
Qed.

(** X9.  [delete_student] answers 200 exactly when the student exists and
    belongs to the teacher of the request, and 404 otherwise, writing
    nothing.  On 200 the student is gone from the roster, every other
    student stays, and the results and the saved progress of the deleted
    student are left in the store. *)
Theorem delete_student_replies t s db :
  ((delete_student t s db).1 = 200%Z
   <-> exists tid, t = Some tid /\ is_Some (student_of_teacher s tid db))
  /\ ((delete_student t s db).1 = 200%Z \/ (delete_student t s db).1 = 404%Z)
  /\ ((delete_student t s db).1 = 404%Z -> (delete_student t s db).2 = db)
  /\ ((delete_student t s db).1 = 200%Z ->
      student_by_id s (delete_student t s db).2 = None
      /\ (forall sid, Some sid <> s ->
            students (delete_student t s db).2 !! sid = students db !! sid)
      /\ questions (delete_student t s db).2 = questions db
      /\ results (delete_student t s db).2 = results db
      /\ in_progress_exams (delete_student t s db).2 = in_progress_exams db).
Proof.
  unfold delete_student.
  destruct t as [tid|], s as [sid|]; simpl;
    try (repeat split; try done; auto; by intros (? & ? & [? ?])).
  destruct (student_of_teacher (Some sid) tid db) as [st|] eqn:Hst; simpl.
  - repeat split; try done; auto.
    + exists tid. split; [done|by eexists].
    + unfold student_by_id. simpl. apply lookup_delete_eq.
    + intros sid' Hne. apply lookup_delete_ne. congruence.
  - repeat split; try done; auto.
    intros (? & [= <-] & [? ?]). congruence.
Qed.

(** X10.  [update_student] answers 400 exactly when one of its four fields
    is absent or empty, 404 exactly when the fields are given and the old
    id is no student of the teacher, 500 exactly when the fields are given,
    the old id is a student of the teacher and the new id differs from the
    old one and is taken, and 200 in the remaining case; unless it answers
    200 nothing is written, so no student is overwritten.  On 200 the new
    id holds the teacher and the new name, the old id, when different, is
    free, every other student stays, and the results and the saved progress
    stay under the ids they were stored with. *)
Theorem update_student_replies t old new name db :
  ((update_student t old new name db).1 = 400%Z
   <-> no_string t \/ no_string old \/ no_string new \/ no_string name)
  /\ ((update_student t old new name db).1 = 404%Z
      <-> ~ (no_string t \/ no_string old \/ no_string new \/ no_string name)
          /\ exists tid, t = Some tid /\ student_of_teacher old tid db = None)
  /\ ((update_student t old new name db).1 = 500%Z
      <-> ~ (no_string t \/ no_string old \/ no_string new \/ no_string name)
          /\ (exists tid,
                t = Some tid /\ is_Some (student_of_teacher old tid db))
          /\ new <> old /\ is_Some (student_by_id new db))
  /\ ((update_student t old new name db).1 = 400%Z
      \/ (update_student t old new name db).1 = 404%Z
      \/ (update_student t old new name db).1 = 500%Z
      \/ (update_student t old new name db).1 = 200%Z)
  /\ ((update_student t old new name db).1 <> 200%Z ->
      (update_student t old new name db).2 = db)
  /\ ((update_student t old new name db).1 = 200%Z ->
      exists tid o nw nm,
        t = Some tid /\ old = Some o /\ new = Some nw /\ name = Some nm
        /\ is_Some (student_of_teacher old tid db)
        /\ students (update_student t old new name db).2 !! nw
           = Some {| Students.teacher_id := tid; Students.student_name := nm |}
        /\ (nw <> o -> students (update_student t old new name db).2 !! o = None)
        /\ (forall k, k <> o -> k <> nw ->
              students (update_student t old new name db).2 !! k
              = students db !! k)
        /\ results (update_student t old new name db).2 = results db
        /\ in_progress_exams (update_student t old new name db).2
           = in_progress_exams db).
Proof.
  unfold update_student.
  destruct (truthy t && truthy old && truthy new && truthy name) eqn:Hall; simpl.
  2:{ assert (Hno : no_string t \/ no_string old \/ no_string new
                    \/ no_string name).
      { rewrite <-!truthy_no_string.
        repeat (apply andb_false_iff in Hall as [Hall|Hall]); auto. }
      repeat split; try done; auto; by intros [? _]. }
  apply andb_true_iff in Hall as [Hall Hn].
  apply andb_true_iff in Hall as [Hall Hnw].
  apply andb_true_iff in Hall as [Ht Ho].
  assert (Hgiven : ~ (no_string t \/ no_string old \/ no_string new
                      \/ no_string name)).
  { rewrite <-!truthy_no_string. intros [|[|[|]]]; congruence. }
  apply truthy_some_string in Ht as (tid & -> & _).
  apply truthy_some_string in Ho as (o & -> & _).
  apply truthy_some_string in Hnw as (nw & -> & _).
  apply truthy_some_string in Hn as (nm & -> & _).
  destruct (student_of_teacher (Some o) tid db) as [st|] eqn:Hst; simpl.
  - case_decide as Htaken; simpl.
    + destruct Htaken as [Hne Hin].
      repeat split; try done; auto.
      * intros [_ (tid' & [= <-] & Hnone)]. congruence.
      * exists tid. split; [done|]. by rewrite Hst.
      * congruence.
    + repeat split; try done; auto.
      * intros [_ (tid' & [= <-] & Hnone)]. congruence.
      * intros (_ & _ & Hne & Hin). exfalso. apply Htaken.
        split; [congruence|done].
      * exists tid, o, nw, nm. repeat split; try done.
        -- apply lookup_insert_eq.
        -- intros Hne. rewrite lookup_insert_ne by done. apply lookup_delete_eq.
        -- intros k Hko Hkn. rewrite lookup_insert_ne by done.
           by apply lookup_delete_ne.
  - repeat split; try done; auto.
    + by exists tid.
    + intros (_ & (tid' & [= <-] & Hsome) & _). rewrite Hst in Hsome.
      by destruct Hsome.
Qed.

Lemma bulk_enrol_union tid l (t : gmap string Students.row) :
  foldl (fun t student =>
           insert_or_ignore_student student.1
             {| Students.teacher_id := tid; Students.student_name := student.2 |}
             t) t l
  = t ∪ ((fun name => {| Students.teacher_id := tid;
                         Students.student_name := name |})
         <$> (list_to_map l : gmap string string)).
Proof.
  revert t. induction l as [|[sid name] l IH]; intros t; simpl.
  - rewrite fmap_empty. symmetry. apply (right_id_L ∅ (∪)).
  - rewrite IH, fmap_insert. apply map_eq. intros k.
    rewrite !lookup_union. unfold insert_or_ignore_student.
    destruct (decide (k = sid)) as [->|Hne].
    + rewrite lookup_insert_eq.
      destruct (t !! sid) as [st|] eqn:Hsid.
      * rewrite Hsid. by rewrite !union_Some_l.
      * rewrite lookup_insert_eq, union_Some_l. done.
    + rewrite (lookup_insert_ne _ sid k) by done.
      destruct (t !! sid) as [st|] eqn:Hsid; [done|].
      by rewrite lookup_insert_ne by done.
Qed.

(** an entry of a bulk upload of students without one of its two keys *)
Definition lacks_key (student : option string * option string) : Prop :=
  student.1 = None \/ student.2 = None.

Lemma student_entries_None entries :
  mapM student_entry entries = None <-> Exists lacks_key entries.
Proof.
  rewrite eq_None_not_Some, mapM_is_Some, <-Exists_Forall_neg.
  - apply Exists_proper; [|done]. intros [[sid|] [name|]]; unfold lacks_key;
      simpl; split; try done; try (by intros [[]|[]]); try (by intros []);
      auto; intros Hno; exfalso; apply Hno; by eexists.
  - intros [[sid|] [name|]]; simpl; first [by left; eexists | by right; intros []].
Qed.

Lemma student_entries_Some entries students_list :
  mapM student_entry entries = Some students_list ->
  entries = (fun student => (Some student.1, Some student.2)) <$> students_list.
Proof.
  intros Hm%mapM_Some_1.
  induction Hm as [|entry st entries l Hst _ IH]; [done|].
  rewrite fmap_cons, <-IH. f_equal.
  destruct entry as [[sid|] [name|]]; try done.
  simpl in Hst. by injection Hst as <-.
Qed.

(** X11.  [bulk_upload_students] answers 400 exactly when the teacher id is
    absent or empty or the list is absent or empty, 500 exactly when these
    are given and an entry of the list lacks its id or its name, and 200
    otherwise; unless it answers 200 nothing is written, the students of
    the entries before the incomplete one included.  On 200 the roster is
    the old roster together with the listed students whose id was free,
    each under the teacher of the request and with the name of the first
    entry of its id: nobody enrolled before changes, and an entry that
    repeats an id is ignored. *)
Theorem bulk_upload_students_replies t l db :
  ((bulk_upload_students t l db).1 = 400%Z
   <-> no_string t \/ l = None \/ l = Some [])
  /\ ((bulk_upload_students t l db).1 = 500%Z
      <-> ~ (no_string t \/ l = None \/ l = Some [])
          /\ exists entries, l = Some entries /\ Exists lacks_key entries)
  /\ ((bulk_upload_students t l db).1 = 400%Z
      \/ (bulk_upload_students t l db).1 = 500%Z
      \/ (bulk_upload_students t l db).1 = 200%Z)
  /\ ((bulk_upload_students t l db).1 <> 200%Z ->
      (bulk_upload_students t l db).2 = db)
  /\ ((bulk_upload_students t l db).1 = 200%Z ->
      exists tid students_list,
        t = Some tid
        /\ l = Some ((fun student => (Some student.1, Some student.2))
                      <$> students_list)
        /\ students (bulk_upload_students t l db).2
           = students db
             ∪ ((fun name => {| Students.teacher_id := tid;
                                Students.student_name := name |})
                <$> (list_to_map students_list : gmap string string))
        /\ questions (bulk_upload_students t l db).2 = questions db
        /\ results (bulk_upload_students t l db).2 = results db
        /\ in_progress_exams (bulk_upload_students t l db).2
           = in_progress_exams db).
Proof.
  unfold bulk_upload_students.
  destruct (truthy t) eqn:Ht; simpl.
  2:{ apply truthy_no_string in Ht. repeat split; try done; auto.
      by intros [Hno _]; exfalso; apply Hno; auto. }
  apply truthy_some_string in Ht as (tid & -> & Htid).
  assert (Hgiven : ~ no_string (Some tid)) by (by intros [|[= ->]]).
  destruct l as [[|st l]|]; cbn [truthy truthy_option truthy_list negb].
  - repeat split; try done; auto.
    by intros [Hno _]; exfalso; apply Hno; auto.
  - assert (Hlist : ~ (no_string (Some tid) \/ Some (st :: l) = None
                       \/ Some (st :: l) = Some [])) by (by intros [|[|]]).
    destruct (mapM student_entry (st :: l)) as [students_list|] eqn:Hm;
      cbn [fst snd].
    + repeat split; try done; auto.
      * intros [_ (entries & [= <-] & Hex)].
        apply student_entries_None in Hex. congruence.
      * exists tid, students_list. repeat split; try done.
        -- f_equal. by apply student_entries_Some.
        -- apply (bulk_enrol_union tid students_list).
    + repeat split; try done; auto.
      exists (st :: l). split; [done|]. by apply student_entries_None.
  - repeat split; try done; auto.
    by intros [Hno _]; exfalso; apply Hno; auto.
Qed.

(** ** Exam settings *)

(** A number that [all] rejects: absent or zero. *)
Definition no_int (o : option Z) : Prop := o = None \/ o = Some 0%Z.

Lemma truthy_no_int (o : option Z) : truthy o = false <-> no_int o.
Proof.
  unfold no_int. destruct o as [z|]; cbv [truthy truthy_option truthy_int].
  - rewrite bool_decide_eq_false. split.
    + intros Hz%dec_stable. right. by rewrite Hz.
    + intros [|[= ->]]; [done|]. by intros Hz.
  - split; [by left|done].
Qed.

Lemma is_not_None_false {A} (o : option A) : is_not_None o = false <-> o = None.
Proof. by destruct o. Qed.

(** The rows of [questions] other than the settings row of an exam. *)
Definition beside_settings (exam_id : string) (t : list Questions.row)
    : list Questions.row :=
  filter (fun q => Questions.key q <> (exam_id, "placeholder"%string)) t.

Lemma beside_settings_update e t ti sc d a p en l :
  beside_settings e (update_placeholder e t ti sc d a p en <$> l)
  = beside_settings e l.
Proof.
  unfold beside_settings. induction l as [|q l IH]; [done|].
  rewrite fmap_cons, !filter_cons, update_placeholder_key, IH.
  case_decide as Hq; [|done]. f_equal.
  unfold update_placeholder. case_decide as Hm; [|done].
  destruct Hm as (He & _ & Ht). exfalso. apply Hq.
  unfold Questions.key. by rewrite He, Ht.
Qed.

(** the settings that a request carries, as a row holds them *)
Definition holds_settings (title school : string) (dur att : Z) (pp : float)
    (en : option bool) (q : Questions.row) : Prop :=
  Questions.exam_title q = title /\ Questions.school_name q = school
  /\ Questions.duration q = dur /\ Questions.allowed_attempts q = att
  /\ Questions.passing_percentage q = pp
  /\ Questions.enable_analysis_report q = (if truthy en then 1 else 0)%Z.

Lemma update_placeholder_holds e t ti sc d a p en q :
  Questions.exam_id q = e -> Questions.teacher_id q = t ->
  Questions.question_text q = "placeholder"%string ->
  holds_settings ti sc d a p en
    (update_placeholder e t ti sc d a p (if truthy en then 1 else 0)%Z q).
Proof.
  intros He Ht Hp. unfold update_placeholder.
  rewrite decide_True by done. by repeat split.
Qed.

Lemma elem_of_placeholder_of e t db q :
  q ∈ placeholder_of e t db <->
  (e = Some (Questions.exam_id q) /\ t = Some (Questions.teacher_id q)
   /\ Questions.question_text q = "placeholder"%string)
  /\ q ∈ questions db.
Proof.
  unfold placeholder_of. rewrite list_elem_of_filter.
  split; intros [(He & Ht & Hp) Hin]; repeat split; congruence.
Qed.

(** X12.  [save_exam_settings] answers 400 exactly when the teacher id, the
    exam id, the title or the school is absent or empty, the duration or
    the attempts are absent or zero, or the passing percentage is absent.
    It answers 500 exactly when these are given and the duration or the
    attempts are outside the 64 bits of an INTEGER, or the teacher has no
    settings row for the exam id and another teacher holds one; it answers
    200 otherwise.  Unless it answers 200 nothing is written.  On 200 the
    settings row of the exam belongs to the teacher and holds the settings
    of the request, and every other row of [questions] is as it was: the
    questions uploaded before keep the settings copied into them at their
    upload. *)
Theorem save_exam_settings_replies t e title school dur att pp en db :
  ((save_exam_settings t e title school dur att pp en db).1 = 400%Z
   <-> no_string t \/ no_string e \/ no_string title \/ no_string school
       \/ no_int dur \/ no_int att \/ pp = None)
  /\ ((save_exam_settings t e title school dur att pp en db).1 = 500%Z
      <-> ~ (no_string t \/ no_string e \/ no_string title \/ no_string school
             \/ no_int dur \/ no_int att \/ pp = None)
          /\ exists eid d a,
               e = Some eid /\ dur = Some d /\ att = Some a
               /\ (~ ((- 2 ^ 63 <= d < 2 ^ 63)%Z /\ (- 2 ^ 63 <= a < 2 ^ 63)%Z)
                   \/ (placeholder_of e t db = []
                       /\ exists q,
                            q ∈ questions db
                            /\ Questions.key q = (eid, "placeholder"%string)
                            /\ Some (Questions.teacher_id q) <> t)))
  /\ ((save_exam_settings t e title school dur att pp en db).1 = 400%Z
      \/ (save_exam_settings t e title school dur att pp en db).1 = 500%Z
      \/ (save_exam_settings t e title school dur att pp en db).1 = 200%Z)
  /\ ((save_exam_settings t e title school dur att pp en db).1 <> 200%Z ->
      (save_exam_settings t e title school dur att pp en db).2 = db)
  /\ ((save_exam_settings t e title school dur att pp en db).1 = 200%Z ->
      exists tid eid ti sc d a p,
        t = Some tid /\ e = Some eid /\ title = Some ti /\ school = Some sc
        /\ dur = Some d /\ att = Some a /\ pp = Some p
        /\ (exists q,
              q ∈ questions (save_exam_settings t e title school dur att pp en db).2
              /\ Questions.key q = (eid, "placeholder"%string)
              /\ Questions.teacher_id q = tid
              /\ holds_settings ti sc d a p en q)
        /\ beside_settings eid
             (questions (save_exam_settings t e title school dur att pp en db).2)
           = beside_settings eid (questions db)
        /\ students (save_exam_settings t e title school dur att pp en db).2
           = students db
        /\ results (save_exam_settings t e title school dur att pp en db).2
           = results db
        /\ in_progress_exams
             (save_exam_settings t e title school dur att pp en db).2
           = in_progress_exams db).
Proof.
  unfold save_exam_settings.
  destruct (truthy t && truthy e && truthy title && truthy school
            && truthy dur && truthy att && is_not_None pp) eqn:Hall; simpl.
  2:{ assert (Hno : no_string t \/ no_string e \/ no_string title
                    \/ no_string school \/ no_int dur \/ no_int att
                    \/ pp = None).
      { rewrite <-!truthy_no_string, <-!truthy_no_int, <-is_not_None_false.
        repeat (apply andb_false_iff in Hall as [Hall|Hall]); auto 10. }
      repeat split; try done; auto. by intros [? _]. }
  repeat (apply andb_true_iff in Hall as [Hall ?]).
  assert (Hgiven : ~ (no_string t \/ no_string e \/ no_string title
                      \/ no_string school \/ no_int dur \/ no_int att
                      \/ pp = None)).
  { rewrite <-!truthy_no_string, <-!truthy_no_int, <-is_not_None_false.
    intros [|[|[|[|[|[|]]]]]]; congruence. }
  destruct t as [tid|], e as [eid|], title as [ti|], school as [sc|],
    dur as [d|], att as [a|], pp as [p|]; try done.
  destruct (fits_int64 d && fits_int64 a) eqn:Hfit; simpl.
  2:{ assert (Hout : ~ ((- 2 ^ 63 <= d < 2 ^ 63)%Z
                        /\ (- 2 ^ 63 <= a < 2 ^ 63)%Z)).
      { rewrite <-!fits_int64_spec. intros [Hd Ha]. by rewrite Hd, Ha in Hfit. }
      repeat split; try done; auto.
      exists eid, d, a. repeat split; try done. by left. }
  assert (Hin64 : (- 2 ^ 63 <= d < 2 ^ 63)%Z /\ (- 2 ^ 63 <= a < 2 ^ 63)%Z).
  { rewrite <-!fits_int64_spec. by apply andb_true_iff. }
  destruct (fetchone (placeholder_of (Some eid) (Some tid) db))
    as [q0|] eqn:Hq0; simpl.
  - repeat split; try done; auto.
    + intros [_ (eid' & d' & a' & [= <-] & [= <-] & [= <-] & [Hout|[Hnil _]])];
        [done|]. by rewrite Hnil in Hq0.
    + exists tid, eid, ti, sc, d, a, p. repeat split; try done.
      * apply head_Some_elem_of in Hq0.
        apply elem_of_placeholder_of in Hq0 as [([= He] & [= Ht] & Hp) Hin].
        exists (update_placeholder eid tid ti sc d a p
                  (if truthy en then 1 else 0)%Z q0).
        split; [by apply list_elem_of_fmap_2|].
        split; [rewrite update_placeholder_key; unfold Questions.key; congruence|].
        split; [unfold update_placeholder; by case_decide|].
        by apply update_placeholder_holds.
      * apply beside_settings_update.
  - apply head_None in Hq0. case_decide as Hkey; simpl.
    + repeat split; try done; auto.
      apply list_elem_of_fmap in Hkey as (q & Hq & Hin).
      exists eid, d, a. repeat split; try done. right. split; [done|].
      exists q. repeat split; try done.
      intros [= Ht].
      assert (Hq' : q ∈ placeholder_of (Some eid) (Some tid) db).
      { apply elem_of_placeholder_of. unfold Questions.key in Hq.
        simpl in Hq. injection Hq as He Hp. repeat split; congruence. }
      rewrite Hq0 in Hq'. by apply elem_of_nil in Hq'.
    + repeat split; try done; auto.
      * intros [_ (eid' & d' & a' & [= <-] & [= <-] & [= <-]
                   & [Hout|[_ (q & Hin & Hq & _)]])]; [done|].
        exfalso. apply Hkey. apply list_elem_of_fmap. by exists q.
      * exists tid, eid, ti, sc, d, a, p. repeat split; try done.
        -- eexists. split; [apply elem_of_index_insert; by left|].
           by repeat split.
        -- unfold beside_settings. simpl.
           apply filter_index_insert_out. by intros Hne; apply Hne.
Qed.

Lemma update_placeholder_idempotent e t ti sc d a p en q :
  update_placeholder e t ti sc d a p en (update_placeholder e t ti sc d a p en q)
  = update_placeholder e t ti sc d a p en q.
Proof.
  unfold update_placeholder.
  destruct (decide (Questions.exam_id q = e /\ Questions.teacher_id q = t
                    /\ Questions.question_text q = "placeholder"%string))
    as [Hq|Hq]; simpl.
  - by rewrite decide_True.
  - by rewrite decide_False.
Qed.

Lemma placeholder_of_update e t ti sc d a p en db :
  placeholder_of (Some e) (Some t)
    (set_questions (fmap (update_placeholder e t ti sc d a p en)) db)
  = update_placeholder e t ti sc d a p en <$> placeholder_of (Some e) (Some t) db.
Proof.
  unfold placeholder_of. simpl. apply filter_fmap_agree.
  intros q. unfold update_placeholder. by case_decide.
Qed.

Lemma update_placeholder_absent e t ti sc d a p en db :
  placeholder_of (Some e) (Some t) db = [] ->
  update_placeholder e t ti sc d a p en <$> questions db = questions db.
Proof.
  intros Hnone. apply list_eq. intros i. rewrite list_lookup_fmap.
  destruct (questions db !! i) as [q|] eqn:Hq; [|done]. simpl. f_equal.
  unfold update_placeholder. case_decide as Hm; [|done].
  assert (Hin : q ∈ placeholder_of (Some e) (Some t) db).
  { apply elem_of_placeholder_of. destruct Hm as (-> & -> & ->).
    split; [done|]. by eapply list_elem_of_lookup_2. }
  rewrite Hnone in Hin. by apply elem_of_nil in Hin.
Qed.

(** X13.  Saving the same exam settings twice leaves the store that saving
    them once leaves, with the same status. *)
Theorem save_exam_settings_idempotent t e title school dur att pp en db :
  save_exam_settings t e title school dur att pp en
    (save_exam_settings t e title school dur att pp en db).2
  = save_exam_settings t e title school dur att pp en db.
Proof.
  unfold save_exam_settings.
  destruct (negb (truthy t && truthy e && truthy title && truthy school
                  && truthy dur && truthy att && is_not_None pp)) eqn:Hall;
    simpl; [done|].
  destruct t as [tid|], e as [eid|], title as [ti|], school as [sc|],
    dur as [d|], att as [a|], pp as [p|]; simpl; try done.
  destruct (negb (fits_int64 d && fits_int64 a)) eqn:Hfit; simpl; [done|].
  destruct (fetchone (placeholder_of (Some eid) (Some tid) db))
    as [q0|] eqn:Hq0; simpl.
  - rewrite placeholder_of_update.
    apply head_Some in Hq0 as [l Hq0]. rewrite Hq0. simpl. f_equal.
    unfold set_questions. simpl. f_equal.
    rewrite <-list_fmap_compose. apply list_fmap_ext.
    intros i q _. apply update_placeholder_idempotent.
  - case_decide as Hkey; simpl.
    + by rewrite Hq0, decide_True.
    + apply head_None in Hq0.
      set (r := {| Questions.exam_id := eid; Questions.teacher_id := tid;
                   Questions.question_text := "placeholder";
                   Questions.correct_option := "A"; Questions.options := "{}";
                   Questions.exam_title := ti; Questions.school_name := sc;
                   Questions.duration := d; Questions.allowed_attempts := a;
                   Questions.passing_percentage := p;
                   Questions.image_url := None;
                   Questions.enable_analysis_report :=
                     if truthy en then 1%Z else 0%Z |}).
      assert (Hone : placeholder_of (Some eid) (Some tid)
                       (set_questions (index_insert r) db) = [r]).
      { apply Permutation_singleton_r. unfold placeholder_of in *. simpl.
        rewrite index_insert_Permutation, filter_cons, Hq0.
        by rewrite decide_True. }
      rewrite Hone. simpl. f_equal.
      unfold set_questions. simpl. f_equal.
      rewrite fmap_index_insert by (intros q; apply update_placeholder_key).
      rewrite (update_placeholder_absent eid tid) by done. f_equal.
      unfold update_placeholder. by rewrite decide_True.
Qed.

(** ** Uploading and deleting questions *)

Lemma handle_reachable db r : reachable db -> reachable (handle db r).
Proof. intros [reqs ->]. exists (reqs ++ [r]). by rewrite run_snoc. Qed.

Lemma lists_texts qs listing :
  Forall2 (fun q v => listed_question q = Some v) qs listing ->
  Listing.question_text <$> listing = Questions.question_text <$> qs.
Proof.
  induction 1 as [|q v qs listing Hq _ IH]; [done|].
  rewrite !fmap_cons, IH. f_equal.
  apply listed_question_lists in Hq as (Ht & _). done.
Qed.

Lemma listed_question_row e t text c o i s :
  listed_question (question_row e t text c o i s)
  = Some {| Listing.question_text := text; Listing.correct_option := c;
            Listing.options := o; Listing.image_url := i |}.
Proof. unfold listed_question. simpl. by rewrite json_loads_dumps. Qed.

(** X14.  On a reachable store, once [single_upload_question] has answered
    200 for a question whose text is not that of the placeholder, the
    listing of the exam holds the question as uploaded, with its correct
    option, its options and its image, and holds no other record of that
    text: an upload under the text of a stored question replaces it. *)
Theorem uploaded_question_is_listed db :
  reachable db ->
  forall t e text original correct opts image,
    (single_upload_question t e text original correct opts image db).1 = 200%Z ->
    text <> Some "placeholder"%string ->
    exists eid txt c o listing,
      e = Some eid /\ text = Some txt /\ correct = Some c /\ opts = Some o
      /\ get_questions_by_exam eid
           (single_upload_question t e text original correct opts image db).2
         = Some listing
      /\ {| Listing.question_text := txt; Listing.correct_option := c;
            Listing.options := o; Listing.image_url := image |} ∈ listing
      /\ NoDup (Listing.question_text <$> listing).
Proof.
  intros Hreach t e text original correct opts image Hok Hreal.
  pose proof (reachable_store_ok _
                (handle_reachable db
                   (SingleUploadQuestion t e text original correct opts image)
                   Hreach)) as [Hk Hd].
  simpl in Hk, Hd. revert Hok Hk Hd.
  unfold single_upload_question. destruct (negb _); [done|].
  destruct t as [tid|], e as [eid|], text as [txt|], correct as [c|],
    opts as [o|]; try done.
  destruct (fetchone (placeholder_of (Some eid) (Some tid) db))
    as [settings|]; [|done].
  simpl. intros _ Hk Hd.
  set (db' := set_questions _ db) in *.
  exists eid, txt, c, o.
  destruct (mapM_is_Some_2 listed_question (real_questions (Some eid) db'))
    as [listing Hl].
  { eapply Forall_impl; [by apply real_questions_dumped|].
    intros q Hq. by apply listed_question_dumped. }
  exists listing. unfold get_questions_by_exam. rewrite Hl.
  apply mapM_Some_1 in Hl. repeat split; try done.
  - assert (Hin : question_row eid tid txt c o image settings
                  ∈ real_questions (Some eid) db').
    { apply elem_of_real_questions. repeat split; [simpl; congruence|].
      subst db'. simpl. apply elem_of_insert_or_replace. by left. }
    apply list_elem_of_lookup in Hin as [i Hi].
    destruct (Forall2_lookup_l _ _ _ _ _ Hl Hi) as (v & Hv & Hq).
    rewrite listed_question_row in Hq. injection Hq as <-.
    by eapply list_elem_of_lookup_2.
  - rewrite (lists_texts _ _ Hl). by apply real_questions_texts_unique.
Qed.

Lemma real_questions_insert_placeholder r e db :
  Questions.question_text r = "placeholder"%string ->
  real_questions e (set_questions (insert_or_replace_question r) db)
  = real_questions e db.
Proof.
  intros Hr. unfold real_questions, insert_or_replace_question. simpl.
  rewrite filter_index_insert_out by (by intros [_ Hne]).
  rewrite list_filter_filter. apply list_filter_iff. intros q. split.
  - by intros [? _].
  - intros [He Hq]. repeat split; [done..|].
    unfold Questions.key. intros [= _ Ht]. congruence.
Qed.

Lemma truthy_no_dict (o : option (gmap string string)) :
  truthy o = false <-> no_dict o.
Proof.
  unfold no_dict. destruct o as [m|]; cbv [truthy truthy_option truthy_dict].
  - rewrite bool_decide_eq_false. split.
    + intros Hm%dec_stable. right. by rewrite Hm.
    + intros [|[= ->]]; [done|]. by intros Hm.
  - split; [by left|done].
Qed.

(** X15.  A question uploaded under the text of the placeholder, with no
    original text, is accepted like any other, with 200 whenever the exam
    has its settings row and the fields are given, and is never shown: the
    questions that a session presents and that a submission is graded on
    are, for every exam, those of before the upload. *)
Theorem question_named_placeholder_is_hidden t e correct opts image db :
  ((single_upload_question t e (Some "placeholder"%string) None correct opts
      image db).1 = 200%Z
   <-> ~ (no_string t \/ no_string e \/ no_string correct \/ no_dict opts)
       /\ placeholder_of e t db <> [])
  /\ forall e',
       real_questions e'
         (single_upload_question t e (Some "placeholder"%string) None correct
            opts image db).2
       = real_questions e' db.
Proof.
  unfold single_upload_question.
  destruct (truthy t) eqn:Ht; simpl.
  2:{ apply truthy_no_string in Ht. split; [|done].
      split; [done|]. intros [Hno _]. exfalso. apply Hno. auto. }
  destruct (truthy e) eqn:He; simpl.
  2:{ apply truthy_no_string in He. split; [|done].
      split; [done|]. intros [Hno _]. exfalso. apply Hno. auto. }
  destruct (truthy correct) eqn:Hc; simpl.
  2:{ apply truthy_no_string in Hc. split; [|done].
      split; [done|]. intros [Hno _]. exfalso. apply Hno. auto. }
  destruct (truthy opts) eqn:Ho; simpl.
  2:{ apply truthy_no_dict in Ho. split; [|done].
      split; [done|]. intros [Hno _]. exfalso. apply Hno. auto. }
  assert (Hgiven : ~ (no_string t \/ no_string e \/ no_string correct
                      \/ no_dict opts)).
  { rewrite <-!truthy_no_string, <-truthy_no_dict. intros [|[|[|]]]; congruence. }
  destruct t as [tid|], e as [eid|], correct as [c|], opts as [o|]; try done.
  destruct (fetchone (placeholder_of (Some eid) (Some tid) db))
    as [settings|] eqn:Hs; simpl.
  - split.
    + split; [|done]. intros _. split; [done|].
      intros Hnil. by rewrite Hnil in Hs.
    + intros e'. by apply real_questions_insert_placeholder.
  - split; [|done]. split; [done|]. intros [_ Hne].
    apply head_None in Hs. done.
Qed.

Lemma filter_shorter {A} (P : A -> Prop) `{!forall x, Decision (P x)}
    (l : list A) :
  (length (filter P l) < length l)%nat <-> exists x, x ∈ l /\ ~ P x.
Proof.
  induction l as [|x l IH]; simpl.
  - split; [lia|]. intros (x & Hx & _). by apply elem_of_nil in Hx.
  - rewrite filter_cons. destruct (decide (P x)) as [Hx|Hx]; simpl.
    + rewrite <-Nat.succ_lt_mono, IH. split.
      * intros (y & Hy & HP). exists y. split; [by right|done].
      * intros (y & [->|Hy]%elem_of_cons & HP); [done|]. by exists y.
    + split; [|intros _; pose proof (length_filter P l); lia].
      intros _. exists x. split; [by left|done].
Qed.

Lemma filter_same_length {A} (P : A -> Prop) `{!forall x, Decision (P x)}
    (l : list A) :
  ~ (length (filter P l) < length l)%nat -> filter P l = l.
Proof.
  induction l as [|x l IH]; [done|]. rewrite filter_cons.
  destruct (decide (P x)); simpl; intros Hlen.
  - f_equal. apply IH. lia.
  - pose proof (length_filter P l). lia.
Qed.

(** X16.  [delete_question] answers 400 exactly when the teacher id, the
    exam id or the text is absent or empty, 200 exactly when the fields are
    given and a row of that teacher, exam and text is stored, and 404 in
    the remaining case; unless it answers 200 the store is as before.  On
    200 the rows of that teacher, exam and text are gone, the placeholder
    that carries the settings of the exam among them when the text is its
    text, and the other rows stay in their order. *)
Theorem delete_question_replies t e text db :
  ((delete_question t e text db).1 = 400%Z
   <-> no_string t \/ no_string e \/ no_string text)
  /\ ((delete_question t e text db).1 = 200%Z
      <-> ~ (no_string t \/ no_string e \/ no_string text)
          /\ exists q, q ∈ questions db
                       /\ Some (Questions.teacher_id q) = t
                       /\ Some (Questions.exam_id q) = e
                       /\ Some (Questions.question_text q) = text)
  /\ ((delete_question t e text db).1 = 400%Z
      \/ (delete_question t e text db).1 = 404%Z
      \/ (delete_question t e text db).1 = 200%Z)
  /\ ((delete_question t e text db).1 <> 200%Z ->
      (delete_question t e text db).2 = db)
  /\ ((delete_question t e text db).1 = 200%Z ->
      questions (delete_question t e text db).2
      = filter (fun q => ~ (Some (Questions.teacher_id q) = t
                            /\ Some (Questions.exam_id q) = e
                            /\ Some (Questions.question_text q) = text))
          (questions db)
      /\ students (delete_question t e text db).2 = students db
      /\ results (delete_question t e text db).2 = results db
      /\ in_progress_exams (delete_question t e text db).2
         = in_progress_exams db).
Proof.
  unfold delete_question.
  destruct (truthy t) eqn:Ht; simpl.
  2:{ apply truthy_no_string in Ht. repeat split; auto; try done.
      intros [Hno _]. exfalso. apply Hno. auto. }
  destruct (truthy e) eqn:He; simpl.
  2:{ apply truthy_no_string in He. repeat split; auto; try done.
      intros [Hno _]. exfalso. apply Hno. auto. }
  destruct (truthy text) eqn:Hx; simpl.
  2:{ apply truthy_no_string in Hx. repeat split; auto; try done.
      intros [Hno _]. exfalso. apply Hno. auto. }
  assert (Hgiven : ~ (no_string t \/ no_string e \/ no_string text)).
  { rewrite <-!truthy_no_string. intros [|[|]]; congruence. }
  destruct t as [tid|], e as [eid|], text as [txt|]; try done.
  unfold delete_question_row.
  destruct (decide _) as [Hlen|Hlen]; simpl.
  - simpl in Hlen. apply filter_shorter in Hlen as (q & Hq & Hm).
    apply dec_stable in Hm as (Ht' & He' & Hx').
    repeat split; auto; try done.
    + exists q. repeat split; auto; congruence.
    + apply list_filter_iff. intros r. split.
      * intros Hno (? & ? & ?). apply Hno. repeat split; congruence.
      * intros Hno (? & ? & ?). apply Hno. repeat split; congruence.
  - simpl in Hlen. repeat split; auto; try done.
    + intros [_ (q & Hq & Ht' & He' & Hx')]. exfalso.
      apply Hlen, filter_shorter.
      exists q. split; [done|]. intros Hno. apply Hno.
      repeat split; congruence.
    + intros _. unfold set_questions.
      rewrite (filter_same_length _ _ Hlen). by destruct db.
Qed.

Lemma real_questions_delete_placeholder t e e' db :
  real_questions e'
    (set_questions (delete_question_row t e "placeholder") db)
  = real_questions e' db.
Proof.
  unfold real_questions, delete_question_row. simpl.
  rewrite list_filter_filter. apply list_filter_iff. intros q. split.
  - by intros [? _].
  - intros [He Hq]. repeat split; [done..|]. by intros (_ & _ & ?).
Qed.

Lemma placeholder_of_delete_placeholder t e db :
  placeholder_of (Some e) (Some t)
    (set_questions (delete_question_row t e "placeholder") db) = [].
Proof.
  unfold placeholder_of, delete_question_row. simpl.
  rewrite list_filter_filter.
  destruct (filter _ _) as [|q l] eqn:Hf; [done|].
  assert (Hq : q ∈ q :: l) by left. rewrite <-Hf in Hq.
  apply list_elem_of_filter in Hq as [[(He & Ht & Hx) Hno] _].
  exfalso. apply Hno. repeat split; congruence.
Qed.

(** X17.  [delete_question] accepts the text of the placeholder.  Whatever
    it answers, the questions that sessions present and submissions are
    graded on stay as they were for every exam, and afterwards neither
    [single_upload_question] nor [bulk_upload_questions] answers 200 for
    that teacher and exam: with the placeholder the exam has lost the
    settings that every upload copies. *)
Theorem deleting_the_placeholder_closes_uploads t e db :
  (forall e',
     real_questions e'
       (delete_question (Some t) (Some e) (Some "placeholder"%string) db).2
     = real_questions e' db)
  /\ (forall text original correct opts image,
        (single_upload_question (Some t) (Some e) text original correct opts
           image
           (delete_question (Some t) (Some e) (Some "placeholder"%string)
              db).2).1 <> 200%Z)
  /\ (forall qs,
        (bulk_upload_questions (Some t) (Some e) qs
           (delete_question (Some t) (Some e) (Some "placeholder"%string)
              db).2).1 <> 200%Z).
Proof.
  unfold delete_question.
  destruct (truthy (Some t)) eqn:Ht; simpl.
  2:{ split; [done|split].
      - intros *. unfold single_upload_question. by rewrite Ht.
      - intros qs. unfold bulk_upload_questions. by rewrite Ht. }
  destruct (truthy (Some e)) eqn:He; simpl.
  2:{ split; [done|split].
      - intros *. unfold single_upload_question. by rewrite Ht, He.
      - intros qs. unfold bulk_upload_questions. by rewrite Ht, He. }
  set (db' := set_questions (delete_question_row t e "placeholder") db).
  assert (Hdb : forall (a b : Z),
            (if decide (length (questions db') < length (questions db))%nat
             then (a, db') else (b, db')).2 = db')
    by (intros; by case_decide).
  rewrite Hdb. split; [|split].
  - intros e'. apply real_questions_delete_placeholder.
  - intros *. unfold single_upload_question. subst db'.
    rewrite placeholder_of_delete_placeholder. simpl.
    by repeat case_match.
  - intros qs. unfold bulk_upload_questions. subst db'.
    rewrite placeholder_of_delete_placeholder. simpl.
    by repeat case_match.
Qed.

Lemma stored_question_is_listed eid tid text c o image settings db :
  store_ok db ->
  text <> "placeholder"%string ->
  question_row eid tid text c o image settings ∈ questions db ->
  exists listing,
    get_questions_by_exam eid db = Some listing
    /\ {| Listing.question_text := text; Listing.correct_option := c;
          Listing.options := o; Listing.image_url := image |} ∈ listing
    /\ NoDup (Listing.question_text <$> listing).
Proof.
  intros [Hk Hd] Hreal Hin.
  destruct (mapM_is_Some_2 listed_question (real_questions (Some eid) db))
    as [listing Hl].
  { eapply Forall_impl; [by apply real_questions_dumped|].
    intros q Hq. by apply listed_question_dumped. }
  exists listing. unfold get_questions_by_exam. rewrite Hl.
  apply mapM_Some_1 in Hl. repeat split; try done.
  - assert (Hin' : question_row eid tid text c o image settings
                   ∈ real_questions (Some eid) db).
    { apply elem_of_real_questions. by repeat split. }
    apply list_elem_of_lookup in Hin' as [i Hi].
    destruct (Forall2_lookup_l _ _ _ _ _ Hl Hi) as (v & Hv & Hq).
    rewrite listed_question_row in Hq. injection Hq as <-.
    by eapply list_elem_of_lookup_2.
  - rewrite (lists_texts _ _ Hl). by apply real_questions_texts_unique.
Qed.

Definition no_list {A} (o : option (list A)) : Prop := o = None \/ o = Some [].

Lemma truthy_no_list {A} (o : option (list A)) : truthy o = false <-> no_list o.
Proof.
  unfold no_list. destruct o as [[|x l]|]; cbv [truthy truthy_option truthy_list].
  - split; [by right|done].
  - split; [done|]. by intros [|].
  - split; [by left|done].
Qed.

(** an entry of a bulk upload of questions without one of the three keys
    that the loop reads with [q[...]] *)
Definition lacks_field (q : Upload.question) : Prop :=
  Upload.options q = None \/ Upload.question_text q = None
  \/ Upload.correct_option q = None.

Lemma uploaded_row_None e t s q :
  uploaded_row e t s q = None <-> lacks_field q.
Proof.
  unfold uploaded_row, lacks_field.
  destruct (Upload.options q), (Upload.question_text q),
    (Upload.correct_option q); simpl; split; auto; try done;
    by intros [|[|]].
Qed.

Lemma uploaded_rows_None e t s qs :
  mapM (uploaded_row e t s) qs = None <-> Exists lacks_field qs.
Proof.
  rewrite eq_None_not_Some, mapM_is_Some, <-Exists_Forall_neg.
  - apply Exists_proper; [|done]. intros q. unfold compose.
    by rewrite <-(uploaded_row_None e t s), eq_None_not_Some.
  - intros q. unfold compose.
    destruct (uploaded_row e t s q); [by left; eexists|].
    right. by intros [].
Qed.

(** X18.  [bulk_upload_questions] answers 400 exactly when the teacher id or
    the exam id is absent or empty or the list of questions is absent or
    empty, 404 exactly when these are given and the exam has no placeholder
    row of that teacher, 500 exactly when these are given, the placeholder
    is there and an entry of the list lacks its options, its text or its
    correct option, and 200 otherwise; unless it answers 200 the store is as
    before, the rows of the entries before the incomplete one included, and
    whatever it answers only the questions table is written. *)
Theorem bulk_upload_questions_replies t e qs db :
  ((bulk_upload_questions t e qs db).1 = 400%Z
   <-> no_string t \/ no_string e \/ no_list qs)
  /\ ((bulk_upload_questions t e qs db).1 = 404%Z
      <-> ~ (no_string t \/ no_string e \/ no_list qs)
          /\ placeholder_of e t db = [])
  /\ ((bulk_upload_questions t e qs db).1 = 500%Z
      <-> ~ (no_string t \/ no_string e \/ no_list qs)
          /\ placeholder_of e t db <> []
          /\ exists entries, qs = Some entries /\ Exists lacks_field entries)
  /\ ((bulk_upload_questions t e qs db).1 = 400%Z
      \/ (bulk_upload_questions t e qs db).1 = 404%Z
      \/ (bulk_upload_questions t e qs db).1 = 500%Z
      \/ (bulk_upload_questions t e qs db).1 = 200%Z)
  /\ ((bulk_upload_questions t e qs db).1 <> 200%Z ->
      (bulk_upload_questions t e qs db).2 = db)
  /\ students (bulk_upload_questions t e qs db).2 = students db
  /\ results (bulk_upload_questions t e qs db).2 = results db
  /\ in_progress_exams (bulk_upload_questions t e qs db).2
     = in_progress_exams db.
Proof.
  unfold bulk_upload_questions.
  destruct (truthy t) eqn:Ht; simpl.
  2:{ apply truthy_no_string in Ht. repeat split; auto; try done.
      - intros [Hno _]. exfalso. apply Hno. auto.
      - intros [Hno _]. exfalso. apply Hno. auto. }
  destruct (truthy e) eqn:He; simpl.
  2:{ apply truthy_no_string in He. repeat split; auto; try done.
      - intros [Hno _]. exfalso. apply Hno. auto.
      - intros [Hno _]. exfalso. apply Hno. auto. }
  destruct (truthy qs) eqn:Hq; simpl.
  2:{ apply truthy_no_list in Hq. repeat split; auto; try done.
      - intros [Hno _]. exfalso. apply Hno. auto.
      - intros [Hno _]. exfalso. apply Hno. auto. }
  assert (Hgiven : ~ (no_string t \/ no_string e \/ no_list qs)).
  { rewrite <-!truthy_no_string, <-truthy_no_list. intros [|[|]]; congruence. }
  destruct t as [tid|], e as [eid|], qs as [l|]; try done.
  destruct (fetchone (placeholder_of (Some eid) (Some tid) db))
    as [settings|] eqn:Hs; cbn [fst snd].
  - assert (Hthere : placeholder_of (Some eid) (Some tid) db <> []).
    { intros Hnil. by rewrite Hnil in Hs. }
    destruct (mapM (uploaded_row eid tid settings) l) as [rows|] eqn:Hm;
      cbn [fst snd].
    + repeat split; auto; try done.
      * by intros [_ Hnil].
      * intros (_ & _ & entries & [= <-] & Hex).
        apply (uploaded_rows_None eid tid settings) in Hex. congruence.
    + repeat split; auto; try done.
      * by intros [_ Hnil].
      * exists l. split; [done|]. by eapply uploaded_rows_None.
  - apply head_None in Hs. repeat split; auto; try done.
    by intros (_ & Hne & _).
Qed.

Lemma insert_or_replace_keeps r q t :
  Questions.key q <> Questions.key r ->
  q ∈ t -> q ∈ insert_or_replace_question r t.
Proof. intros Hk Hq. apply elem_of_insert_or_replace. by right. Qed.

Lemma bulk_insert_keeps (later : list Questions.row) r t :
  Forall (fun r' => Questions.key r' <> Questions.key r) later ->
  r ∈ t ->
  r ∈ foldl (fun t row => insert_or_replace_question row t) t later.
Proof.
  intros Hl. revert t. induction Hl as [|r' later Hr' _ IH]; [done|].
  intros t Hr. simpl. apply IH. apply insert_or_replace_keeps; [|done].
  intros Hk. by apply Hr'.
Qed.

Lemma uploaded_rows_other_keys e t s text later rows r :
  Forall (fun q' => Upload.question_text q' <> Some text) later ->
  Forall2 (fun q' r' => uploaded_row e t s q' = Some r') later rows ->
  Questions.question_text r = text ->
  Forall (fun r' => Questions.key r' <> Questions.key r) rows.
Proof.
  intros Hl Hrows Hr. induction Hrows as [|q' r' later rows Hq' _ IH]; [done|].
  apply Forall_cons in Hl as [Hne Hl]. constructor; [|by apply IH].
  apply uploaded_row_inv in Hq' as (text' & c & o & Ht & _ & _ & ->).
  unfold Questions.key. simpl. intros [= _ Hk]. congruence.
Qed.

(** X19.  On a reachable store, once [bulk_upload_questions] has answered
    200, the listing of the exam holds every entry of the upload that no
    later entry of the same upload repeats the text of, as it was sent, and
    holds one record per text: of the entries that share a text the last
    one is stored.  The text of the placeholder apart, which is never
    listed. *)
Theorem bulk_upload_last_entry_wins db :
  reachable db ->
  forall t e earlier q later,
    (bulk_upload_questions t e (Some (earlier ++ q :: later)) db).1 = 200%Z ->
    Forall (fun q' => Upload.question_text q' <> Upload.question_text q)
           later ->
    Upload.question_text q <> Some "placeholder"%string ->
    exists eid text c o listing,
      e = Some eid
      /\ Upload.question_text q = Some text
      /\ Upload.correct_option q = Some c
      /\ Upload.options q = Some o
      /\ get_questions_by_exam eid
           (bulk_upload_questions t e (Some (earlier ++ q :: later)) db).2
         = Some listing
      /\ {| Listing.question_text := text;
            Listing.correct_option := c;
            Listing.options := o;
            Listing.image_url := Upload.image_url q |} ∈ listing
      /\ NoDup (Listing.question_text <$> listing).
Proof.
  intros Hreach t e earlier q later Hok Hlater Hreal.
  pose proof (reachable_store_ok _
                (handle_reachable db
                   (BulkUploadQuestions t e (Some (earlier ++ q :: later)))
                   Hreach)) as Hstore.
  simpl in Hstore. revert Hok Hstore.
  unfold bulk_upload_questions. destruct (_ || _); [done|].
  destruct t as [tid|], e as [eid|]; try done.
  destruct (fetchone (placeholder_of (Some eid) (Some tid) db))
    as [settings|]; [|done].
  destruct (mapM (uploaded_row eid tid settings) (earlier ++ q :: later))
    as [rows|] eqn:Hm; [|done].
  cbn [fst snd]. intros _ Hstore.
  apply mapM_Some_1, Forall2_app_inv_l in Hm
    as (rows1 & rows2' & _ & Hm & ->).
  apply Forall2_cons_inv_l in Hm as (r & rows2 & Hr & Hrows2 & ->).
  apply uploaded_row_inv in Hr as (text & c & o & Htext & Hc & Ho & ->).
  exists eid, text, c, o.
  destruct (stored_question_is_listed eid tid text c o (Upload.image_url q)
              settings _ Hstore)
    as (listing & Hl & Hin & Hnd).
  { congruence. }
  { simpl. rewrite foldl_app. simpl. apply bulk_insert_keeps.
    - apply (uploaded_rows_other_keys eid tid settings text later);
        [by rewrite <-Htext|exact Hrows2|done].
    - apply elem_of_insert_or_replace. by left. }
  by exists listing.
Qed.

(** ** The listings of a teacher *)

(** X20.  The listing of a teacher's students names each student id once,
    and, for an id that is not empty, holds the id with a name exactly when
    [get_student_by_id] finds that name and that teacher for the id: the two
    handlers agree on who is enrolled with whom.  The empty id is the
    exception: [bulk_upload_students] enrols a student under it, the
    listing shows the student, and [get_student_by_id] answers that an id
    is required. *)
Theorem students_listing_agrees_with_lookup t db :
  NoDup (get_students_by_teacher t db).*1
  /\ (forall sid name,
        sid <> ""%string ->
        ((sid, name) ∈ get_students_by_teacher t db
         <-> get_student_by_id (Some sid) db = StudentFound name t))
  /\ (forall name,
        get_student_by_id (Some ""%string) db = StudentIdRequired
        /\ (t <> ""%string ->
            students db !! ""%string = None ->
            (bulk_upload_students (Some t)
               (Some [(Some ""%string, Some name)]) db).1
            = 200%Z
            /\ (""%string, name)
               ∈ get_students_by_teacher t
                   (bulk_upload_students (Some t)
                      (Some [(Some ""%string, Some name)]) db).2)).
Proof.
  unfold get_students_by_teacher. split; [|split].
  - rewrite <-list_fmap_compose.
    eapply sublist_NoDup; [apply (NoDup_fst_map_to_list (students db))|].
    apply fmap_sublist.
    apply (sublist_filter (fun student => Students.teacher_id student.2 = t)).
  - intros sid name Hsid. rewrite list_elem_of_fmap.
    unfold get_student_by_id, student_by_id.
    assert (Hs : truthy (Some sid) = true).
    { destruct (truthy (Some sid)) eqn:Hs; [done|].
      apply truthy_no_string in Hs as [|[= ->]]; done. }
    rewrite Hs. simpl. split.
    + intros ([sid' row] & [= -> ->] & [Ht Hin]%list_elem_of_filter).
      apply elem_of_map_to_list in Hin. simpl in *. rewrite Hin.
      by rewrite Ht.
    + destruct (students db !! sid) as [row|] eqn:Hrow; [|done].
      intros [= <- <-]. exists (sid, row). split; [done|].
      apply list_elem_of_filter. split; [done|].
      by apply elem_of_map_to_list.
  - intros name. split; [done|]. intros Ht Hfree.
    assert (Htt : truthy (Some t) = true).
    { destruct (truthy (Some t)) eqn:Htt; [done|].
      apply truthy_no_string in Htt as [|[= ->]]; done. }
    unfold bulk_upload_students. rewrite Htt. simpl. split; [done|].
    rewrite list_elem_of_fmap.
    exists (""%string, {| Students.teacher_id := t;
                          Students.student_name := name |}).
    split; [done|]. apply list_elem_of_filter. split; [done|].
    apply elem_of_map_to_list. unfold insert_or_ignore_student.
    rewrite Hfree. by rewrite lookup_insert_eq.
Qed.

(** X21.  Once [save_exam_settings] has answered 200, the teacher's listing
    of exams holds the exam under the title of the request; the listing
    never holds a pair of id and title twice. *)
Theorem saved_exam_is_listed t e title school dur att pp en db :
  (forall tid, NoDup (get_exams_by_teacher tid db))
  /\ ((save_exam_settings t e title school dur att pp en db).1 = 200%Z ->
      exists tid eid ti,
        t = Some tid /\ e = Some eid /\ title = Some ti
        /\ (eid, ti)
           ∈ get_exams_by_teacher tid
               (save_exam_settings t e title school dur att pp en db).2).
Proof.
  split; [intros tid; apply NoDup_remove_dups|].
  unfold save_exam_settings.
  destruct (negb (truthy t && _ && _ && _ && _ && _ && _)); [done|].
  destruct t as [tid|], e as [eid|], title as [ti|], school as [sc|],
    dur as [d|], att as [a|], pp as [p|]; try done.
  destruct (negb (fits_int64 d && fits_int64 a)); [done|].
  destruct (fetchone (placeholder_of (Some eid) (Some tid) db))
    as [q0|] eqn:Hs.
  - simpl. intros _. exists tid, eid, ti. repeat split.
    unfold get_exams_by_teacher. apply elem_of_remove_dups.
    apply list_elem_of_fmap.
    assert (Hq0 : q0 ∈ placeholder_of (Some eid) (Some tid) db).
    { unfold fetchone in Hs. apply head_Some in Hs as [l ->]. left. }
    apply list_elem_of_filter in Hq0 as [(He & Ht & Hp) Hin].
    injection He as He. injection Ht as Ht.
    set (en' := if truthy en then 1%Z else 0%Z).
    exists (update_placeholder eid tid ti sc d a p en' q0).
    unfold update_placeholder at 1 2. rewrite decide_True by done. simpl.
    split; [by rewrite He|].
    apply list_elem_of_filter. split.
    + unfold update_placeholder. rewrite decide_True by done. done.
    + simpl. by apply list_elem_of_fmap_2.
  - case_decide; [done|]. simpl. intros _. exists tid, eid, ti.
    repeat split. unfold get_exams_by_teacher. apply elem_of_remove_dups.
    apply list_elem_of_fmap. eexists. split; [|apply list_elem_of_filter; split;
      [|simpl; apply elem_of_index_insert; by left]]; done.
Qed.

End Coverage.

(** * The teachers' accounts *)

Section AccountProperties.
Context `{PasswordHash}.

Lemma given_string (s : string) : s <> ""%string -> truthy (Some s) = true.
Proof.
  intros Hs. destruct (truthy (Some s)) eqn:Ht; [done|].
  apply truthy_no_string in Ht as [|[= ->]]; done.
Qed.

Lemma register_teacher_keeps salt t p tid h teachers :
  teachers !! tid = Some h ->
  (register_teacher salt t p teachers).2 !! tid = Some h.
Proof.
  intros Hh. unfold register_teacher. destruct (_ || _); [done|].
  destruct t as [tid'|], p as [pw|]; try done.
  destruct (teachers !! tid') eqn:Ht; [done|]. simpl.
  rewrite lookup_insert_ne; [done|]. intros ->. congruence.
Qed.

Lemma register_all_keeps requests tid h teachers :
  teachers !! tid = Some h ->
  register_all requests teachers !! tid = Some h.
Proof.
  revert teachers. induction requests as [|r requests IH]; [done|].
  intros teachers Hh. apply IH. by apply register_teacher_keeps.
Qed.

(** X22.  [register_teacher] answers 400 exactly when the id or the
    password is absent or empty, 409 exactly when they are given and the id
    is registered, and 201 otherwise; on 400 and 409 the table is as
    before, so a registered teacher's hash is not replaced.  On 201 the id
    was free and the table gains that id alone, with the hash of the
    password under the salt drawn. *)
Theorem register_teacher_replies salt t p teachers :
  ((register_teacher salt t p teachers).1 = 400%Z
   <-> no_string t \/ no_string p)
  /\ ((register_teacher salt t p teachers).1 = 409%Z
      <-> ~ (no_string t \/ no_string p)
          /\ exists tid, t = Some tid /\ is_Some (teachers !! tid))
  /\ ((register_teacher salt t p teachers).1 = 400%Z
      \/ (register_teacher salt t p teachers).1 = 409%Z
      \/ (register_teacher salt t p teachers).1 = 201%Z)
  /\ ((register_teacher salt t p teachers).1 <> 201%Z ->
      (register_teacher salt t p teachers).2 = teachers)
  /\ ((register_teacher salt t p teachers).1 = 201%Z ->
      exists tid pw,
        t = Some tid /\ p = Some pw /\ teachers !! tid = None
        /\ (register_teacher salt t p teachers).2
           = <[tid := generate_password_hash salt pw]> teachers).
Proof.
  unfold register_teacher.
  destruct (truthy t) eqn:Ht; simpl.
  2:{ apply truthy_no_string in Ht. repeat split; auto; try done.
      intros [Hno _]. exfalso. apply Hno. auto. }
  destruct (truthy p) eqn:Hp; simpl.
  2:{ apply truthy_no_string in Hp. repeat split; auto; try done.
      intros [Hno _]. exfalso. apply Hno. auto. }
  assert (Hgiven : ~ (no_string t \/ no_string p)).
  { rewrite <-!truthy_no_string. intros [|]; congruence. }
  destruct t as [tid|], p as [pw|]; try done.
  destruct (teachers !! tid) as [h|] eqn:Hh; simpl.
  - repeat split; auto; try done. exists tid. split; [done|].
    by rewrite Hh.
  - repeat split; auto; try done.
    + intros [_ (tid' & [= <-] & Hs)]. rewrite Hh in Hs.
      by destruct Hs.
    + by exists tid, pw.
Qed.

(** X23.  A registration that was answered 201 holds for good: whatever
    registrations follow, for this id or for others, [login_teacher] answers
    200 for the id with the password it was registered with, and 401 for
    every password that the hash made at the registration does not check
    against. *)
Theorem registered_teacher_logs_in salt tid pw later teachers :
  (register_teacher salt (Some tid) (Some pw) teachers).1 = 201%Z ->
  login_teacher (Some tid) (Some pw)
    (register_all later
       (register_teacher salt (Some tid) (Some pw) teachers).2) = 200%Z
  /\ forall other,
       other <> ""%string ->
       check_password_hash (generate_password_hash salt pw) other = false ->
       login_teacher (Some tid) (Some other)
         (register_all later
            (register_teacher salt (Some tid) (Some pw) teachers).2) = 401%Z.
Proof.
  intros Hok.
  assert (Hgiven : negb (truthy (Some tid)) || negb (truthy (Some pw)) = false).
  { revert Hok. unfold register_teacher. by destruct (_ || _). }
  assert (Hstored :
    register_all later
      (register_teacher salt (Some tid) (Some pw) teachers).2 !! tid
    = Some (generate_password_hash salt pw)).
  { apply register_all_keeps. revert Hok. unfold register_teacher.
    rewrite Hgiven. destruct (teachers !! tid); [done|].
    intros _. simpl. by rewrite lookup_insert_eq. }
  apply orb_false_iff in Hgiven as [Ht Hp]. split.
  - unfold login_teacher. rewrite Ht, Hp, Hstored. simpl.
    by rewrite check_generated_hash.
  - intros other Hother Hcheck. unfold login_teacher.
    rewrite Ht, (given_string other Hother), Hstored. simpl.
    by rewrite Hcheck.
Qed.

End AccountProperties.

(** * The added properties, evaluated on the sample exam *)

Lemma sample_has_questions :
  real_questions (Some "E1") (run Sample.ready init_db) <> [].
Proof. intros Hnil. vm_compute in Hnil. discriminate. Qed.

Lemma sample_has_no_results :
  "r1" ∉ Results.result_id <$> results (run Sample.ready init_db).
Proof. vm_compute. apply not_elem_of_nil. Qed.

Lemma sample_student_enrolled :
  students (run Sample.ready init_db) !! "S1"
  = Some {| Students.teacher_id := "T1"; Students.student_name := "Ann" |}.
Proof. vm_compute. reflexivity. Qed.

(** The sample submission meets every condition and is graded. *)
Lemma submit_exam_replies_sample :
  exists score report,
    (submit_exam "r1" None (Some "E1") (Some "S1") (Some "Ann")
       (Some Sample.answers) (Some "T1") (run Sample.ready init_db)).1
    = Submitted score report.
Proof.
  apply (submit_exam_replies (run Sample.ready init_db)
           sample_ready_reachable "r1" None (Some "E1") (Some "S1")
           (Some "Ann") (Some Sample.answers) (Some "T1")).
  split; [exact sample_has_questions|].
  split; [by eexists|]. split; [by eexists|]. split; [by eexists|].
  split; [by eexists|]. split; [exact sample_has_no_results|reflexivity].
Defined.

(** After the sample submission the results are well formed. *)
Lemma results_are_well_formed_sample :
  NoDup (Results.result_id
           <$> results (run (Sample.ready ++ [Sample.submit "r1"]) init_db))
  /\ Forall (fun r => (0 <= Results.score r)%Z)
       (results (run (Sample.ready ++ [Sample.submit "r1"]) init_db)).
Proof.
  apply results_are_well_formed.
  exists (Sample.ready ++ [Sample.submit "r1"]). reflexivity.
Defined.

(** The questions of the sample exam are well formed. *)
Lemma questions_are_well_formed_sample :
  NoDup (Questions.key <$> questions (run Sample.ready init_db))
  /\ Forall (fun q => Questions.question_text q <> "placeholder"%string ->
                      is_Some (json_loads (Questions.options q)))
       (questions (run Sample.ready init_db)).
Proof. apply questions_are_well_formed, sample_ready_reachable. Defined.

(** A deletion asked by another teacher leaves the sample student
    enrolled. *)
Lemma roster_requests_keep_other_teachers_students_sample :
  students (delete_student (Some "T2") (Some "S1")
              (run Sample.ready init_db)).2 !! "S1"
  = Some {| Students.teacher_id := "T1"; Students.student_name := "Ann" |}.
Proof.
  destruct (roster_requests_keep_other_teachers_students "T2" "S1"
              {| Students.teacher_id := "T1"; Students.student_name := "Ann" |}
              (run Sample.ready init_db) sample_student_enrolled)
    as (_ & _ & Hdelete & _).
  - simpl. discriminate.
  - exact (Hdelete (Some "S1")).
Defined.

Lemma sample_third_question_accepted :
  (single_upload_question (Some "T1") (Some "E1") (Some "2+4") None (Some "A")
     (Some Sample.choices) None (run Sample.ready init_db)).1 = 200%Z.
Proof. vm_compute. reflexivity. Qed.

(** A third question uploaded to the sample exam is listed. *)
Lemma uploaded_question_is_listed_sample :
  exists eid txt c o listing,
    Some "E1" = Some eid /\ Some "2+4" = Some txt /\ Some "A" = Some c
    /\ Some Sample.choices = Some o
    /\ get_questions_by_exam eid
         (single_upload_question (Some "T1") (Some "E1") (Some "2+4") None
            (Some "A") (Some Sample.choices) None
            (run Sample.ready init_db)).2
       = Some listing
    /\ {| Listing.question_text := txt; Listing.correct_option := c;
          Listing.options := o; Listing.image_url := None |} ∈ listing
    /\ NoDup (Listing.question_text <$> listing).
Proof.
  apply (uploaded_question_is_listed (run Sample.ready init_db)
           sample_ready_reachable (Some "T1") (Some "E1") (Some "2+4") None
           (Some "A") (Some Sample.choices) None
           sample_third_question_accepted).
  discriminate.
Defined.

Lemma sample_bulk_upload_accepted :
  (bulk_upload_questions (Some "T1") (Some "E1")
     (Some ([SampleUpload.first] ++ SampleUpload.second :: []))
     (run Sample.ready init_db)).1 = 200%Z.
Proof. vm_compute. reflexivity. Qed.

(** Of two entries with one text the second is listed. *)
Lemma bulk_upload_last_entry_wins_sample :
  exists eid listing,
    Some "E1" = Some eid
    /\ get_questions_by_exam eid
         (bulk_upload_questions (Some "T1") (Some "E1")
            (Some ([SampleUpload.first] ++ SampleUpload.second :: []))
            (run Sample.ready init_db)).2
       = Some listing
    /\ {| Listing.question_text := "2+4"; Listing.correct_option := "B";
          Listing.options := Sample.choices; Listing.image_url := None |}
       ∈ listing
    /\ NoDup (Listing.question_text <$> listing).
Proof.
  destruct (bulk_upload_last_entry_wins (run Sample.ready init_db)
              sample_ready_reachable (Some "T1") (Some "E1")
              [SampleUpload.first] SampleUpload.second []
              sample_bulk_upload_accepted)
    as (eid & text & c & o & listing & He & Ht & Hc & Ho & Hl & Hin & Hnd).
  - apply Forall_nil_2.
  - simpl. discriminate.
  - simpl in Ht, Hc, Ho, Hin.
    injection Ht as <-. injection Hc as <-. injection Ho as <-.
    by exists eid, listing.
Defined.

Lemma sample_teacher_registered :
  (register_teacher "salt" (Some "T1") (Some "secret") ∅).1 = 201%Z.
Proof. vm_compute. reflexivity. Qed.

(** A teacher who registered logs in, also after somebody tried to register
    the id again with another password. *)
Lemma registered_teacher_logs_in_sample :
  login_teacher (Some "T1") (Some "secret")
    (register_all [("pepper", Some "T1", Some "other")]
       (register_teacher "salt" (Some "T1") (Some "secret") ∅).2) = 200%Z.
Proof.
  destruct (registered_teacher_logs_in "salt" "T1" "secret"
              [("pepper", Some "T1", Some "other")] ∅
              sample_teacher_registered) as [Hlogin _].
  exact Hlogin.
Defined.
